(** * sell-nfts.js: a shallow embedding of the listing scripts

    The repository holds two variants of one Node.js script that lists the
    ERC-721 tokens of a batch of wallets on OpenSea through Seaport orders:
    [src/unnamed/part_000] (the complete script, module [SellNfts] below) and
    [src/main.js] (an abridged variant, module [MainJs] below).  The two
    share their module-level code (constants, environment parsing,
    validation, [logToFile], [getWallet]); they differ inside [listNFT] and
    in the pause of [main].

    JavaScript strings are modelled as [string], a character being a UTF-16
    code unit of the Latin-1 range (0..255).  JavaScript numbers are modelled
    by [number]: the integer-valued doubles, the infinities and NaN, with the
    rounding of IEEE-754 written out ([round53]); -0 is identified with 0
    (the script never divides by it and prints both the same way). *)

From Stdlib Require Import ZArith NArith List Sorted String Ascii Bool Lia QArith.
Import ListNotations.
Local Open Scope string_scope.
Local Open Scope Z_scope.
Set Warnings "-register-all".

(** ** Characters and strings *)

Definition code (c : ascii) : Z := Z.of_N (N_of_ascii c).

Definition chr (n : Z) : string := String (ascii_of_N (Z.to_N n)) EmptyString.

(** The line feed of ["\n"] and the quotation mark of the success message. *)
Definition LF : ascii := ascii_of_N 10.
Definition nl : string := String LF EmptyString.
Definition dquote : string := chr 34.

(** ECMAScript WhiteSpace and LineTerminator code units below 256:
    TAB, LF, VT, FF, CR, SP and NBSP. *)
Definition is_space (c : ascii) : bool :=
  let n := code c in
  ((9 <=? n) && (n <=? 13)) || (n =? 32) || (n =? 160).

(** String.prototype.trim *)
Fixpoint trimStart (s : string) : string :=
  match s with
  | EmptyString => EmptyString
  | String c r => if is_space c then trimStart r else s
  end.

Fixpoint trimEnd (s : string) : string :=
  match s with
  | EmptyString => EmptyString
  | String c r =>
      match trimEnd r with
      | EmptyString => if is_space c then EmptyString else String c EmptyString
      | r' => String c r'
      end
  end.

Definition trim (s : string) : string := trimEnd (trimStart s).

(** String.prototype.split with a one-character separator: the pieces
    between the separators, so [split c EmptyString] is the one empty
    piece. *)
Fixpoint split (sep : ascii) (s : string) : list string :=
  match s with
  | EmptyString => [EmptyString]
  | String c r =>
      if Ascii.eqb c sep then EmptyString :: split sep r
      else match split sep r with
           | [] => [String c EmptyString]
           | p :: ps => String c p :: ps
           end
  end.

(** [Boolean] applied to a string: the empty string is the only falsy one. *)
Definition nonempty (s : string) : bool :=
  match s with EmptyString => false | String _ _ => true end.

(** String.prototype.toLowerCase on Latin-1 code units: A-Z and the
    accented capitals U+00C0..U+00DE (but the multiplication sign U+00D7)
    move 32 up, every other unit stays. *)
Definition is_upper (c : ascii) : bool :=
  let n := code c in
  ((65 <=? n) && (n <=? 90)) || ((192 <=? n) && (n <=? 222) && negb (n =? 215)).

Definition lower_char (c : ascii) : ascii :=
  if is_upper c then ascii_of_N (N_of_ascii c + 32) else c.

Fixpoint toLowerCase (s : string) : string :=
  match s with
  | EmptyString => EmptyString
  | String c r => String (lower_char c) (toLowerCase r)
  end.

(** Decimal rendering of integers, as [Number.prototype.toString] gives it
    for the counts the script prints and [BigNumber.toString] for any
    integer. *)
Definition digit_char (d : Z) : ascii := ascii_of_N (48 + Z.to_N d).

Fixpoint digits_fuel (fuel : nat) (n : Z) : string :=
  match fuel with
  | O => EmptyString
  | S f =>
      if n <? 10 then String (digit_char n) EmptyString
      else digits_fuel f (n / 10) ++ String (digit_char (n mod 10)) EmptyString
  end.

Definition string_of_Z (z : Z) : string :=
  let n := Z.abs z in
  let ds := digits_fuel (S (Z.to_nat (Z.log2 n))) n in
  if z <? 0 then "-" ++ ds else ds.

Definition string_of_nat (n : nat) : string := string_of_Z (Z.of_nat n).

(** ** Numbers *)

Inductive number : Type :=
| Num (z : Z)
| Inf (negative : bool)
| NaN.

(** Round to nearest, ties to even, on a 53-bit significand: integers up
    to 2^53 in magnitude are kept, larger ones lose their low bits. *)
Definition round53 (z : Z) : Z :=
  let a := Z.abs z in
  if a <=? 2 ^ 53 then z
  else
    let e := Z.log2 a - 52 in
    let q := Z.shiftr a e in
    let r := a - Z.shiftl q e in
    let half := Z.shiftl 1 (e - 1) in
    let q' := if r <? half then q
              else if half <? r then q + 1
              else if Z.even q then q else q + 1 in
    Z.sgn z * Z.shiftl q' e.

Definition to_number (z : Z) : number :=
  let r := round53 z in
  if 2 ^ 1024 <=? Z.abs r then Inf (r <? 0) else Num r.

Definition num_mul (a b : number) : number :=
  match a, b with
  | NaN, _ | _, NaN => NaN
  | Num x, Num y => to_number (x * y)
  | Inf s, Num y | Num y, Inf s =>
      if y =? 0 then NaN else Inf (xorb s (y <? 0))
  | Inf s, Inf t => Inf (xorb s t)
  end.

Definition num_add (a b : number) : number :=
  match a, b with
  | NaN, _ | _, NaN => NaN
  | Num x, Num y => to_number (x + y)
  | Inf s, Num _ | Num _, Inf s => Inf s
  | Inf s, Inf t => if Bool.eqb s t then Inf s else NaN
  end.

(** parseInt(string) with no radix (ECMAScript 19.2.5): leading white space
    is skipped, then an optional sign, then [0x]/[0X] selects radix 16 and
    anything else radix 10; the longest prefix of digits is the value and
    what follows it is ignored; no digit at all gives NaN. *)
Definition digit_of (radix : Z) (c : ascii) : option Z :=
  let n := code c in
  let d := if (48 <=? n) && (n <=? 57) then n - 48
           else if (97 <=? n) && (n <=? 122) then n - 87
           else if (65 <=? n) && (n <=? 90) then n - 55
           else 36 in
  if d <? radix then Some d else None.

Fixpoint digits_prefix (radix : Z) (acc : option Z) (s : string) : option Z :=
  match s with
  | EmptyString => acc
  | String c r =>
      match digit_of radix c with
      | None => acc
      | Some d =>
          digits_prefix radix
            (Some (match acc with None => d | Some a => a * radix + d end)) r
      end
  end.

Definition strip_sign (s : string) : Z * string :=
  match s with
  | String "-" r => (-1, r)
  | String "+" r => (1, r)
  | _ => (1, s)
  end.

Definition strip_hex (s : string) : Z * string :=
  match s with
  | String "0" (String "x" r) => (16, r)
  | String "0" (String "X" r) => (16, r)
  | _ => (10, s)
  end.

Definition parseInt (s : string) : number :=
  let '(sign, s1) := strip_sign (trimStart s) in
  let '(radix, s2) := strip_hex s1 in
  match digits_prefix radix None s2 with
  | None => NaN
  | Some v => to_number (sign * v)
  end.

(** ** Values, errors and the outside world *)

(** The JavaScript values the script builds and receives. An object is
    the list of its properties in insertion order. *)
Inductive value : Type :=
| VUndefined
| VNull
| VBool (b : bool)
| VNum (n : number)
| VStr (s : string)
| VArr (items : list value)
| VObj (props : list (string * value)).

Definition truthy (v : value) : bool :=
  match v with
  | VUndefined | VNull => false
  | VBool b => b
  | VNum (Num z) => negb (z =? 0)
  | VNum (Inf _) => true
  | VNum NaN => false
  | VStr s => nonempty s
  | VArr _ | VObj _ => true
  end.

Fixpoint lookup (k : string) (props : list (string * value)) : option value :=
  match props with
  | [] => None
  | (k', v) :: r => if String.eqb k k' then Some v else lookup k r
  end.

(** [v?.k]: undefined on undefined and null, and on a value with no own
    property [k]. *)
Definition get (k : string) (v : value) : value :=
  match v with
  | VObj props => match lookup k props with Some x => x | None => VUndefined end
  | _ => VUndefined
  end.

(** A property [k: v] written after a spread in an object literal: it
    replaces the spread property of that name in place, or is added last. *)
Fixpoint set_prop (k : string) (v : value) (props : list (string * value))
  : list (string * value) :=
  match props with
  | [] => [(k, v)]
  | (k', v') :: r =>
      if String.eqb k k' then (k, v) :: r else (k', v') :: set_prop k v r
  end.

(** [...o] inside an object literal. *)
Definition spread (o : value) : list (string * value) :=
  match o with VObj props => props | _ => [] end.

(** What axios attaches to the error of a request the server answered. *)
Record Response : Type := { status : Z; data : value }.

(** A thrown Error: its message, and the response of a rejected request. *)
Record Error : Type := { message : string; response : option Response }.

Record Nft : Type := {
  contract : string;
  identifier : string;
  name : option string          (* None: the property is absent *)
}.

Record Wallet : Type := { address : string; privateKey : string }.

(** What the script does to the outside, in the order it does it.
    [FileAppend t m] is the line [[ISO(t)] m] that [logToFile] appends to
    listing_log.txt, [t] being the clock reading it was stamped with.
    [HttpGet] and [HttpPost] are the calls of axios.get and axios.post.
    [JsonRpcProvider url] is [new ethers.providers.JsonRpcProvider(url)]:
    from there on ethers talks JSON-RPC to [url] on its own (it asks for the
    chain id); the script hands it the URL and nothing else, and that
    traffic is the library's, not an event of its own here.
    [Uncaught script e] is what Node does with an exception nothing
    caught: a report of several lines on the error stream, with the path of
    the script file, the source line, the error and its stack, and the
    version of Node. *)
Inductive Event : Type :=
| ConsoleLog (line : string)
| ConsoleError (line : string)
| ConsoleErrorWith (label : string) (e : Error)
| FileAppend (timestamp : Z) (msg : string)
| HttpGet (url : string) (headers : list (string * string))
| HttpPost (url : string) (body : value) (headers : list (string * string))
| JsonRpcProvider (url : string)
| SetTimeout (ms : Z)
| Uncaught (script : string) (e : Error).

Record World : Type := { events : list Event; draws : nat }.

Definition initial : World := {| events := []; draws := 0 |}.

(** The runtime and the libraries the script calls and does not define.
    What a call answers may depend on everything that happened before. *)
Record Runtime : Type := {
  (* Date.now(): milliseconds since the epoch, at most 8.64e15, where
     Math.floor(ms / 1000) is the integer quotient *)
  Date_now : list Event -> Z;
  (* ethers.utils.randomBytes(32), by number of the draw *)
  randomBytes : nat -> list Byte.byte;
  (* new ethers.Wallet(privateKey, provider): the address of the key, or the
     error of an undefined or malformed key *)
  Wallet_new : option string -> Error + string;
  (* wallet._signTypedData(domain, types, message) *)
  signTypedData : string -> value -> value -> value -> Error + string;
  (* axios.get of the holdings of a wallet; a response whose data.nfts is
     not an array of tokens with string contracts raises a TypeError in the
     same try block and is reported here as an error *)
  axios_get : list Event -> string -> list (string * string) -> Error + list Nft;
  (* axios.post: resolves on a 2xx status, rejects otherwise *)
  axios_post : list Event -> string -> value -> list (string * string) -> Error + Response;
  (* the error ethers.utils.parseEther throws on a price it rejects *)
  parseEther_error : string -> Error;
  (* Seaport's getCounter(offerer) on the chain; neither script calls it *)
  getCounter : string -> Z;
  (* ToString of a value that is not a string, in a template literal *)
  ToString : value -> string;
  (* JSON.stringify(value), and JSON.stringify(value, null, 2) *)
  JSON_stringify : value -> string;
  JSON_stringify_2 : value -> string
}.

(** ** Sequencing: async code that may throw *)

Inductive Outcome (A : Type) : Type :=
| Returned (a : A)
| Thrown (e : Error).
Arguments Returned {A} a.
Arguments Thrown {A} e.

Definition M (A : Type) : Type := World -> Outcome A * World.

Definition ret {A} (a : A) : M A := fun w => (Returned a, w).

Definition throw {A} (e : Error) : M A := fun w => (Thrown e, w).

Definition bind {A B} (m : M A) (k : A -> M B) : M B :=
  fun w =>
    match m w with
    | (Returned a, w') => k a w'
    | (Thrown e, w') => (Thrown e, w')
    end.

Definition try_catch {A} (body : M A) (handler : Error -> M A) : M A :=
  fun w =>
    match body w with
    | (Returned a, w') => (Returned a, w')
    | (Thrown e, w') => handler e w'
    end.

Declare Scope js_scope.
Delimit Scope js_scope with js.
Notation "x <- m ;; k" := (bind m (fun x => k))
  (at level 61, m at next level, right associativity) : js_scope.
Notation "m ;; k" := (bind m (fun _ => k))
  (at level 61, right associativity) : js_scope.
Local Open Scope js_scope.

Definition of_result {A} (r : Error + A) : M A :=
  match r with inl e => throw e | inr a => ret a end.

Definition emit (e : Event) : M unit :=
  fun w => (Returned tt, {| events := events w ++ [e]; draws := draws w |}).

Definition console_log (line : string) : M unit := emit (ConsoleLog line).

Definition console_error (line : string) : M unit := emit (ConsoleError line).

Definition sleep (ms : Z) : M unit := emit (SetTimeout ms).

(** ** Module-level code shared by the two scripts (lines 12-51) *)

Definition OPENSEA_API_BASE_URL : string := "https://api.opensea.io/v2".
Definition CHAIN : string := "base".
Definition CHAIN_ID : Z := 8453.
Definition SEAPORT_CONTRACT_ADDRESS : string :=
  "0x00000000000001ad428e4906ae43d8f9852d0dd6".

(** process.env: a variable is a string or is not set. *)
Record ProcessEnv : Type := {
  env_OPENSEA_API_KEY : option string;
  env_RPC_URL : option string;
  env_TARGET_CONTRACT_ADDRESS : option string;
  env_LISTING_PRICE_IN_ETH : option string;
  env_LISTING_DURATION_MINUTES : option string;
  env_WALLETS : option string;
  env_PRIVATE_KEYS : option string
}.

(** The constants of lines 19-27 once the script is past its validation. *)
Record Config : Type := {
  OPENSEA_API_KEY : string;
  RPC_URL : string;
  TARGET_CONTRACT_ADDRESS : string;
  LISTING_PRICE_IN_ETH : string;
  LISTING_DURATION_MINUTES : string;
  WALLETS : list string;
  PRIVATE_KEYS : list string
}.

(** [s.split("\n").map(line => line.trim()).filter(Boolean)] *)
Definition parse_lines (s : string) : list string :=
  filter nonempty (map trim (split LF s)).

(** [!x] for an environment variable. *)
Definition not_set (x : option string) : bool :=
  match x with None => true | Some s => negb (nonempty s) end.

Definition or_empty (x : option string) : string :=
  match x with None => EmptyString | Some s => s end.

Definition missing_diagnostic : string :=
  "ERROR: Please ensure all required environment variables are set in your GitHub Secrets.".

Definition mismatch_diagnostic (wallets keys : nat) : string :=
  "ERROR: The number of wallet addresses (" ++ string_of_nat wallets
  ++ ") does not match the number of private keys (" ++ string_of_nat keys ++ ").".

(** Loading the script.  [Crashed v]: [process.env.v.split] was evaluated
    with the variable [v] not set, an uncaught TypeError.  [Halted d]: a
    validation printed [d] and called process.exit(1). *)
Inductive Startup : Type :=
| Crashed (variable : string)
| Halted (diagnostic : string)
| Started (cfg : Config).

Definition startup (env : ProcessEnv) : Startup :=
  match env_WALLETS env with
  | None => Crashed "WALLETS"
  | Some wallets =>
      match env_PRIVATE_KEYS env with
      | None => Crashed "PRIVATE_KEYS"
      | Some keys =>
          let WALLETS := parse_lines wallets in
          let PRIVATE_KEYS := parse_lines keys in
          if not_set (env_OPENSEA_API_KEY env) || not_set (env_RPC_URL env)
             || not_set (env_TARGET_CONTRACT_ADDRESS env)
             || not_set (env_LISTING_PRICE_IN_ETH env)
             || not_set (env_LISTING_DURATION_MINUTES env)
          then Halted missing_diagnostic
          else if negb (List.length WALLETS =? List.length PRIVATE_KEYS)%nat
          then Halted (mismatch_diagnostic (List.length WALLETS) (List.length PRIVATE_KEYS))
          else Started {|
                 OPENSEA_API_KEY := or_empty (env_OPENSEA_API_KEY env);
                 RPC_URL := or_empty (env_RPC_URL env);
                 TARGET_CONTRACT_ADDRESS := or_empty (env_TARGET_CONTRACT_ADDRESS env);
                 LISTING_PRICE_IN_ETH := or_empty (env_LISTING_PRICE_IN_ETH env);
                 LISTING_DURATION_MINUTES := or_empty (env_LISTING_DURATION_MINUTES env);
                 WALLETS := WALLETS;
                 PRIVATE_KEYS := PRIVATE_KEYS |}
      end
  end.

(** logToFile (lines 41-45); appending to the file is taken to succeed. *)
Definition logToFile (rt : Runtime) (msg : string) : M unit :=
  fun w => emit (FileAppend (Date_now rt (events w)) msg) w.

(** getWallet (lines 48-51): a provider on RPC_URL, then the wallet of the
    key on it; [privateKey] is [PRIVATE_KEYS[i]], undefined past the end of
    the list. *)
Definition getWallet (rt : Runtime) (cfg : Config) (privateKey : option string)
  : M Wallet :=
  emit (JsonRpcProvider (RPC_URL cfg)) ;;
  a <- of_result (Wallet_new rt privateKey) ;;
  ret {| address := a; privateKey := or_empty privateKey |}.

(** The filter of main (main.js line 113, part_000 line 182). *)
Definition is_target (cfg : Config) (nft : Nft) : bool :=
  String.eqb (toLowerCase (contract nft)) (toLowerCase (TARGET_CONTRACT_ADDRESS cfg)).

(** A template literal's [${v}]. *)
Definition interpolate (rt : Runtime) (v : value) : string :=
  match v with VStr s => s | _ => ToString rt v end.

Definition holdings_url (walletAddress : string) : string :=
  OPENSEA_API_BASE_URL ++ "/chain/" ++ CHAIN ++ "/account/" ++ walletAddress ++ "/nfts".

Definition listings_url : string := OPENSEA_API_BASE_URL ++ "/listings".

Definition walletHeader (cfg : Config) (i : nat) (walletAddress : string) : string :=
  nl ++ "=========================================" ++ nl
  ++ "Processing wallet " ++ string_of_nat (i + 1) ++ "/"
  ++ string_of_nat (List.length (WALLETS cfg)) ++ ": " ++ walletAddress ++ nl
  ++ "=========================================".

Definition startMessage (cfg : Config) : string :=
  "--- Starting NFT listing process for " ++ string_of_nat (List.length (WALLETS cfg))
  ++ " wallets. ---".

Definition endMessage : string :=
  nl ++ "--- Process finished. Check listing_log.txt for a full report. ---".

Definition date_now (rt : Runtime) : M Z :=
  fun w => (Returned (Date_now rt (events w)), w).

Definition random_bytes (rt : Runtime) : M (list Byte.byte) :=
  fun w => (Returned (randomBytes rt (draws w)),
            {| events := events w; draws := S (draws w) |}).

Definition http_get (rt : Runtime) (url : string) (headers : list (string * string))
  : M (list Nft) :=
  emit (HttpGet url headers) ;;
  (fun w => of_result (axios_get rt (events w) url headers) w).

Definition http_post (rt : Runtime) (url : string) (body : value)
  (headers : list (string * string)) : M Response :=
  emit (HttpPost url body headers) ;;
  (fun w => of_result (axios_post rt (events w) url body headers) w).

(** ethers.BigNumber.from(bytes): the bytes as a big-endian integer. *)
Definition BigNumber_from (bytes : list Byte.byte) : Z :=
  fold_left (fun acc b => acc * 256 + Z.of_N (Byte.to_N b)) bytes 0.

(** The TypeError of line 26 or 27 when the variable is not set:
    [undefined.split], with the message of Node 16 and later. *)
Definition TypeError_split : Error :=
  {| message := "Cannot read properties of undefined (reading 'split')";
     response := None |}.

(** A whole run of the script in the file [script]: the module-level code,
    then [main().catch(...)] (the last lines of both files), and the exit
    status of the process; 0 is the status of a script that runs to its end,
    1 the status Node ends with after an uncaught exception. *)

Definition run (script : string) (rt : Runtime) (main : Config -> M unit)
  (env : ProcessEnv) : Z * World :=
  match startup env with
  | Crashed _ => (1, snd (emit (Uncaught script TypeError_split) initial))
  | Halted diagnostic => (1, snd (console_error diagnostic initial))
  | Started cfg =>
      match main cfg initial with
      | (Returned _, w) => (0, w)
      | (Thrown error, w) =>
          (1, snd ((emit (ConsoleErrorWith "An unexpected error occurred:" error) ;;
                    logToFile rt ("FATAL ERROR: " ++ message error)) w))
      end
  end.

(** ** Price conversion *)

Definition is_digit (c : ascii) : bool := (48 <=? code c) && (code c <=? 57).

Fixpoint all_chars (p : ascii -> bool) (s : string) : bool :=
  match s with
  | EmptyString => true
  | String c r => p c && all_chars p r
  end.

(** The number a string of decimal digits writes. *)
Fixpoint digits_value (acc : Z) (s : string) : Z :=
  match s with
  | EmptyString => acc
  | String c r => digits_value (acc * 10 + (code c - 48)) r
  end.

(** A string without its trailing zeros. *)
Fixpoint strip_zeros (s : string) : string :=
  match s with
  | EmptyString => EmptyString
  | String c r =>
      match strip_zeros r with
      | EmptyString => if Ascii.eqb c "0" then EmptyString else String c EmptyString
      | r' => String c r'
      end
  end.

Fixpoint zeros (n : nat) : string :=
  match n with O => EmptyString | S k => String "0" (zeros k) end.

Definition or_zero (s : string) : string :=
  match s with EmptyString => "0" | _ => s end.

(** Modelled from the spec: [ethers.utils.parseEther], which listNFT calls
    at line 60 of part_000 and which is not part of the repository.  The
    spec asks for a conversion of the decimal ETH string to wei that loses
    no precision and rejects a fraction finer than 18 decimals.  The model
    reads an optional minus sign, a whole part and an optional fraction
    after one point (either part may be empty, not both), drops the
    trailing zeros of the fraction, rejects what is left when it is longer
    than 18 digits, and otherwise scales by 10^18.  [None] is a thrown
    error. *)
Definition parseEther (ether : string) : option Z :=
  let '(negative, s) :=
    match ether with
    | String c r => if Ascii.eqb c "-" then (true, r) else (false, ether)
    | EmptyString => (false, ether)
    end in
  if negb (nonempty s && all_chars (fun c => is_digit c || Ascii.eqb c ".") s)
  then None
  else if String.eqb s "." then None
  else
    match split "." s with
    | [] => None
    | whole :: rest =>
        if (1 <? List.length rest)%nat then None
        else
          let fraction := strip_zeros (hd EmptyString rest) in
          if (18 <? String.length fraction)%nat then None
          else
            let padded := fraction ++ zeros (18 - String.length fraction) in
            Some ((if negative then -1 else 1)
                  * (digits_value 0 (or_zero whole) * 10 ^ 18 + digits_value 0 padded))
    end.

(** [k] decimal digits of [n], the most significant first. *)
Fixpoint digits_fixed (k : nat) (n : Z) : string :=
  match k with
  | O => EmptyString
  | S k' => digits_fixed k' (n / 10) ++ String (digit_char (n mod 10)) EmptyString
  end.

(** Modelled from the spec: the way back from wei to a decimal ETH string
    ([ethers.utils.formatEther]), which the scripts never call and which the
    round trip of the spec needs: the whole part, a point, and the 18
    fraction digits without their trailing zeros (one digit at least). *)
Definition formatEther (wei : Z) : string :=
  let a := Z.abs wei in
  let fraction := or_zero (strip_zeros (digits_fixed 18 (a mod 10 ^ 18))) in
  let text := string_of_Z (a / 10 ^ 18) ++ "." ++ fraction in
  if wei <? 0 then "-" ++ text else text.

(** ** src/unnamed/part_000: the complete script *)

Module SellNfts.
Section Script.
Variable rt : Runtime.
Variable cfg : Config.

(** [nft.name || 'NFT'] *)
Definition display_name (nft : Nft) : string :=
  match name nft with
  | Some s => if nonempty s then s else "NFT"
  | None => "NFT"
  end.

Definition domain : value :=
  VObj [("name", VStr "Seaport"); ("version", VStr "1.5");
        ("chainId", VNum (Num CHAIN_ID));
        ("verifyingContract", VStr SEAPORT_CONTRACT_ADDRESS)].

Definition member (n t : string) : value :=
  VObj [("name", VStr n); ("type", VStr t)].

Definition types : value :=
  VObj [
    ("OrderComponents", VArr [
       member "offerer" "address"; member "zone" "address";
       member "offer" "OfferItem[]";
       member "consideration" "ConsiderationItem[]";
       member "orderType" "uint8"; member "startTime" "uint256";
       member "endTime" "uint256"; member "zoneHash" "bytes32";
       member "salt" "uint256"; member "conduitKey" "bytes32";
       member "counter" "uint256"]);
    ("OfferItem", VArr [
       member "itemType" "uint8"; member "token" "address";
       member "identifierOrCriteria" "uint256";
       member "startAmount" "uint256"; member "endAmount" "uint256"]);
    ("ConsiderationItem", VArr [
       member "itemType" "uint8"; member "token" "address";
       member "identifierOrCriteria" "uint256";
       member "startAmount" "uint256"; member "endAmount" "uint256";
       member "recipient" "address"])].

Definition zero_address : string := "0x0000000000000000000000000000000000000000".

Definition offer (nft : Nft) : value :=
  VArr [VObj [("itemType", VNum (Num 2));
              ("token", VStr (contract nft));
              ("identifierOrCriteria", VStr (identifier nft));
              ("startAmount", VStr "1");
              ("endAmount", VStr "1")]].

Definition consideration (wallet : Wallet) (priceInWei : Z) : value :=
  VArr [VObj [("itemType", VNum (Num 0));
              ("token", VStr zero_address);
              ("identifierOrCriteria", VStr "0");
              ("startAmount", VStr (string_of_Z priceInWei));
              ("endAmount", VStr (string_of_Z priceInWei));
              ("recipient", VStr (address wallet))]].

(** The object literal of lines 120-132. *)
Definition orderComponents (wallet : Wallet) (nft : Nft) (priceInWei : Z)
  (now durationInSeconds : number) (salt : list Byte.byte) : value :=
  VObj [("offerer", VStr (address wallet));
        ("zone", VStr zero_address);
        ("offer", offer nft);
        ("consideration", consideration wallet priceInWei);
        ("orderType", VNum (Num 0));
        ("startTime", VNum now);
        ("endTime", VNum (num_add now durationInSeconds));
        ("zoneHash",
         VStr "0x0000000000000000000000000000000000000000000000000000000000000000");
        ("salt", VStr (string_of_Z (BigNumber_from salt)));
        ("conduitKey",
         VStr "0x0000007b02230091a7ed01230072f706a00400000000000000000000000000");
        ("counter", VStr "0")].

(** Lines 60-132 of listNFT: from the price and the clock to the order. *)
Definition build_order (wallet : Wallet) (nft : Nft) (priceInEth : string) : M value :=
  priceInWei <- match parseEther priceInEth with
                | Some wei => ret wei
                | None => throw (parseEther_error rt priceInEth)
                end ;;
  ms <- date_now rt ;;
  let now := Num (ms / 1000) in
  let durationInSeconds := num_mul (parseInt (LISTING_DURATION_MINUTES cfg)) (Num 60) in
  salt <- random_bytes rt ;;
  ret (orderComponents wallet nft priceInWei now durationInSeconds salt).

(** Lines 136-142. *)
Definition payload (order : value) (signature : string) : value :=
  VObj [("parameters", VObj (set_prop "signature" (VStr signature) (spread order)));
        ("protocol_address", VStr SEAPORT_CONTRACT_ADDRESS)].

Definition post_headers : list (string * string) :=
  [("X-API-KEY", OPENSEA_API_KEY cfg); ("Content-Type", "application/json")].

(** [error.response?.data?.message || error.message] *)
Definition reason (error : Error) : string :=
  let m := match response error with
           | Some r => get "message" (data r)
           | None => VUndefined
           end in
  if truthy m then interpolate rt m else message error.

(** The catch block of listNFT (lines 153-161). *)
Definition listNFT_catch (nft : Nft) (error : Error) : M bool :=
  let errorMessage :=
    "FAILED: Error listing NFT " ++ display_name nft ++ " (ID: " ++ identifier nft
    ++ "). Reason: " ++ reason error in
  console_error ("[FAILED] " ++ errorMessage) ;;
  logToFile rt ("[FAILED] " ++ errorMessage) ;;
  match response error with
  | Some r => logToFile rt ("[FAILED] Error Details: " ++ JSON_stringify_2 rt (data r))
  | None => ret tt
  end ;;
  ret false.

(** listNFT (lines 54-162) *)
Definition listNFT (wallet : Wallet) (nft : Nft) (priceInEth : string) : M bool :=
  let logMessage :=
    "Attempting to list " ++ display_name nft ++ " (Token ID: " ++ identifier nft
    ++ ") from wallet " ++ address wallet ++ " for " ++ priceInEth ++ " ETH" in
  console_log ("[START] " ++ logMessage) ;;
  logToFile rt ("[START] " ++ logMessage) ;;
  try_catch
    (order <- build_order wallet nft priceInEth ;;
     signature <- of_result (signTypedData rt (privateKey wallet) domain types order) ;;
     _ <- http_post rt listings_url (payload order signature) post_headers ;;
     let successMessage :=
       "SUCCESS: NFT " ++ dquote ++ display_name nft ++ dquote
       ++ " listed! Link: https://opensea.io/assets/base/" ++ contract nft ++ "/"
       ++ identifier nft in
     console_log ("[SUCCESS] " ++ successMessage) ;;
     logToFile rt ("[SUCCESS] " ++ successMessage) ;;
     ret true)
    (listNFT_catch nft).

(** The pause after each listing (line 192). *)
Definition delay : Z := 2000.

(** The loop of lines 190-193. *)
Fixpoint list_all (wallet : Wallet) (targetNfts : list Nft) : M unit :=
  match targetNfts with
  | [] => ret tt
  | nft :: rest =>
      _ <- listNFT wallet nft (LISTING_PRICE_IN_ETH cfg) ;;
      sleep delay ;;
      list_all wallet rest
  end.

(** The try block of main (lines 178-193). *)
Definition process_holdings (wallet : Wallet) (walletAddress : string) : M unit :=
  nfts <- http_get rt (holdings_url walletAddress) [("X-API-KEY", OPENSEA_API_KEY cfg)] ;;
  let targetNfts := filter (is_target cfg) nfts in
  if (List.length targetNfts =? 0)%nat then
    console_log "No NFTs from the target contract found in this wallet." ;;
    logToFile rt "No NFTs from the target contract found."
  else
    console_log ("Found " ++ string_of_nat (List.length targetNfts)
                 ++ " NFTs from the target contract. Starting listing process...") ;;
    logToFile rt ("Found " ++ string_of_nat (List.length targetNfts)
                  ++ " NFTs from the target contract.") ;;
    list_all wallet targetNfts.

(** The catch block of main (lines 194-198). *)
Definition fetch_failed (walletAddress : string) (error : Error) : M unit :=
  let fetchError :=
    "Failed to fetch NFTs from wallet " ++ walletAddress ++ ". Reason: " ++ reason error in
  console_error fetchError ;;
  logToFile rt fetchError.

(** One turn of the loop over the wallets (lines 171-198). *)
Definition process_wallet (i : nat) : M unit :=
  let walletAddress := nth i (WALLETS cfg) EmptyString in
  let privateKey := nth_error (PRIVATE_KEYS cfg) i in
  console_log (walletHeader cfg i walletAddress) ;;
  logToFile rt (walletHeader cfg i walletAddress) ;;
  wallet <- getWallet rt cfg privateKey ;;
  try_catch (process_holdings wallet walletAddress) (fetch_failed walletAddress).

(** [for (let i = 0; i < WALLETS.length; i++)], [remaining] turns from [i]. *)
Fixpoint wallets_from (remaining i : nat) : M unit :=
  match remaining with
  | O => ret tt
  | S k => process_wallet i ;; wallets_from k (i + 1)
  end.

(** main (lines 165-203) *)
Definition main : M unit :=
  console_log (startMessage cfg) ;;
  logToFile rt (startMessage cfg) ;;
  wallets_from (List.length (WALLETS cfg)) 0 ;;
  console_log endMessage ;;
  logToFile rt endMessage.

End Script.

(** The file of the script. *)
Definition script : string := "src/unnamed/part_000".

(** The process: validation, then main under its catch (lines 205-209). *)
Definition program (rt : Runtime) (env : ProcessEnv) : Z * World :=
  run script rt (main rt) env.

End SellNfts.

(** ** src/main.js: the abridged variant *)

Module MainJs.
Section Script.
Variable rt : Runtime.
Variable cfg : Config.

(** [${nft.name}]: the name, or the text of undefined. *)
Definition shown_name (nft : Nft) : string :=
  match name nft with Some s => s | None => "undefined" end.

Definition domain : value :=
  VObj [("name", VStr "Seaport"); ("version", VStr "1.5");
        ("chainId", VNum (Num CHAIN_ID));
        ("verifyingContract", VStr SEAPORT_CONTRACT_ADDRESS)].

(** Lines 64 and 67: both literals hold a comment and no property. *)
Definition types : value := VObj [].
Definition orderComponents : value := VObj [].

(** The body of the request (lines 71-75). *)
Definition payload (order : value) (signature : string) : value :=
  VObj (set_prop "protocol_address" (VStr SEAPORT_CONTRACT_ADDRESS)
          (set_prop "signature" (VStr signature) (spread order))).

Definition post_headers : list (string * string) :=
  [("X-API-KEY", OPENSEA_API_KEY cfg); ("Content-Type", "application/json")].

(** The catch block of listNFT (lines 84-92). *)
Definition listNFT_catch (nft : Nft) (error : Error) : M bool :=
  let errorMessage :=
    "FAILED: Error listing NFT " ++ shown_name nft ++ " (ID: " ++ identifier nft
    ++ "). Reason: " ++ message error in
  console_error ("[FAILED] " ++ errorMessage) ;;
  logToFile rt ("[FAILED] " ++ errorMessage) ;;
  match response error with
  | Some r => logToFile rt ("[FAILED] Error Details: " ++ JSON_stringify rt (data r))
  | None => ret tt
  end ;;
  ret false.

(** listNFT (lines 54-93); [now] and [durationInSeconds] are computed and
    not used. *)
Definition listNFT (wallet : Wallet) (nft : Nft) (priceInEth : string) : M bool :=
  let logMessage :=
    "Attempting to list " ++ shown_name nft ++ " (Token ID: " ++ identifier nft
    ++ ") from wallet " ++ address wallet ++ " for " ++ priceInEth ++ " ETH" in
  console_log ("[START] " ++ logMessage) ;;
  logToFile rt ("[START] " ++ logMessage) ;;
  try_catch
    (ms <- date_now rt ;;
     let now := Num (ms / 1000) in
     let durationInSeconds := num_mul (parseInt (LISTING_DURATION_MINUTES cfg)) (Num 60) in
     signature <- of_result (signTypedData rt (privateKey wallet) domain types orderComponents) ;;
     _ <- http_post rt listings_url (payload orderComponents signature) post_headers ;;
     let successMessage :=
       "SUCCESS: NFT " ++ dquote ++ shown_name nft ++ dquote
       ++ " listed! Link: https://opensea.io/assets/base/" ++ contract nft ++ "/"
       ++ identifier nft in
     console_log ("[SUCCESS] " ++ successMessage) ;;
     logToFile rt ("[SUCCESS] " ++ successMessage) ;;
     ret true)
    (listNFT_catch nft).

(** The pause after each listing (line 123). *)
Definition delay : Z := 1000.

Fixpoint list_all (wallet : Wallet) (targetNfts : list Nft) : M unit :=
  match targetNfts with
  | [] => ret tt
  | nft :: rest =>
      _ <- listNFT wallet nft (LISTING_PRICE_IN_ETH cfg) ;;
      sleep delay ;;
      list_all wallet rest
  end.

Definition process_holdings (wallet : Wallet) (walletAddress : string) : M unit :=
  nfts <- http_get rt (holdings_url walletAddress) [("X-API-KEY", OPENSEA_API_KEY cfg)] ;;
  let targetNfts := filter (is_target cfg) nfts in
  if (List.length targetNfts =? 0)%nat then
    console_log "No NFTs from the target contract found in this wallet." ;;
    logToFile rt "No NFTs from the target contract found."
  else
    console_log ("Found " ++ string_of_nat (List.length targetNfts)
                 ++ " NFTs from the target contract. Starting listing process...") ;;
    logToFile rt ("Found " ++ string_of_nat (List.length targetNfts)
                  ++ " NFTs from the target contract.") ;;
    list_all wallet targetNfts.

Definition fetch_failed (walletAddress : string) (error : Error) : M unit :=
  let fetchError :=
    "Failed to fetch NFTs from wallet " ++ walletAddress ++ ". Reason: " ++ message error in
  console_error fetchError ;;
  logToFile rt fetchError.

Definition process_wallet (i : nat) : M unit :=
  let walletAddress := nth i (WALLETS cfg) EmptyString in
  let privateKey := nth_error (PRIVATE_KEYS cfg) i in
  console_log (walletHeader cfg i walletAddress) ;;
  logToFile rt (walletHeader cfg i walletAddress) ;;
  wallet <- getWallet rt cfg privateKey ;;
  try_catch (process_holdings wallet walletAddress) (fetch_failed walletAddress).

Fixpoint wallets_from (remaining i : nat) : M unit :=
  match remaining with
  | O => ret tt
  | S k => process_wallet i ;; wallets_from k (i + 1)
  end.

Definition main : M unit :=
  console_log (startMessage cfg) ;;
  logToFile rt (startMessage cfg) ;;
  wallets_from (List.length (WALLETS cfg)) 0 ;;
  console_log endMessage ;;
  logToFile rt endMessage.

End Script.

Definition script : string := "src/main.js".

Definition program (rt : Runtime) (env : ProcessEnv) : Z * World :=
  run script rt (main rt) env.

End MainJs.

(** ** Notions the statements use *)

(** A line the parsing drops: empty or white space only. *)
Definition blank (line : string) : bool := all_chars is_space line.

Definition nonblank_lines (s : string) : list string :=
  filter (fun line => negb (blank line)) (split LF s).

(** Two code units that are one letter, in the same or in the other case:
    a capital and the unit 32 above it. *)
Definition same_letter (a b : ascii) : bool :=
  Ascii.eqb a b
  || (is_upper a && (code b =? code a + 32))
  || (is_upper b && (code a =? code b + 32)).

Fixpoint equal_up_to_case (s t : string) : bool :=
  match s, t with
  | EmptyString, EmptyString => true
  | String a s', String b t' => same_letter a b && equal_up_to_case s' t'
  | _, _ => false
  end.

(** The five values the first validation looks at are all set. *)
Definition scalars_set (env : ProcessEnv) : bool :=
  negb (not_set (env_OPENSEA_API_KEY env) || not_set (env_RPC_URL env)
        || not_set (env_TARGET_CONTRACT_ADDRESS env)
        || not_set (env_LISTING_PRICE_IN_ETH env)
        || not_set (env_LISTING_DURATION_MINUTES env)).

(** A test of a predicate on every pair of code units. *)
Definition all_units : list ascii :=
  Eval vm_compute in map (fun n => ascii_of_N (N.of_nat n)) (seq 0 256).

Definition every_pair (p : ascii -> ascii -> bool) : bool :=
  forallb (fun a => forallb (p a) all_units) all_units.

(** What a stretch of events shows on each channel. *)
Fixpoint collect {A} (f : Event -> option A) (evs : list Event) : list A :=
  match evs with
  | [] => []
  | e :: r => match f e with Some a => a :: collect f r | None => collect f r end
  end.

(** The messages appended to listing_log.txt. *)
Definition file_log : list Event -> list string :=
  collect (fun e => match e with FileAppend _ m => Some m | _ => None end).

(** The bodies posted to the listing endpoint. *)
Definition posted : list Event -> list value :=
  collect (fun e => match e with HttpPost _ body _ => Some body | _ => None end).

(** The holdings queries made, by their URL. *)
Definition queried : list Event -> list string :=
  collect (fun e => match e with HttpGet url _ => Some url | _ => None end).

(** The lines printed on the error stream by console.error. *)
Definition printed_errors : list Event -> list string :=
  collect (fun e => match e with ConsoleError line => Some line | _ => None end).

(** The pauses taken. *)
Definition pauses : list Event -> list Z :=
  collect (fun e => match e with SetTimeout ms => Some ms | _ => None end).

(** The listing attempts a stretch of events logs: its [START] entries. *)
Definition attempts (evs : list Event) : nat :=
  List.length (filter (prefix "[START]") (file_log evs)).

(** [startTime < endTime] in an order. *)
Definition window_open (order : value) : bool :=
  match get "startTime" order, get "endTime" order with
  | VNum (Num s), VNum (Num e) => s <? e
  | _, _ => false
  end.

Definition with_duration (env : ProcessEnv) (minutes : string) : ProcessEnv :=
  {| env_OPENSEA_API_KEY := env_OPENSEA_API_KEY env;
     env_RPC_URL := env_RPC_URL env;
     env_TARGET_CONTRACT_ADDRESS := env_TARGET_CONTRACT_ADDRESS env;
     env_LISTING_PRICE_IN_ETH := env_LISTING_PRICE_IN_ETH env;
     env_LISTING_DURATION_MINUTES := Some minutes;
     env_WALLETS := env_WALLETS env;
     env_PRIVATE_KEYS := env_PRIVATE_KEYS env |}.

(** The error a listing attempt can meet: the price is rejected, the
    signature fails, or the request is rejected. *)
Definition raised (rt : Runtime) (wallet : Wallet) (price : string) (e : Error) : Prop :=
  (parseEther price = None /\ e = parseEther_error rt price)
  \/ (exists order,
        signTypedData rt (privateKey wallet) SellNfts.domain SellNfts.types order = inl e)
  \/ (exists history url body headers, axios_post rt history url body headers = inl e).

(** The world in which the holdings of wallet [i] are asked for: its
    header is printed and logged, the provider of its wallet is made, and
    the request is out. *)
Definition asking (rt : Runtime) (cfg : Config) (i : nat) (w : World) : World :=
  let walletAddress := nth i (WALLETS cfg) EmptyString in
  let header := walletHeader cfg i walletAddress in
  snd ((console_log header ;;
        logToFile rt header ;;
        emit (JsonRpcProvider (RPC_URL cfg)) ;;
        emit (HttpGet (holdings_url walletAddress) [("X-API-KEY", OPENSEA_API_KEY cfg)]))%js
         w).

(** The line that reports a failed query (part_000 line 195). *)
Definition fetchError (rt : Runtime) (cfg : Config) (i : nat) (e : Error) : string :=
  "Failed to fetch NFTs from wallet " ++ nth i (WALLETS cfg) EmptyString
  ++ ". Reason: " ++ SellNfts.reason rt e.

(** The world after the failure of a query is printed and logged. *)
Definition reported (rt : Runtime) (cfg : Config) (i : nat) (e : Error) (w : World) : World :=
  snd ((console_error (fetchError rt cfg i e) ;; logToFile rt (fetchError rt cfg i e))%js w).

(** A decimal numeral: a sign, the digits before the point, and the digits
    after it when it has a point. *)
Record Numeral : Type := {
  minus : bool;
  whole : string;
  fraction : option string
}.

Definition fraction_digits (n : Numeral) : string :=
  match fraction n with Some f => f | None => EmptyString end.

Definition numeral_text (n : Numeral) : string :=
  (if minus n then "-" else EmptyString)
  ++ whole n
  ++ match fraction n with Some f => "." ++ f | None => EmptyString end.

(** Digits only, and one digit at least. *)
Definition well_formed (n : Numeral) : bool :=
  all_chars is_digit (whole n) && all_chars is_digit (fraction_digits n)
  && nonempty (whole n ++ fraction_digits n).

(** The decimals a numeral needs: its fraction digits up to the last one
    that is not zero. *)
Definition precision (n : Numeral) : nat :=
  String.length (strip_zeros (fraction_digits n)).

(** The number a numeral writes. *)
Definition numeral_value (n : Numeral) : Q :=
  let k := Z.of_nat (String.length (fraction_digits n)) in
  (inject_Z ((if minus n then -1 else 1)
             * (digits_value 0 (whole n) * 10 ^ k + digits_value 0 (fraction_digits n)))
   / inject_Z (10 ^ k))%Q.

(** An amount of wei, in ether. *)
Definition ether_of_wei (wei : Z) : Q := (inject_Z wei / inject_Z (10 ^ 18))%Q.

(** The numeral formatEther writes. *)
Definition numeral_of_wei (wei : Z) : Numeral :=
  {| minus := wei <? 0;
     whole := string_of_Z (Z.abs wei / 10 ^ 18);
     fraction := Some (or_zero (strip_zeros (digits_fixed 18 (Z.abs wei mod 10 ^ 18)))) |}.

(** The run ends in the catch of [main()]: validation passed and main threw. *)
Definition fatal (rt : Runtime) (env : ProcessEnv) : Prop :=
  exists cfg e w,
    startup env = Started cfg /\ SellNfts.main rt cfg initial = (Thrown e, w).

(** ** A run to evaluate the scripts on *)

Definition plain_error (m : string) : Error := {| message := m; response := None |}.

(** The rejection of a request the server answered with status 500. *)
Definition rejection : Error :=
  {| message := "Request failed with status code 500";
     response := Some {| status := 500;
                         data := VObj [("message", VStr "Internal Server Error")] |} |}.

Definition held : list Nft :=
  [{| contract := "0xAbCd"; identifier := "7"; name := Some "Seven" |};
   {| contract := "0x1234"; identifier := "8"; name := None |}].

(** A runtime whose clock stands at 1700000000123 ms, whose keys are all
    valid, whose wallets all hold [held], and whose listing endpoint gives
    every request the answer [answer]; the chain counter of every offerer
    is [counter]. *)
Definition runtime_with (answer : Error + Response) (counter : Z) : Runtime :=
  {| Date_now := fun _ => 1700000000123;
     randomBytes := fun _ => [Byte.x01; Byte.x02];
     Wallet_new := fun key =>
       match key with
       | Some k => inr ("0xaddress-of-" ++ k)
       | None => inl (plain_error "invalid private key")
       end;
     signTypedData := fun _ _ _ _ => inr "0x5167";
     axios_get := fun _ _ _ => inr held;
     axios_post := fun _ _ _ _ => answer;
     parseEther_error := fun _ => plain_error "invalid decimal value";
     getCounter := fun _ => counter;
     ToString := fun _ => "[object Object]";
     JSON_stringify := fun _ => "{...}";
     JSON_stringify_2 := fun _ => "{...}" |}.

Definition accepting : Runtime :=
  runtime_with (inr {| status := 200; data := VNull |}) 0.

Definition rejecting : Runtime := runtime_with (inl rejection) 0.

(** A runtime like [accepting] whose signer refuses what it is given, as
    ethers does for a value that does not fit the type its schema
    declares. *)
Definition unsigned : Runtime :=
  {| Date_now := Date_now accepting;
     randomBytes := randomBytes accepting;
     Wallet_new := Wallet_new accepting;
     signTypedData := fun _ _ _ _ => inl (plain_error "invalid length for bytes32");
     axios_get := axios_get accepting;
     axios_post := axios_post accepting;
     parseEther_error := parseEther_error accepting;
     getCounter := getCounter accepting;
     ToString := ToString accepting;
     JSON_stringify := JSON_stringify accepting;
     JSON_stringify_2 := JSON_stringify_2 accepting |}.

(** An environment with every scalar set, listing for [minutes] minutes
    from the wallets and keys given. *)
Definition env_with (minutes wallets keys : string) : ProcessEnv :=
  {| env_OPENSEA_API_KEY := Some "api-key";
     env_RPC_URL := Some "https://mainnet.base.org";
     env_TARGET_CONTRACT_ADDRESS := Some "0xABCD";
     env_LISTING_PRICE_IN_ETH := Some "0.001";
     env_LISTING_DURATION_MINUTES := Some minutes;
     env_WALLETS := Some wallets;
     env_PRIVATE_KEYS := Some keys |}.

Definition cfg_with (minutes : string) : Config :=
  {| OPENSEA_API_KEY := "api-key";
     RPC_URL := "https://mainnet.base.org";
     TARGET_CONTRACT_ADDRESS := "0xABCD";
     LISTING_PRICE_IN_ETH := "0.001";
     LISTING_DURATION_MINUTES := minutes;
     WALLETS := ["0xw1"];
     PRIVATE_KEYS := ["k1"] |}.

Definition seller : Wallet := {| address := "0xaddress-of-k1"; privateKey := "k1" |}.

Definition token : Nft := {| contract := "0xAbCd"; identifier := "7"; name := Some "Seven" |}.

(** A runtime like [accepting] but for the answers of the two endpoints,
    which are given as functions of what happened so far. *)
Definition answering (holdings : list Event -> string -> Error + list Nft)
  (listing : list Event -> Error + Response) : Runtime :=
  {| Date_now := Date_now accepting;
     randomBytes := randomBytes accepting;
     Wallet_new := Wallet_new accepting;
     signTypedData := signTypedData accepting;
     axios_get := fun history url _ => holdings history url;
     axios_post := fun history _ _ _ => listing history;
     parseEther_error := parseEther_error accepting;
     getCounter := getCounter accepting;
     ToString := ToString accepting;
     JSON_stringify := JSON_stringify accepting;
     JSON_stringify_2 := JSON_stringify_2 accepting |}.

(** The world in which listNFT enters its try block: the [START] line is
    printed and logged. *)
Definition started (rt : Runtime) (wallet : Wallet) (nft : Nft) (price : string)
  (w : World) : World :=
  let line :=
    "[START] " ++ "Attempting to list " ++ SellNfts.display_name nft ++ " (Token ID: "
    ++ identifier nft ++ ") from wallet " ++ address wallet ++ " for " ++ price ++ " ETH" in
  snd ((console_log line ;; logToFile rt line)%js w).

(** ** Notions of the further properties *)

(** The one item of an array field of an order. *)
Definition item (field : string) (order : value) : value :=
  match get field order with
  | VArr [x] => x
  | _ => VUndefined
  end.

(** The salt an order gets from draw [k] of the random source. *)
Definition salt_of_draw (rt : Runtime) (k : nat) : value :=
  VStr (string_of_Z (BigNumber_from (randomBytes rt k))).

(** [body] is the request of a listing of [nft] by [wallet] at [price], with
    the salt of draw [k]: the order built for them at some clock reading,
    signed, in the payload of part_000. *)
Definition listed (rt : Runtime) (cfg : Config) (wallet : Wallet) (nft : Nft)
  (price : string) (k : nat) (body : value) : Prop :=
  exists wei now signature,
    parseEther price = Some wei
    /\ signTypedData rt (privateKey wallet) SellNfts.domain SellNfts.types
         (SellNfts.orderComponents wallet nft wei (Num now)
            (num_mul (parseInt (LISTING_DURATION_MINUTES cfg)) (Num 60))
            (randomBytes rt k))
       = inr signature
    /\ body
       = SellNfts.payload
           (SellNfts.orderComponents wallet nft wei (Num now)
              (num_mul (parseInt (LISTING_DURATION_MINUTES cfg)) (Num 60))
              (randomBytes rt k))
           signature.

(** A token some answer of the holdings endpoint contains. *)
Definition held_somewhere (rt : Runtime) (nft : Nft) : Prop :=
  exists history url headers nfts,
    axios_get rt history url headers = inr nfts /\ In nft nfts.

(** An event that is no request to the listing endpoint, no pause and no
    [START] entry of the log. *)
Definition quiet (e : Event) : bool :=
  match e with
  | ConsoleLog _ | ConsoleError _ | ConsoleErrorWith _ _ | HttpGet _ _
  | JsonRpcProvider _ | Uncaught _ _ => true
  | FileAppend _ m => negb (prefix "[START]" m)
  | HttpPost _ _ _ | SetTimeout _ => false
  end.

(** Where an event reaches out to: a request of axios is to one of the two
    OpenSea endpoints and carries the API key; a provider is on RPC_URL,
    and is given that URL alone; the other events stay on the machine. *)
Definition well_addressed (cfg : Config) (e : Event) : Prop :=
  match e with
  | HttpGet url headers =>
      (exists walletAddress, url = holdings_url walletAddress)
      /\ headers = [("X-API-KEY", OPENSEA_API_KEY cfg)]
  | HttpPost url _ headers =>
      url = listings_url
      /\ headers = [("X-API-KEY", OPENSEA_API_KEY cfg); ("Content-Type", "application/json")]
  | JsonRpcProvider url => url = RPC_URL cfg
  | _ => True
  end.

(** What a stretch [evs] of a run of part_000 from [w] to [w'] keeps: it
    only adds events, its requests well addressed; it pauses once per listing attempt; it sends at most
    one request per attempt, none when the price is rejected; and the
    requests it sends are listings of tokens and wallets that [src] allows,
    salted from draws of the stretch, each draw later than the one before. *)
Definition Ran (rt : Runtime) (cfg : Config) (src : Wallet -> Nft -> Prop)
  (w w' : World) (evs : list Event) : Prop :=
  events w' = (events w ++ evs)%list
  /\ Forall (well_addressed cfg) evs
  /\ (draws w <= draws w')%nat
  /\ pauses evs = repeat SellNfts.delay (attempts evs)
  /\ (List.length (posted evs) <= attempts evs)%nat
  /\ (parseEther (LISTING_PRICE_IN_ETH cfg) = None -> posted evs = [])
  /\ exists ks,
      StronglySorted lt ks
      /\ Forall (fun k => draws w <= k < draws w')%nat ks
      /\ Forall2 (fun k body =>
                    exists wallet nft,
                      src wallet nft
                      /\ listed rt cfg wallet nft (LISTING_PRICE_IN_ETH cfg) k body)
           ks (posted evs).

(** The body main.js sends: the signature and the Seaport address, and
    nothing of the order. *)
Definition flat_body (body : value) : Prop :=
  exists signature,
    body = VObj [("signature", VStr signature);
                 ("protocol_address", VStr SEAPORT_CONTRACT_ADDRESS)].

(** The lines the catch block of main.js's listNFT appends for [e]. *)
Definition js_failed (rt : Runtime) (nft : Nft) (e : Error) : list string :=
  ("[FAILED] FAILED: Error listing NFT " ++ MainJs.shown_name nft ++ " (ID: "
   ++ identifier nft ++ "). Reason: " ++ message e)
  :: match response e with
     | Some r => ["[FAILED] Error Details: " ++ JSON_stringify rt (data r)]
     | None => []
     end.

(** What a stretch of a run of main.js keeps: it only adds events, its
    requests well addressed; it draws no random bytes; it pauses once per
    listing attempt; and its requests to the listing endpoint, at most one
    per attempt, carry no order. *)
Definition RanJs (rt : Runtime) (cfg : Config) (w w' : World) (evs : list Event) : Prop :=
  events w' = (events w ++ evs)%list
  /\ Forall (well_addressed cfg) evs
  /\ draws w' = draws w
  /\ pauses evs = repeat MainJs.delay (attempts evs)
  /\ (List.length (posted evs) <= attempts evs)%nat
  /\ Forall flat_body (posted evs).

Definition with_price (env : ProcessEnv) (price : string) : ProcessEnv :=
  {| env_OPENSEA_API_KEY := env_OPENSEA_API_KEY env;
     env_RPC_URL := env_RPC_URL env;
     env_TARGET_CONTRACT_ADDRESS := env_TARGET_CONTRACT_ADDRESS env;
     env_LISTING_PRICE_IN_ETH := Some price;
     env_LISTING_DURATION_MINUTES := env_LISTING_DURATION_MINUTES env;
     env_WALLETS := env_WALLETS env;
     env_PRIVATE_KEYS := env_PRIVATE_KEYS env |}.

(** The names of the properties of an object, in order. *)
Definition field_names (v : value) : list value :=
  match v with
  | VObj props => map (fun p => VStr (fst p)) props
  | _ => []
  end.

(** The member names the typed-data schema of part_000 declares for a type. *)
Definition declared (type : string) : list value :=
  match get type SellNfts.types with
  | VArr members => map (get "name") members
  | _ => []
  end.

(** A text with every line feed preceded by a carriage return. *)
Definition CR : ascii := ascii_of_N 13.

Fixpoint crlf (s : string) : string :=
  match s with
  | EmptyString => EmptyString
  | String c r =>
      if Ascii.eqb c LF then String CR (String LF (crlf r)) else String c (crlf r)
  end.

Definition with_minutes (cfg : Config) (minutes : string) : Config :=
  {| OPENSEA_API_KEY := OPENSEA_API_KEY cfg;
     RPC_URL := RPC_URL cfg;
     TARGET_CONTRACT_ADDRESS := TARGET_CONTRACT_ADDRESS cfg;
     LISTING_PRICE_IN_ETH := LISTING_PRICE_IN_ETH cfg;
     LISTING_DURATION_MINUTES := minutes;
     WALLETS := WALLETS cfg;
     PRIVATE_KEYS := PRIVATE_KEYS cfg |}.

(** A runtime like [accepting], but for the key [bad], which ethers refuses. *)
Definition refusing (bad : string) : Runtime :=
  {| Date_now := Date_now accepting;
     randomBytes := randomBytes accepting;
     Wallet_new := fun key =>
       match key with
       | Some k => if String.eqb k bad then inl (plain_error "invalid private key")
                   else Wallet_new accepting key
       | None => Wallet_new accepting key
       end;
     signTypedData := signTypedData accepting;
     axios_get := axios_get accepting;
     axios_post := axios_post accepting;
     parseEther_error := parseEther_error accepting;
     getCounter := getCounter accepting;
     ToString := ToString accepting;
     JSON_stringify := JSON_stringify accepting;
     JSON_stringify_2 := JSON_stringify_2 accepting |}.

(** * Proofs *)

(** ** Lines of an environment variable *)

Lemma trimStart_blank (s : string) :
  blank s = true -> trimStart s = EmptyString.
Proof.
  unfold blank. induction s as [|c r IH]; simpl; [reflexivity|].
  destruct (is_space c); simpl; [exact IH | discriminate].
Qed.

Lemma trimStart_nonblank (s : string) :
  blank s = false ->
  exists c r, trimStart s = String c r /\ is_space c = false.
Proof.
  unfold blank. induction s as [|c r IH]; simpl; [discriminate|].
  destruct (is_space c) eqn:Hc; simpl.
  - exact IH.
  - intros _. exists c, r. split; [reflexivity | exact Hc].
Qed.

Lemma trimEnd_keeps (c : ascii) (r : string) :
  is_space c = false -> nonempty (trimEnd (String c r)) = true.
Proof.
  intros Hc. simpl. destruct (trimEnd r); [rewrite Hc|]; reflexivity.
Qed.

Lemma nonempty_trim (s : string) : nonempty (trim s) = negb (blank s).
Proof.
  unfold trim. destruct (blank s) eqn:Hb.
  - rewrite (trimStart_blank s Hb). reflexivity.
  - destruct (trimStart_nonblank s Hb) as (c & r & -> & Hc).
    now rewrite trimEnd_keeps.
Qed.

Lemma filter_map_comm {A B} (p : B -> bool) (f : A -> B) (l : list A) :
  filter p (map f l) = map f (filter (fun a => p (f a)) l).
Proof.
  induction l as [|a l IH]; simpl; [reflexivity|].
  destruct (p (f a)); simpl; now rewrite IH.
Qed.

Lemma parse_lines_spec (s : string) :
  parse_lines s = map trim (nonblank_lines s).
Proof.
  unfold parse_lines, nonblank_lines. rewrite filter_map_comm.
  f_equal. apply filter_ext. intros line. apply nonempty_trim.
Qed.

Lemma parse_lines_nonempty (s : string) :
  Forall (fun a => nonempty a = true) (parse_lines s).
Proof.
  unfold parse_lines. apply Forall_forall. intros a Ha.
  apply filter_In in Ha. tauto.
Qed.

Lemma startup_cases (env : ProcessEnv) (wallets keys : string) :
  env_WALLETS env = Some wallets -> env_PRIVATE_KEYS env = Some keys ->
  startup env =
    if negb (scalars_set env) then Halted missing_diagnostic
    else if negb (List.length (parse_lines wallets) =? List.length (parse_lines keys))%nat
    then Halted (mismatch_diagnostic (List.length (parse_lines wallets))
                   (List.length (parse_lines keys)))
    else Started {|
           OPENSEA_API_KEY := or_empty (env_OPENSEA_API_KEY env);
           RPC_URL := or_empty (env_RPC_URL env);
           TARGET_CONTRACT_ADDRESS := or_empty (env_TARGET_CONTRACT_ADDRESS env);
           LISTING_PRICE_IN_ETH := or_empty (env_LISTING_PRICE_IN_ETH env);
           LISTING_DURATION_MINUTES := or_empty (env_LISTING_DURATION_MINUTES env);
           WALLETS := parse_lines wallets;
           PRIVATE_KEYS := parse_lines keys |}.
Proof.
  intros Hw Hk. unfold startup, scalars_set. rewrite Hw, Hk.
  rewrite negb_involutive. reflexivity.
Qed.

Lemma startup_started (env : ProcessEnv) (cfg : Config) :
  startup env = Started cfg ->
  exists wallets keys,
    env_WALLETS env = Some wallets /\ env_PRIVATE_KEYS env = Some keys
    /\ scalars_set env = true
    /\ WALLETS cfg = parse_lines wallets /\ PRIVATE_KEYS cfg = parse_lines keys
    /\ List.length (WALLETS cfg) = List.length (PRIVATE_KEYS cfg)
    /\ LISTING_DURATION_MINUTES cfg = or_empty (env_LISTING_DURATION_MINUTES env)
    /\ LISTING_PRICE_IN_ETH cfg = or_empty (env_LISTING_PRICE_IN_ETH env).
Proof.
  destruct (env_WALLETS env) as [wallets|] eqn:Hw;
    [|unfold startup; rewrite Hw; discriminate].
  destruct (env_PRIVATE_KEYS env) as [keys|] eqn:Hk;
    [|unfold startup; rewrite Hw, Hk; discriminate].
  rewrite (startup_cases env wallets keys Hw Hk).
  destruct (scalars_set env); [|discriminate]. cbn [negb].
  destruct (Nat.eqb_spec (List.length (parse_lines wallets)) (List.length (parse_lines keys)));
    [|discriminate].
  cbn [negb]. intros [= <-]. exists wallets, keys. cbn. repeat split; assumption.
Qed.

(** C10: the wallet and key variables are split on line feeds, each line is
    trimmed and the empty results are dropped before the lengths are
    compared: the two lists are the trimmed non-blank lines, in order, no
    entry is empty, the i-th entry is the i-th non-blank line, and the
    length check counts non-blank lines only. *)
Theorem parse_lines_by_nonblank_position (env : ProcessEnv) (wallets keys : string) :
  env_WALLETS env = Some wallets ->
  env_PRIVATE_KEYS env = Some keys ->
  (parse_lines wallets = map trim (nonblank_lines wallets)
   /\ parse_lines keys = map trim (nonblank_lines keys))
  /\ (Forall (fun a => nonempty a = true) (parse_lines wallets)
      /\ Forall (fun k => nonempty k = true) (parse_lines keys))
  /\ (forall i,
        nth_error (parse_lines wallets) i
          = option_map trim (nth_error (nonblank_lines wallets) i)
        /\ nth_error (parse_lines keys) i
          = option_map trim (nth_error (nonblank_lines keys) i))
  /\ (forall cfg, startup env = Started cfg ->
        WALLETS cfg = map trim (nonblank_lines wallets)
        /\ PRIVATE_KEYS cfg = map trim (nonblank_lines keys)
        /\ List.length (nonblank_lines wallets) = List.length (nonblank_lines keys))
  /\ (scalars_set env = true ->
      List.length (nonblank_lines wallets) <> List.length (nonblank_lines keys) ->
      startup env =
        Halted (mismatch_diagnostic (List.length (nonblank_lines wallets))
                  (List.length (nonblank_lines keys)))).
Proof.
  intros Hw Hk.
  pose proof (parse_lines_spec wallets) as Ew.
  pose proof (parse_lines_spec keys) as Ek.
  split; [now split|].
  split; [split; apply parse_lines_nonempty|].
  split.
  { intros i. rewrite Ew, Ek. split; apply nth_error_map. }
  rewrite (startup_cases env wallets keys Hw Hk).
  split.
  - intros cfg. destruct (negb (scalars_set env)); [discriminate|].
    destruct (List.length (parse_lines wallets) =? List.length (parse_lines keys))%nat eqn:Hl;
      simpl; [|discriminate].
    intros [= <-]. simpl. apply Nat.eqb_eq in Hl.
    rewrite Ew, Ek in Hl. rewrite !length_map in Hl. now rewrite <- Ew, <- Ek.
  - intros Hs Hne. rewrite Hs. simpl. rewrite Ew, Ek, !length_map.
    destruct (Nat.eqb_spec (List.length (nonblank_lines wallets))
                (List.length (nonblank_lines keys))); [contradiction|reflexivity].
Qed.

Lemma parse_lines_by_nonblank_position_witness :
  env_WALLETS (env_with "30" ("0xw1" ++ nl ++ "   " ++ nl ++ " 0xw2 " ++ nl) ("k1" ++ nl ++ nl ++ "k2"))
  = Some ("0xw1" ++ nl ++ "   " ++ nl ++ " 0xw2 " ++ nl)
  /\ parse_lines ("0xw1" ++ nl ++ "   " ++ nl ++ " 0xw2 " ++ nl) = ["0xw1"; "0xw2"]
  /\ parse_lines ("0xw1" ++ nl ++ "   " ++ nl ++ " 0xw2 " ++ nl)
     = map trim (nonblank_lines ("0xw1" ++ nl ++ "   " ++ nl ++ " 0xw2 " ++ nl)).
Proof.
  split; [reflexivity|]. split; [reflexivity|].
  exact (proj1 (proj1 (parse_lines_by_nonblank_position
                         (env_with "30" ("0xw1" ++ nl ++ "   " ++ nl ++ " 0xw2 " ++ nl)
                            ("k1" ++ nl ++ nl ++ "k2"))
                         _ _ eq_refl eq_refl))).
Defined.

(** ** The filter on the target contract *)

Lemma all_units_complete (a : ascii) : In a all_units.
Proof.
  change all_units with (map (fun n => ascii_of_N (N.of_nat n)) (seq 0 256)).
  apply in_map_iff. exists (N.to_nat (N_of_ascii a)). split.
  - rewrite Nnat.N2Nat.id. apply ascii_N_embedding.
  - apply in_seq. pose proof (N_ascii_bounded a). lia.
Qed.

Lemma every_pair_spec (p : ascii -> ascii -> bool) :
  every_pair p = true -> forall a b, p a b = true.
Proof.
  intros H a b. unfold every_pair in H.
  rewrite forallb_forall in H. specialize (H a (all_units_complete a)).
  rewrite forallb_forall in H. exact (H b (all_units_complete b)).
Qed.

Lemma lower_char_same_letter (a b : ascii) :
  Ascii.eqb (lower_char a) (lower_char b) = same_letter a b.
Proof.
  apply Bool.eqb_prop.
  revert a b. apply every_pair_spec. vm_compute. reflexivity.
Qed.

Lemma lower_char_idempotent (a : ascii) : lower_char (lower_char a) = lower_char a.
Proof.
  apply Ascii.eqb_eq.
  apply (every_pair_spec
           (fun a _ => Ascii.eqb (lower_char (lower_char a)) (lower_char a)));
    [vm_compute; reflexivity | exact a].
Qed.

Lemma toLowerCase_idempotent (s : string) : toLowerCase (toLowerCase s) = toLowerCase s.
Proof.
  induction s as [|c r IH]; simpl; [reflexivity|].
  now rewrite lower_char_idempotent, IH.
Qed.

Lemma toLowerCase_equal_up_to_case (s t : string) :
  String.eqb (toLowerCase s) (toLowerCase t) = equal_up_to_case s t.
Proof.
  revert t. induction s as [|a s IH]; intros [|b t]; simpl; try reflexivity.
  now rewrite lower_char_same_letter, IH.
Qed.

(** C7: the filter of main selects a fetched token exactly when its
    contract address is the target address up to the case of its letters,
    in both scripts (they share the filter); so a token whose contract is
    the target written in lower case is selected whatever the case of the
    configured target. *)
Theorem filter_is_case_insensitive (cfg : Config) (nfts : list Nft) (nft : Nft) :
  (is_target cfg nft = equal_up_to_case (contract nft) (TARGET_CONTRACT_ADDRESS cfg))
  /\ (In nft (filter (is_target cfg) nfts)
      <-> In nft nfts
          /\ equal_up_to_case (contract nft) (TARGET_CONTRACT_ADDRESS cfg) = true)
  /\ (is_target cfg
        {| contract := toLowerCase (TARGET_CONTRACT_ADDRESS cfg);
           identifier := identifier nft; name := name nft |} = true).
Proof.
  assert (E : forall n, is_target cfg n
                        = equal_up_to_case (contract n) (TARGET_CONTRACT_ADDRESS cfg)).
  { intros n. unfold is_target. apply toLowerCase_equal_up_to_case. }
  split; [apply E|]. split.
  - rewrite filter_In, E. reflexivity.
  - unfold is_target. simpl. rewrite toLowerCase_idempotent. apply String.eqb_refl.
Qed.

(** ** Decimal digits *)

Lemma code_digit_char (d : Z) : 0 <= d <= 9 -> code (digit_char d) = 48 + d.
Proof.
  intros H. unfold code, digit_char. rewrite N_ascii_embedding; lia.
Qed.

Lemma digits_value_app (acc : Z) (s t : string) :
  digits_value acc (s ++ t) = digits_value (digits_value acc s) t.
Proof.
  revert acc. induction s as [|c s IH]; intros acc; simpl; [reflexivity | apply IH].
Qed.

Lemma digits_fuel_value (fuel : nat) (n : Z) :
  0 <= n < 2 ^ Z.of_nat fuel -> digits_value 0 (digits_fuel fuel n) = n.
Proof.
  revert n. induction fuel as [|f IH]; intros n Hn.
  - simpl in *. lia.
  - cbn [digits_fuel]. destruct (Z.ltb_spec n 10) as [Hlt|Hge].
    + simpl. rewrite code_digit_char; lia.
    + rewrite digits_value_app, IH.
      * simpl. rewrite code_digit_char by (pose proof (Z.mod_pos_bound n 10); lia).
        pose proof (Z.div_mod n 10). lia.
      * rewrite Nat2Z.inj_succ, Z.pow_succ_r in Hn by lia.
        split; [apply Z.div_pos; lia|].
        apply Z.div_lt_upper_bound; lia.
Qed.

Lemma string_of_Z_value (z : Z) : 0 <= z -> digits_value 0 (string_of_Z z) = z.
Proof.
  intros Hz. unfold string_of_Z.
  destruct (Z.ltb_spec z 0) as [|_]; [lia|].
  rewrite Z.abs_eq by lia. apply digits_fuel_value.
  split; [lia|]. rewrite Nat2Z.inj_succ, Z2Nat.id by apply Z.log2_nonneg.
  destruct (Z.eq_dec z 0) as [->|Hnz]; [reflexivity|].
  apply Z.log2_spec. lia.
Qed.

Lemma string_of_Z_zero (z : Z) : string_of_Z z = "0" <-> z = 0.
Proof.
  split; [|intros ->; reflexivity].
  intros H. destruct (Z.ltb_spec z 0) as [Hneg|Hpos].
  - unfold string_of_Z in H. destruct (Z.ltb_spec z 0); [discriminate H | lia].
  - rewrite <- (string_of_Z_value z Hpos), H. reflexivity.
Qed.

(** ** Price conversion *)

Lemma all_chars_app (p : ascii -> bool) (s t : string) :
  all_chars p (s ++ t) = all_chars p s && all_chars p t.
Proof.
  induction s as [|c s IH]; simpl; [reflexivity|]. now rewrite IH, andb_assoc.
Qed.

Lemma all_chars_impl (p q : ascii -> bool) (s : string) :
  (forall c, p c = true -> q c = true) -> all_chars p s = true -> all_chars q s = true.
Proof.
  intros H. induction s as [|c s IH]; simpl; [reflexivity|].
  intros Hs. apply andb_true_iff in Hs as [Hc Hs]. now rewrite (H c Hc), IH.
Qed.

Lemma digit_is_no_point (c : ascii) : is_digit c = true -> Ascii.eqb c "." = false.
Proof.
  intros H. destruct (Ascii.eqb_spec c "."); [subst c; discriminate H | reflexivity].
Qed.

Lemma digit_is_no_minus (c : ascii) : is_digit c = true -> Ascii.eqb c "-" = false.
Proof.
  intros H. destruct (Ascii.eqb_spec c "-"); [subst c; discriminate H | reflexivity].
Qed.

Lemma split_digits (s : string) :
  all_chars is_digit s = true -> split "." s = [s].
Proof.
  induction s as [|c s IH]; simpl; [reflexivity|].
  intros H. apply andb_true_iff in H as [Hc Hs].
  now rewrite (digit_is_no_point c Hc), (IH Hs).
Qed.

Lemma split_digits_point (a b : string) :
  all_chars is_digit a = true ->
  split "." (a ++ String "." b) = a :: split "." b.
Proof.
  induction a as [|c a IH]; simpl; [reflexivity|].
  intros H. apply andb_true_iff in H as [Hc Ha].
  now rewrite (digit_is_no_point c Hc), (IH Ha).
Qed.

Lemma strip_zeros_zeros (s : string) : exists k, s = strip_zeros s ++ zeros k.
Proof.
  induction s as [|c r (k & IH)]; [exists O; reflexivity|].
  simpl. destruct (strip_zeros r) as [|c' r'] eqn:E.
  - destruct (Ascii.eqb_spec c "0") as [->|_].
    + exists (S k). simpl. simpl in IH. now rewrite <- IH.
    + exists k. simpl. simpl in IH. now rewrite <- IH.
  - exists k. simpl. f_equal. exact IH.
Qed.

Lemma length_zeros (k : nat) : String.length (zeros k) = k.
Proof. induction k; simpl; congruence. Qed.

Lemma length_append (s t : string) :
  String.length (s ++ t) = (String.length s + String.length t)%nat.
Proof. induction s; simpl; congruence. Qed.

Lemma strip_zeros_pad (s : string) :
  s = strip_zeros s ++ zeros (String.length s - String.length (strip_zeros s)).
Proof.
  destruct (strip_zeros_zeros s) as (k & Hk).
  assert (String.length s = (String.length (strip_zeros s) + k)%nat) as ->.
  { rewrite Hk at 1. now rewrite length_append, length_zeros. }
  replace (String.length (strip_zeros s) + k - String.length (strip_zeros s))%nat
    with k by lia.
  exact Hk.
Qed.

Lemma strip_zeros_shorter (s : string) :
  (String.length (strip_zeros s) <= String.length s)%nat.
Proof.
  destruct (strip_zeros_zeros s) as (k & Hk).
  rewrite Hk at 2. rewrite length_append. lia.
Qed.

Lemma strip_zeros_digits (s : string) :
  all_chars is_digit s = true -> all_chars is_digit (strip_zeros s) = true.
Proof.
  destruct (strip_zeros_zeros s) as (k & Hk). intros H.
  rewrite Hk, all_chars_app in H. now apply andb_true_iff in H.
Qed.

Lemma strip_zeros_idempotent (s : string) : strip_zeros (strip_zeros s) = strip_zeros s.
Proof.
  induction s as [|c r IH]; [reflexivity|].
  simpl. destruct (strip_zeros r) as [|c' r'] eqn:E.
  - destruct (Ascii.eqb_spec c "0") as [->|Hc]; [reflexivity|].
    simpl. destruct (Ascii.eqb_spec c "0"); [contradiction | reflexivity].
  - change (strip_zeros (String c (String c' r')))
      with (match strip_zeros (String c' r') with
            | EmptyString => if Ascii.eqb c "0" then EmptyString else String c EmptyString
            | r2 => String c r2
            end).
    now rewrite IH.
Qed.

Lemma strip_zeros_or_zero (s : string) :
  strip_zeros (or_zero (strip_zeros s)) = strip_zeros s.
Proof.
  destruct (strip_zeros s) eqn:E; [reflexivity|].
  cbn [or_zero]. rewrite <- E. apply strip_zeros_idempotent.
Qed.

Lemma digits_value_zeros (acc : Z) (k : nat) :
  digits_value acc (zeros k) = acc * 10 ^ Z.of_nat k.
Proof.
  revert acc. induction k as [|k IH]; intros acc.
  - simpl. lia.
  - cbn [zeros digits_value]. rewrite IH.
    rewrite Nat2Z.inj_succ, Z.pow_succ_r by lia.
    change (code "0" - 48) with 0. ring.
Qed.

Lemma digits_value_pad (s : string) (k : nat) :
  digits_value 0 (s ++ zeros k) = digits_value 0 s * 10 ^ Z.of_nat k.
Proof. now rewrite digits_value_app, digits_value_zeros. Qed.

Lemma digits_value_or_zero (s : string) :
  digits_value 0 (or_zero s) = digits_value 0 s.
Proof. destruct s; reflexivity. Qed.

Lemma is_digit_digit_char (d : Z) : 0 <= d <= 9 -> is_digit (digit_char d) = true.
Proof.
  intros H. unfold is_digit. rewrite code_digit_char by exact H.
  apply andb_true_iff. split; apply Z.leb_le; lia.
Qed.

Lemma digits_fixed_length (k : nat) (n : Z) : String.length (digits_fixed k n) = k.
Proof.
  revert n. induction k as [|k IH]; intros n; [reflexivity|].
  cbn [digits_fixed]. rewrite length_append, IH. simpl. lia.
Qed.

Lemma digits_fixed_digits (k : nat) (n : Z) : all_chars is_digit (digits_fixed k n) = true.
Proof.
  revert n. induction k as [|k IH]; intros n; [reflexivity|].
  cbn [digits_fixed]. rewrite all_chars_app, IH. simpl.
  rewrite is_digit_digit_char; [reflexivity|].
  pose proof (Z.mod_pos_bound n 10). lia.
Qed.

Lemma digits_fixed_value (k : nat) (n : Z) :
  0 <= n -> digits_value 0 (digits_fixed k n) = n mod 10 ^ Z.of_nat k.
Proof.
  revert n. induction k as [|k IH]; intros n Hn.
  - simpl. now rewrite Z.mod_1_r.
  - cbn [digits_fixed]. rewrite digits_value_app, IH by (apply Z.div_pos; lia).
    cbn [digits_value]. rewrite code_digit_char by (pose proof (Z.mod_pos_bound n 10); lia).
    rewrite Nat2Z.inj_succ, Z.pow_succ_r by lia.
    rewrite (Z.rem_mul_r n 10 (10 ^ Z.of_nat k)) by lia. ring.
Qed.

Lemma digits_fuel_digits (fuel : nat) (n : Z) :
  0 <= n -> all_chars is_digit (digits_fuel fuel n) = true.
Proof.
  revert n. induction fuel as [|f IH]; intros n Hn; [reflexivity|].
  cbn [digits_fuel]. destruct (Z.ltb_spec n 10).
  - simpl. rewrite is_digit_digit_char by lia. reflexivity.
  - rewrite all_chars_app, IH by (apply Z.div_pos; lia). simpl.
    rewrite is_digit_digit_char; [reflexivity|].
    pose proof (Z.mod_pos_bound n 10). lia.
Qed.

Lemma digits_fuel_nonempty (fuel : nat) (n : Z) :
  nonempty (digits_fuel (S fuel) n) = true.
Proof.
  cbn [digits_fuel]. destruct (n <? 10); [reflexivity|].
  destruct (digits_fuel fuel (n / 10)); reflexivity.
Qed.

Lemma string_of_Z_digits (z : Z) :
  0 <= z -> all_chars is_digit (string_of_Z z) = true /\ nonempty (string_of_Z z) = true.
Proof.
  intros Hz. unfold string_of_Z. destruct (Z.ltb_spec z 0); [lia|].
  split; [apply digits_fuel_digits; lia | apply digits_fuel_nonempty].
Qed.

Lemma append_nil_r_local (s : string) : s ++ EmptyString = s.
Proof. induction s; simpl; congruence. Qed.

(** What parseEther answers on a numeral. *)
Lemma parseEther_numeral (n : Numeral) :
  well_formed n = true ->
  parseEther (numeral_text n) =
    if (18 <? precision n)%nat then None
    else Some ((if minus n then -1 else 1)
               * (digits_value 0 (whole n) * 10 ^ 18
                  + digits_value 0 (strip_zeros (fraction_digits n)
                                    ++ zeros (18 - precision n)))).
Proof.
  destruct n as [m w f]. unfold well_formed, numeral_text, precision, fraction_digits.
  cbn [minus whole fraction]. intros Hwf.
  apply andb_true_iff in Hwf as [Hwf Hne]. apply andb_true_iff in Hwf as [Hw Hf].
  set (fd := match f with Some f' => f' | None => EmptyString end) in *.
  set (body := w ++ match f with Some f' => "." ++ f' | None => EmptyString end).
  assert (F1 : nonempty body = true
               /\ all_chars (fun c => is_digit c || Ascii.eqb c ".") body = true).
  { subst body fd. split.
    - destruct w; [|reflexivity]. destruct f; [reflexivity | discriminate Hne].
    - rewrite all_chars_app. apply andb_true_iff. split.
      + apply (all_chars_impl is_digit); [|exact Hw]. intros c ->. reflexivity.
      + destruct f as [f'|]; [|reflexivity]. cbn.
        apply (all_chars_impl is_digit); [|exact Hf]. intros c ->. reflexivity. }
  assert (F2 : String.eqb body "." = false).
  { subst body fd. destruct w as [|c w'].
    - destruct f as [[|c' f']|]; [discriminate Hne | reflexivity | reflexivity].
    - simpl in Hw. apply andb_true_iff in Hw as [Hc _]. cbn.
      now rewrite (digit_is_no_point c Hc). }
  assert (F3 : match body with
               | String c r => if Ascii.eqb c "-" then (true, r) else (false, body)
               | EmptyString => (false, body)
               end = (false, body)).
  { destruct body as [|c r] eqn:E; [reflexivity|].
    assert (Hc : Ascii.eqb c "-" = false); [|now rewrite Hc].
    subst body fd. destruct w as [|c0 w'].
    - destruct f as [f'|]; [|discriminate E]. injection E as <- _. reflexivity.
    - injection E as <- _. simpl in Hw. apply andb_true_iff in Hw as [Hc _].
      now apply digit_is_no_minus. }
  assert (F4 : split "." body = w :: match f with Some f' => [f'] | None => [] end).
  { subst body fd. destruct f as [f'|].
    - cbn [append]. rewrite (split_digits_point w f' Hw). now rewrite (split_digits f' Hf).
    - rewrite append_nil_r_local. now apply split_digits. }
  destruct F1 as [F1 F1'].
  assert (R : parseEther ((if m then "-" else EmptyString) ++ body)
              = if (1 <? List.length match f with Some f' => [f'] | None => [] end)%nat
                then None
                else if (18 <? String.length (strip_zeros fd))%nat then None
                     else Some ((if m then -1 else 1)
                                * (digits_value 0 (or_zero w) * 10 ^ 18
                                   + digits_value 0
                                       (strip_zeros fd
                                        ++ zeros (18 - String.length (strip_zeros fd)))))).
  { unfold parseEther. destruct m.
    - cbn [append]. change (Ascii.eqb "-" "-") with true. cbn iota.
      rewrite F1, F1', F2, F4. cbn [andb negb]. subst fd. destruct f; reflexivity.
    - cbn [append]. rewrite F3. rewrite F1, F1', F2, F4. cbn [andb negb].
      subst fd. destruct f; reflexivity. }
  rewrite R. rewrite digits_value_or_zero.
  destruct f; reflexivity.
Qed.

Lemma Qdiv_cross (a b c d : Z) :
  0 < b -> 0 < d -> a * d = c * b ->
  (inject_Z a / inject_Z b == inject_Z c / inject_Z d)%Q.
Proof.
  intros Hb Hd H.
  assert (Nb : ~ (inject_Z b == 0)%Q).
  { change 0%Q with (inject_Z 0). rewrite inject_Z_injective. lia. }
  assert (Nd : ~ (inject_Z d == 0)%Q).
  { change 0%Q with (inject_Z 0). rewrite inject_Z_injective. lia. }
  apply (Qmult_inj_r _ _ (inject_Z b * inject_Z d)%Q).
  { intros E. apply Qmult_integral in E. tauto. }
  transitivity (inject_Z a * inject_Z d)%Q; [field; exact Nb|].
  transitivity (inject_Z c * inject_Z b)%Q; [|field; exact Nd].
  rewrite <- !inject_Z_mult. now rewrite H.
Qed.

Lemma parseEther_value (n : Numeral) (wei : Z) :
  well_formed n = true ->
  parseEther (numeral_text n) = Some wei ->
  (ether_of_wei wei == numeral_value n)%Q.
Proof.
  intros Hwf Hp. rewrite (parseEther_numeral n Hwf) in Hp.
  destruct (Nat.ltb_spec 18 (precision n)) as [|Hprec]; [discriminate|].
  assert (Hw : forall x y : Z, Some x = Some y -> y = x) by (intros x y [= ->]; reflexivity).
  apply Hw in Hp. clear Hw. subst wei.
  unfold ether_of_wei, numeral_value, precision in *.
  set (fd := fraction_digits n) in *.
  pose proof (strip_zeros_shorter fd) as Hshort.
  pose proof (strip_zeros_pad fd) as Hpad.
  set (p := String.length (strip_zeros fd)) in *.
  set (L := String.length fd) in *.
  assert (HF : digits_value 0 fd
               = digits_value 0 (strip_zeros fd) * 10 ^ Z.of_nat (L - p)).
  { rewrite Hpad at 1. apply digits_value_pad. }
  rewrite HF, digits_value_pad.
  apply Qdiv_cross; [lia | apply Z.pow_pos_nonneg; lia|].
  rewrite !Nat2Z.inj_sub by lia. change (Z.of_nat 18) with 18.
  set (Fs := digits_value 0 (strip_zeros fd)).
  set (W := digits_value 0 (whole n)).
  set (s := if minus n then -1 else 1).
  replace (10 ^ 18) with (10 ^ (18 - Z.of_nat p) * 10 ^ Z.of_nat p)
    by (rewrite <- Z.pow_add_r by lia; f_equal; lia).
  replace (10 ^ Z.of_nat L) with (10 ^ (Z.of_nat L - Z.of_nat p) * 10 ^ Z.of_nat p)
    by (rewrite <- Z.pow_add_r by lia; f_equal; lia).
  ring.
Qed.

Lemma formatEther_numeral (wei : Z) :
  formatEther wei = numeral_text (numeral_of_wei wei)
  /\ well_formed (numeral_of_wei wei) = true
  /\ (precision (numeral_of_wei wei) <= 18)%nat.
Proof.
  assert (Hq : 0 <= Z.abs wei / 10 ^ 18) by (apply Z.div_pos; lia).
  destruct (string_of_Z_digits _ Hq) as [Hd Hn].
  split; [|split].
  - unfold formatEther, numeral_text, numeral_of_wei. cbn [minus whole fraction].
    destruct (wei <? 0); reflexivity.
  - unfold well_formed, numeral_of_wei, fraction_digits. cbn [minus whole fraction].
    rewrite Hd. cbn [andb]. apply andb_true_iff. split.
    + pose proof (strip_zeros_digits _ (digits_fixed_digits 18 (Z.abs wei mod 10 ^ 18))) as H.
      destruct (strip_zeros (digits_fixed 18 (Z.abs wei mod 10 ^ 18))); [reflexivity | exact H].
    + destruct (string_of_Z (Z.abs wei / 10 ^ 18)); [discriminate Hn | reflexivity].
  - unfold precision, numeral_of_wei, fraction_digits. cbn [fraction].
    rewrite strip_zeros_or_zero.
    pose proof (strip_zeros_shorter (digits_fixed 18 (Z.abs wei mod 10 ^ 18))) as H.
    now rewrite digits_fixed_length in H.
Qed.

Lemma parseEther_formatEther (wei : Z) : parseEther (formatEther wei) = Some wei.
Proof.
  destruct (formatEther_numeral wei) as (-> & Hwf & Hprec).
  rewrite (parseEther_numeral _ Hwf).
  destruct (Nat.ltb_spec 18 (precision (numeral_of_wei wei))) as [|_]; [lia|].
  f_equal. unfold precision, numeral_of_wei, fraction_digits. cbn [minus whole fraction].
  rewrite strip_zeros_or_zero.
  set (d := digits_fixed 18 (Z.abs wei mod 10 ^ 18)).
  assert (Hd : strip_zeros d ++ zeros (18 - String.length (strip_zeros d)) = d).
  { pose proof (strip_zeros_pad d) as H. unfold d in H at 3.
    rewrite digits_fixed_length in H. now symmetry. }
  rewrite Hd. unfold d.
  assert (Hm : 0 <= Z.abs wei mod 10 ^ 18 < 10 ^ 18) by (apply Z.mod_pos_bound; lia).
  rewrite digits_fixed_value by lia. change (Z.of_nat 18) with 18.
  rewrite Z.mod_mod by lia.
  rewrite string_of_Z_value by (apply Z.div_pos; lia).
  pose proof (Z.div_mod (Z.abs wei) (10 ^ 18) ltac:(lia)) as Hdm.
  destruct (Z.ltb_spec wei 0); lia.
Qed.

(** C4: on every decimal numeral (an optional minus sign, digits, and an
    optional point followed by digits; one digit at least) that needs at
    most 18 decimals, the conversion answers an amount of wei that is
    exactly the number written, converting that amount back and again gives
    the same amount, and the text converted back writes the same number; a
    numeral that needs more than 18 decimals is rejected. *)
Theorem price_conversion_is_exact (n : Numeral) :
  well_formed n = true ->
  ((precision n <= 18)%nat ->
   exists wei,
     parseEther (numeral_text n) = Some wei
     /\ (ether_of_wei wei == numeral_value n)%Q
     /\ parseEther (formatEther wei) = Some wei
     /\ formatEther wei = numeral_text (numeral_of_wei wei)
     /\ (numeral_value (numeral_of_wei wei) == numeral_value n)%Q)
  /\ ((18 < precision n)%nat -> parseEther (numeral_text n) = None).
Proof.
  intros Hwf. pose proof (parseEther_numeral n Hwf) as Hp. split.
  - intros Hprec.
    destruct (Nat.ltb_spec 18 (precision n)) as [|_]; [lia|].
    eexists. split; [exact Hp|].
    pose proof (parseEther_value n _ Hwf Hp) as Hv.
    split; [exact Hv|]. split; [apply parseEther_formatEther|].
    destruct (formatEther_numeral
                ((if minus n then -1 else 1)
                 * (digits_value 0 (whole n) * 10 ^ 18
                    + digits_value 0 (strip_zeros (fraction_digits n)
                                      ++ zeros (18 - precision n)))))
      as (Ht & Hwf' & _).
    split; [exact Ht|].
    rewrite <- Hv. symmetry. apply parseEther_value; [exact Hwf'|].
    rewrite <- Ht. apply parseEther_formatEther.
  - intros Hprec. rewrite Hp.
    destruct (Nat.ltb_spec 18 (precision n)) as [_|]; [reflexivity | lia].
Qed.

Lemma price_conversion_is_exact_witness :
  well_formed {| minus := false; whole := "0"; fraction := Some "0010" |} = true
  /\ numeral_text {| minus := false; whole := "0"; fraction := Some "0010" |} = "0.0010"
  /\ (precision {| minus := false; whole := "0"; fraction := Some "0010" |} <= 18)%nat
  /\ parseEther "0.0010" = Some 1000000000000000
  /\ formatEther 1000000000000000 = "0.001"
  /\ exists wei,
      parseEther (numeral_text {| minus := false; whole := "0"; fraction := Some "0010" |})
      = Some wei
      /\ (ether_of_wei wei
          == numeral_value {| minus := false; whole := "0"; fraction := Some "0010" |})%Q
      /\ parseEther (formatEther wei) = Some wei
      /\ formatEther wei = numeral_text (numeral_of_wei wei)
      /\ (numeral_value (numeral_of_wei wei)
          == numeral_value {| minus := false; whole := "0"; fraction := Some "0010" |})%Q.
Proof.
  split; [reflexivity|]. split; [reflexivity|].
  split; [vm_compute; lia|]. split; [reflexivity|].
  split; [vm_compute; reflexivity|].
  refine (proj1 (price_conversion_is_exact
                   {| minus := false; whole := "0"; fraction := Some "0010" |} eq_refl) _).
  vm_compute. lia.
Defined.

(** An amount finer than a wei is rejected. *)
Lemma excess_precision_is_rejected :
  numeral_text {| minus := false; whole := "0"; fraction := Some "1234567890123456789" |}
  = "0.1234567890123456789"
  /\ precision {| minus := false; whole := "0"; fraction := Some "1234567890123456789" |}
     = 19%nat
  /\ parseEther "0.1234567890123456789" = None.
Proof. repeat split. Qed.

(** ** Numbers, and the validity window of an order *)

Lemma to_number_exact (z : Z) : Z.abs z <= 2 ^ 53 -> to_number z = Num z.
Proof.
  intros H. unfold to_number, round53.
  destruct (Z.leb_spec (Z.abs z) (2 ^ 53)) as [_|Hgt]; [|lia].
  destruct (Z.leb_spec (2 ^ 1024) (Z.abs z)) as [Hbig|_]; [|reflexivity].
  assert (2 ^ 53 < 2 ^ 1024) by (apply Z.pow_lt_mono_r; lia). lia.
Qed.

Lemma build_order_returns (rt : Runtime) (cfg : Config) (wallet : Wallet) (nft : Nft)
  (price : string) (wei : Z) (w : World) :
  parseEther price = Some wei ->
  SellNfts.build_order rt cfg wallet nft price w =
    (Returned
       (SellNfts.orderComponents wallet nft wei
          (Num (Date_now rt (events w) / 1000))
          (num_mul (parseInt (LISTING_DURATION_MINUTES cfg)) (Num 60))
          (randomBytes rt (draws w))),
     {| events := events w; draws := S (draws w) |}).
Proof.
  intros Hp. unfold SellNfts.build_order, bind. rewrite Hp. reflexivity.
Qed.

Lemma build_order_throws (rt : Runtime) (cfg : Config) (wallet : Wallet) (nft : Nft)
  (price : string) (w : World) :
  parseEther price = None ->
  SellNfts.build_order rt cfg wallet nft price w
  = (Thrown (parseEther_error rt price), w).
Proof.
  intros Hp. unfold SellNfts.build_order, bind. rewrite Hp. reflexivity.
Qed.

Lemma order_fields (wallet : Wallet) (nft : Nft) (wei : Z) (now dur : number)
  (salt : list Byte.byte) :
  let order := SellNfts.orderComponents wallet nft wei now dur salt in
  get "startTime" order = VNum now
  /\ get "endTime" order = VNum (num_add now dur)
  /\ get "counter" order = VStr "0"
  /\ get "offerer" order = VStr (address wallet).
Proof. repeat split. Qed.

(** C5 (as amended): for every price the conversion accepts an order is
    generated, whatever the duration.  It starts at the clock reading of the
    call in whole seconds, floor(Date.now() / 1000), and ends at the double
    sum of that and parseInt(LISTING_DURATION_MINUTES) * 60.  When parseInt
    reads the duration as an integer [d], with 60 d and the end within the
    integers a double holds exactly, the end is exactly 60 d seconds after
    the start; when parseInt reads no number in it, the end is NaN. *)
Theorem order_window (rt : Runtime) (cfg : Config) (wallet : Wallet) (nft : Nft)
  (price : string) (wei : Z) (w : World) :
  parseEther price = Some wei ->
  exists order w',
    SellNfts.build_order rt cfg wallet nft price w = (Returned order, w')
    /\ get "startTime" order = VNum (Num (Date_now rt (events w) / 1000))
    /\ get "endTime" order
       = VNum (num_add (Num (Date_now rt (events w) / 1000))
                 (num_mul (parseInt (LISTING_DURATION_MINUTES cfg)) (Num 60)))
    /\ (forall d,
          parseInt (LISTING_DURATION_MINUTES cfg) = Num d ->
          Z.abs (d * 60) <= 2 ^ 53 ->
          Z.abs (Date_now rt (events w) / 1000 + d * 60) <= 2 ^ 53 ->
          exists endTime,
            get "endTime" order = VNum (Num endTime)
            /\ endTime - Date_now rt (events w) / 1000 = d * 60)
    /\ (parseInt (LISTING_DURATION_MINUTES cfg) = NaN ->
        get "endTime" order = VNum NaN).
Proof.
  intros Hp. eexists _, _.
  split; [apply (build_order_returns rt cfg wallet nft price wei w Hp)|].
  match goal with
  | |- context [SellNfts.orderComponents ?a ?b ?c ?n ?u ?s] =>
      destruct (order_fields a b c n u s) as (Hs & He & _)
  end.
  rewrite Hs, He. split; [reflexivity|]. split; [reflexivity|]. split.
  - intros d Hd H60 Hend. exists (Date_now rt (events w) / 1000 + d * 60).
    rewrite Hd. cbn [num_mul]. rewrite (to_number_exact _ H60).
    cbn [num_add]. rewrite (to_number_exact _ Hend).
    split; [reflexivity | lia].
  - intros ->. reflexivity.
Qed.

Lemma order_window_witness :
  parseEther "0.001" = Some 1000000000000000
  /\ parseInt (LISTING_DURATION_MINUTES (cfg_with "30")) = Num 30
  /\ exists order w',
      SellNfts.build_order accepting (cfg_with "30") seller token "0.001" initial
      = (Returned order, w')
      /\ get "startTime" order = VNum (Num 1700000000)
      /\ exists endTime,
          get "endTime" order = VNum (Num endTime)
          /\ endTime - 1700000000 = 30 * 60.
Proof.
  split; [reflexivity|]. split; [reflexivity|].
  destruct (order_window accepting (cfg_with "30") seller token "0.001"
              1000000000000000 initial eq_refl)
    as (order & w' & Hb & Hs & _ & Hexact & _).
  exists order, w'. split; [exact Hb|]. split; [exact Hs|].
  apply (Hexact 30); [reflexivity | vm_compute; discriminate | vm_compute; discriminate].
Defined.

(** C5 as stated fails: the duration "soon" passes validation, parseInt
    reads no number in it, and the order generated under it starts at the
    clock reading and has NaN for its end: no number is its end time. *)
Lemma order_without_end_time :
  startup (env_with "soon" "0xw1" "k1") = Started (cfg_with "soon")
  /\ parseInt (LISTING_DURATION_MINUTES (cfg_with "soon")) = NaN
  /\ exists order w',
      SellNfts.build_order accepting (cfg_with "soon") seller token "0.001" initial
      = (Returned order, w')
      /\ get "startTime" order = VNum (Num 1700000000)
      /\ get "endTime" order = VNum NaN
      /\ forall endTime, get "endTime" order <> VNum (Num endTime).
Proof.
  split; [reflexivity|]. split; [reflexivity|].
  eexists _, _. split; [lazy; reflexivity|].
  split; [reflexivity|]. split; [reflexivity|].
  intros endTime H. discriminate H.
Qed.

(** A duration that parseInt reads, but too long for exact doubles: the
    product with 60 is rounded, and the order ends 4 seconds short of
    60 times its minutes. *)
Example large_duration_is_rounded :
  parseInt "600479950316067" = Num 600479950316067
  /\ exists order w',
      SellNfts.build_order accepting (cfg_with "600479950316067") seller token "0.001"
        initial = (Returned order, w')
      /\ get "startTime" order = VNum (Num 1700000000)
      /\ get "endTime" order = VNum (Num (1700000000 + 600479950316067 * 60 - 4)).
Proof.
  split; [reflexivity|]. eexists _, _. split; [lazy; reflexivity|]. split; reflexivity.
Qed.

Lemma startup_ignores_duration (env : ProcessEnv) (cfg : Config) (minutes : string) :
  startup env = Started cfg ->
  nonempty minutes = true ->
  exists cfg',
    startup (with_duration env minutes) = Started cfg'
    /\ LISTING_DURATION_MINUTES cfg' = minutes
    /\ WALLETS cfg' = WALLETS cfg /\ PRIVATE_KEYS cfg' = PRIVATE_KEYS cfg.
Proof.
  intros Hs Hm.
  destruct (startup_started env cfg Hs)
    as (ws & ks & Hw & Hk & Hset & HW & HK & Hlen & _).
  rewrite (startup_cases (with_duration env minutes) ws ks Hw Hk).
  assert (Hset' : scalars_set (with_duration env minutes) = true).
  { unfold scalars_set in *. cbn [with_duration env_OPENSEA_API_KEY env_RPC_URL
      env_TARGET_CONTRACT_ADDRESS env_LISTING_PRICE_IN_ETH env_LISTING_DURATION_MINUTES].
    apply negb_true_iff in Hset. apply negb_true_iff.
    repeat (apply orb_false_iff in Hset; destruct Hset as [Hset ?]).
    repeat (apply orb_false_iff; split); try assumption.
    cbn [not_set]. now rewrite Hm. }
  rewrite Hset'. cbn [negb]. rewrite <- HW, <- HK, Hlen, Nat.eqb_refl. cbn [negb].
  eexists. split; [reflexivity|]. cbn. repeat split; congruence.
Qed.

(** ** The counter of an order *)

(** C1 (as amended): the counter of every order the pipeline builds is the
    constant "0"; the chain is not asked, so the field is the offerer's
    counter on the chain exactly when that counter is 0. *)
Theorem counter_is_constant (rt : Runtime) (cfg : Config) (wallet : Wallet) (nft : Nft)
  (price : string) (wei : Z) (w : World) :
  parseEther price = Some wei ->
  exists order w',
    SellNfts.build_order rt cfg wallet nft price w = (Returned order, w')
    /\ get "counter" order = VStr "0"
    /\ (get "counter" order = VStr (string_of_Z (getCounter rt (address wallet)))
        <-> getCounter rt (address wallet) = 0).
Proof.
  intros Hp. eexists _, _.
  split; [apply (build_order_returns rt cfg wallet nft price wei w Hp)|].
  match goal with
  | |- context [SellNfts.orderComponents ?a ?b ?c ?n ?u ?s] =>
      destruct (order_fields a b c n u s) as (_ & _ & Hc & _)
  end.
  rewrite Hc. split; [reflexivity|]. split.
  - intros [= H]. apply string_of_Z_zero. now symmetry.
  - intros ->. reflexivity.
Qed.

Lemma counter_is_constant_witness :
  parseEther "0.001" = Some 1000000000000000
  /\ exists order w',
      SellNfts.build_order accepting (cfg_with "30") seller token "0.001" initial
      = (Returned order, w')
      /\ get "counter" order = VStr "0"
      /\ (get "counter" order
          = VStr (string_of_Z (getCounter accepting (address seller)))
          <-> getCounter accepting (address seller) = 0).
Proof.
  split; [reflexivity|].
  exact (counter_is_constant accepting (cfg_with "30") seller token "0.001"
           1000000000000000 initial eq_refl).
Defined.

(** C1 as stated fails: on a chain where the offerer's counter is 5 the
    order is built with counter "0". *)
Lemma counter_is_not_read_from_chain :
  exists order w',
    SellNfts.build_order (runtime_with (inr {| status := 200; data := VNull |}) 5)
      (cfg_with "30") seller token "0.001" initial = (Returned order, w')
    /\ getCounter (runtime_with (inr {| status := 200; data := VNull |}) 5)
         (address seller) = 5
    /\ get "counter" order = VStr "0"
    /\ get "counter" order
       <> VStr (string_of_Z
                  (getCounter (runtime_with (inr {| status := 200; data := VNull |}) 5)
                     (address seller))).
Proof.
  eexists _, _. split; [lazy; reflexivity|]. split; [reflexivity|].
  split; [reflexivity|]. lazy. discriminate.
Qed.

(** ** One listing attempt *)

Lemma collect_app {A} (f : Event -> option A) (xs ys : list Event) :
  collect f (xs ++ ys) = (collect f xs ++ collect f ys)%list.
Proof.
  induction xs as [|e xs IH]; simpl; [reflexivity|].
  destruct (f e); simpl; now rewrite IH.
Qed.

Ltac run_script :=
  unfold try_catch, bind, http_post, http_get, logToFile, console_log,
    console_error, sleep, emit, of_result, ret, throw, date_now, random_bytes;
  cbn [events draws fst snd].

Lemma extended_more {A} (l l' evs more : list A) :
  l' = (l ++ evs)%list -> (l' ++ more)%list = (l ++ (evs ++ more))%list.
Proof. intros ->. symmetry. apply app_assoc. Qed.

Lemma extended_none {A} (l : list A) : l = (l ++ [])%list.
Proof. symmetry. apply app_nil_r. Qed.

Ltac extension := repeat apply extended_more; apply extended_none.

Ltac trace_found :=
  eexists _, _, _; split; [reflexivity|];
  split; [cbn [events]; extension|].

(** What listNFT does, case by case: it returns, true after an accepted
    request and false after any error; the file gets one [START] entry,
    then one [SUCCESS] entry, or one [FAILED] entry, or two when the error
    carries a response. *)
Lemma listNFT_cases (rt : Runtime) (cfg : Config) (wallet : Wallet) (nft : Nft)
  (price : string) (w : World) :
  exists ok w' evs,
    SellNfts.listNFT rt cfg wallet nft price w = (Returned ok, w')
    /\ events w' = (events w ++ evs)%list
    /\ queried evs = [] /\ pauses evs = []
    /\ exists start,
        (ok = true
         /\ exists m body history headers r,
             file_log evs = ["[START] " ++ start; "[SUCCESS] " ++ m]
             /\ posted evs = [body]
             /\ axios_post rt history listings_url body headers = inr r)
        \/ (ok = false
            /\ exists e m,
                raised rt wallet price e /\ response e = None
                /\ file_log evs = ["[START] " ++ start; "[FAILED] " ++ m])
        \/ (ok = false
            /\ exists e r m,
                raised rt wallet price e /\ response e = Some r
                /\ file_log evs = ["[START] " ++ start; "[FAILED] " ++ m;
                                   "[FAILED] Error Details: " ++ JSON_stringify_2 rt (data r)]).
Proof.
  unfold SellNfts.listNFT, SellNfts.listNFT_catch, SellNfts.build_order.
  run_script.
  destruct (parseEther price) as [wei|] eqn:Hp.
  - run_script.
    match goal with
    | |- context [signTypedData rt ?k ?d ?t ?o] =>
        destruct (signTypedData rt k d t o) as [e|sig] eqn:Hs
    end.
    + run_script. destruct (response e) as [r|] eqn:Hr; run_script; trace_found.
      * repeat split. eexists. right. right. split; [reflexivity|].
        exists e, r. eexists. split; [right; left; eexists; exact Hs|].
        split; [exact Hr | reflexivity].
      * repeat split. eexists. right. left. split; [reflexivity|].
        exists e. eexists. split; [right; left; eexists; exact Hs|].
        split; [exact Hr | reflexivity].
    + run_script.
      match goal with
      | |- context [axios_post rt ?h ?u ?b ?hd] =>
          destruct (axios_post rt h u b hd) as [e|resp] eqn:Hx
      end.
      * run_script. destruct (response e) as [r|] eqn:Hr; run_script; trace_found.
        -- repeat split. eexists. right. right. split; [reflexivity|].
           exists e, r. eexists. split; [right; right; do 4 eexists; exact Hx|].
           split; [exact Hr | reflexivity].
        -- repeat split. eexists. right. left. split; [reflexivity|].
           exists e. eexists. split; [right; right; do 4 eexists; exact Hx|].
           split; [exact Hr | reflexivity].
      * run_script. trace_found. repeat split. eexists. left.
        split; [reflexivity|]. do 5 eexists.
        split; [reflexivity|]. split; [reflexivity|]. exact Hx.
  - run_script.
    destruct (response (parseEther_error rt price)) as [r|] eqn:Hr; run_script; trace_found.
    + repeat split. eexists. right. right. split; [reflexivity|].
      exists (parseEther_error rt price), r. eexists.
      split; [left; now split|]. split; [exact Hr | reflexivity].
    + repeat split. eexists. right. left. split; [reflexivity|].
      exists (parseEther_error rt price). eexists.
      split; [left; now split|]. split; [exact Hr | reflexivity].
Qed.

(** C9 (as amended): listNFT never throws.  It returns true after a request
    the endpoint accepted and false after any error of the price conversion,
    the signature or the request.  It appends one [START] entry, and then
    one [SUCCESS] entry when it returns true, one [FAILED] entry when the
    error carries no response, and two [FAILED] entries (the reason, then
    the error details) when the error carries a response. *)
Theorem listNFT_returns_and_logs (rt : Runtime) (cfg : Config) (wallet : Wallet)
  (nft : Nft) (price : string) (w : World) :
  exists ok w' evs,
    SellNfts.listNFT rt cfg wallet nft price w = (Returned ok, w')
    /\ events w' = (events w ++ evs)%list
    /\ exists start,
        (ok = true
         /\ exists m body history headers r,
             file_log evs = ["[START] " ++ start; "[SUCCESS] " ++ m]
             /\ posted evs = [body]
             /\ axios_post rt history listings_url body headers = inr r)
        \/ (ok = false
            /\ exists e m,
                raised rt wallet price e /\ response e = None
                /\ file_log evs = ["[START] " ++ start; "[FAILED] " ++ m])
        \/ (ok = false
            /\ exists e r m,
                raised rt wallet price e /\ response e = Some r
                /\ file_log evs = ["[START] " ++ start; "[FAILED] " ++ m;
                                   "[FAILED] Error Details: " ++ JSON_stringify_2 rt (data r)]).
Proof.
  destruct (listNFT_cases rt cfg wallet nft price w)
    as (ok & w' & evs & Hrun & Hev & _ & _ & Hlog).
  exists ok, w', evs. auto.
Qed.

(** C9 as stated fails: after a request answered with status 500, listNFT
    returns false and has appended two [FAILED] entries after [START]. *)
Lemma rejected_listing_logs_twice :
  fst (SellNfts.listNFT rejecting (cfg_with "30") seller token "0.001" initial)
  = Returned false
  /\ file_log (events (snd (SellNfts.listNFT rejecting (cfg_with "30") seller token
                             "0.001" initial)))
     = ["[START] Attempting to list Seven (Token ID: 7) from wallet 0xaddress-of-k1 for 0.001 ETH";
        "[FAILED] FAILED: Error listing NFT Seven (ID: 7). Reason: Internal Server Error";
        "[FAILED] Error Details: {...}"].
Proof. split; vm_compute; reflexivity. Qed.

(** The order listNFT builds is the one it signs and posts: when the
    signature succeeds, the body of the one request is the order with the
    signature, under [parameters]. *)
Lemma listNFT_posts_built_order (rt : Runtime) (cfg : Config) (wallet : Wallet)
  (nft : Nft) (price : string) (w w1 : World) (order : value) (signature : string) :
  SellNfts.build_order rt cfg wallet nft price (started rt wallet nft price w)
  = (Returned order, w1) ->
  signTypedData rt (privateKey wallet) SellNfts.domain SellNfts.types order
  = inr signature ->
  exists ok w',
    SellNfts.listNFT rt cfg wallet nft price w = (Returned ok, w')
    /\ posted (events w')
       = (posted (events w) ++ [SellNfts.payload order signature])%list.
Proof.
  intros Hb Hs. unfold started in Hb. revert Hb. run_script. intros Hb.
  assert (Hw1 : posted (events w1) = posted (events w)).
  { revert Hb. unfold SellNfts.build_order. run_script.
    destruct (parseEther price); run_script; [|discriminate].
    intros [= _ <-]. cbn [events]. unfold posted. rewrite !collect_app.
    cbn [collect]. now rewrite !app_nil_r. }
  unfold SellNfts.listNFT, SellNfts.listNFT_catch. run_script.
  rewrite Hb. run_script. rewrite Hs. run_script.
  match goal with
  | |- context [axios_post rt ?h ?u ?b ?hd] => destruct (axios_post rt h u b hd) as [e|r]
  end.
  - run_script. destruct (response e); run_script; eexists _, _;
      (split; [reflexivity|]); cbn [events]; unfold posted in *;
      rewrite !collect_app, Hw1; cbn [collect]; now rewrite !app_nil_r.
  - run_script. eexists _, _. split; [reflexivity|]. cbn [events]. unfold posted in *.
    rewrite !collect_app, Hw1. cbn [collect]. now rewrite !app_nil_r.
Qed.

(** ** The window of a listed order *)

(** An order the signer refuses is not posted: listNFT returns false. *)
Lemma listNFT_refused_order (rt : Runtime) (cfg : Config) (wallet : Wallet)
  (nft : Nft) (price : string) (w w1 : World) (order : value) (e : Error) :
  SellNfts.build_order rt cfg wallet nft price (started rt wallet nft price w)
  = (Returned order, w1) ->
  signTypedData rt (privateKey wallet) SellNfts.domain SellNfts.types order = inl e ->
  exists w',
    SellNfts.listNFT rt cfg wallet nft price w = (Returned false, w')
    /\ posted (events w') = posted (events w).
Proof.
  intros Hb Hs. unfold started in Hb. revert Hb. run_script. intros Hb.
  assert (Hw1 : posted (events w1) = posted (events w)).
  { revert Hb. unfold SellNfts.build_order. run_script.
    destruct (parseEther price); run_script; [|discriminate].
    intros [= _ <-]. cbn [events]. unfold posted. rewrite !collect_app.
    cbn [collect]. now rewrite !app_nil_r. }
  unfold SellNfts.listNFT, SellNfts.listNFT_catch. run_script.
  rewrite Hb. run_script. rewrite Hs. run_script.
  destruct (response e); run_script; eexists;
    (split; [reflexivity|]); cbn [events]; unfold posted in *;
    rewrite !collect_app, Hw1; cbn [collect]; now rewrite !app_nil_r.
Qed.

(** Why a signer may refuse every order of this script: the schema declares
    [zoneHash] and [conduitKey] as bytes32 (lines 81 and 83), and the
    conduit key of line 130 has 62 hexadecimal digits after 0x, 31 bytes,
    where the zone hash has 64. *)
Lemma conduitKey_is_short (wallet : Wallet) (nft : Nft) (wei : Z) (now dur : number)
  (salt : list Byte.byte) :
  exists members hash key,
    get "OrderComponents" SellNfts.types = VArr members
    /\ In (SellNfts.member "zoneHash" "bytes32") members
    /\ In (SellNfts.member "conduitKey" "bytes32") members
    /\ get "zoneHash" (SellNfts.orderComponents wallet nft wei now dur salt) = VStr hash
    /\ String.length hash = (2 + 2 * 32)%nat
    /\ get "conduitKey" (SellNfts.orderComponents wallet nft wei now dur salt) = VStr key
    /\ String.length key = (2 + 2 * 31)%nat.
Proof.
  eexists _, _, _. split; [reflexivity|].
  split; [cbn; tauto|]. split; [cbn; tauto|]. repeat split.
Qed.

(** C6 (as amended): the order listNFT builds has endTime > startTime
    exactly when the duration read by parseInt is positive.  Nothing checks
    the duration beyond its string being non-empty: validation passes with
    any such string in its place, so a zero or negative duration is not
    reported; and listNFT hands the order it built to the signer whatever
    its window, posts it when the signer returns a signature, and posts
    nothing when the signer refuses. *)
Theorem window_open_iff_positive (rt : Runtime) (env : ProcessEnv) (cfg : Config)
  (wallet : Wallet) (nft : Nft) (price : string) (wei d : Z) (w : World) :
  startup env = Started cfg ->
  parseEther price = Some wei ->
  parseInt (LISTING_DURATION_MINUTES cfg) = Num d ->
  Z.abs (d * 60) <= 2 ^ 53 ->
  Z.abs (Date_now rt (events (started rt wallet nft price w)) / 1000 + d * 60) <= 2 ^ 53 ->
  (exists order w1,
      SellNfts.build_order rt cfg wallet nft price (started rt wallet nft price w)
      = (Returned order, w1)
      /\ (window_open order = true <-> 0 < d)
      /\ (forall signature,
            signTypedData rt (privateKey wallet) SellNfts.domain SellNfts.types order
            = inr signature ->
            exists ok w',
              SellNfts.listNFT rt cfg wallet nft price w = (Returned ok, w')
              /\ posted (events w')
                 = (posted (events w) ++ [SellNfts.payload order signature])%list)
      /\ (forall e,
            signTypedData rt (privateKey wallet) SellNfts.domain SellNfts.types order
            = inl e ->
            exists w',
              SellNfts.listNFT rt cfg wallet nft price w = (Returned false, w')
              /\ posted (events w') = posted (events w)))
  /\ (forall minutes,
        nonempty minutes = true ->
        exists cfg',
          startup (with_duration env minutes) = Started cfg'
          /\ LISTING_DURATION_MINUTES cfg' = minutes).
Proof.
  intros Hs Hp Hd H60 Hend. split.
  - pose proof (build_order_returns rt cfg wallet nft price wei
                  (started rt wallet nft price w) Hp) as Hb.
    eexists _, _. split; [exact Hb|]. split; [|split].
    + unfold window_open.
      match goal with
      | |- context [SellNfts.orderComponents ?a ?b ?c ?n ?u ?s] =>
          destruct (order_fields a b c n u s) as (Hst & He & _)
      end.
      rewrite Hst, He, Hd. cbn [num_mul]. rewrite (to_number_exact _ H60).
      cbn [num_add]. rewrite (to_number_exact _ Hend).
      rewrite Z.ltb_lt. lia.
    + intros signature Hsig.
      exact (listNFT_posts_built_order rt cfg wallet nft price w _ _ signature Hb Hsig).
    + intros e He.
      exact (listNFT_refused_order rt cfg wallet nft price w _ _ e Hb He).
  - intros minutes Hm.
    destruct (startup_ignores_duration env cfg minutes Hs Hm) as (cfg' & H1 & H2 & _).
    now exists cfg'.
Qed.

Lemma window_open_iff_positive_witness :
  startup (env_with "0" "0xw1" "k1") = Started (cfg_with "0")
  /\ parseInt (LISTING_DURATION_MINUTES (cfg_with "0")) = Num 0
  /\ exists order w1,
      SellNfts.build_order unsigned (cfg_with "0") seller token "0.001"
        (started unsigned seller token "0.001" initial) = (Returned order, w1)
      /\ (window_open order = true <-> 0 < 0)
      /\ exists w',
          SellNfts.listNFT unsigned (cfg_with "0") seller token "0.001" initial
          = (Returned false, w')
          /\ posted (events w') = posted (events initial).
Proof.
  split; [reflexivity|]. split; [reflexivity|].
  destruct (window_open_iff_positive unsigned (env_with "0" "0xw1" "k1")
              (cfg_with "0") seller token "0.001" 1000000000000000 0 initial
              eq_refl eq_refl eq_refl)
    as ((order & w1 & Hb & Hw & _ & Hno) & _);
    [vm_compute; discriminate | vm_compute; discriminate |].
  exists order, w1. split; [exact Hb|]. split; [exact Hw|].
  apply (Hno (plain_error "invalid length for bytes32")).
  injection Hb as <- _. reflexivity.
Defined.

(** C6 as stated fails: the duration "0" passes validation and is reported
    nowhere.  The order listNFT builds under it has endTime = startTime; in
    a run whose signer refuses that order, the only line on the error
    stream is the refusal of the signer, and the status is 0. *)
Lemma zero_duration_is_not_reported :
  startup (env_with "0" "0xw1" "k1") = Started (cfg_with "0")
  /\ (exists order w1,
        SellNfts.build_order unsigned (cfg_with "0") seller token "0.001"
          (started unsigned seller token "0.001" initial) = (Returned order, w1)
        /\ get "startTime" order = VNum (Num 1700000000)
        /\ get "endTime" order = VNum (Num 1700000000)
        /\ window_open order = false)
  /\ fst (SellNfts.program unsigned (env_with "0" "0xw1" "k1")) = 0
  /\ printed_errors (events (snd (SellNfts.program unsigned (env_with "0" "0xw1" "k1"))))
     = ["[FAILED] FAILED: Error listing NFT Seven (ID: 7). Reason: invalid length for bytes32"]
  /\ posted (events (snd (SellNfts.program unsigned (env_with "0" "0xw1" "k1")))) = [].
Proof.
  split; [reflexivity|]. split.
  - eexists _, _. split; [lazy; reflexivity|]. repeat split.
  - split; [reflexivity|]. split; vm_compute; reflexivity.
Qed.

(** ** The loops of main *)

Lemma attempts_app (xs ys : list Event) :
  attempts (xs ++ ys) = (attempts xs + attempts ys)%nat.
Proof.
  unfold attempts, file_log. now rewrite collect_app, filter_app, length_app.
Qed.

Lemma listNFT_one_attempt (rt : Runtime) (cfg : Config) (wallet : Wallet) (nft : Nft)
  (price : string) (w : World) :
  exists ok w' evs,
    SellNfts.listNFT rt cfg wallet nft price w = (Returned ok, w')
    /\ events w' = (events w ++ evs)%list
    /\ queried evs = [] /\ pauses evs = [] /\ attempts evs = 1%nat.
Proof.
  destruct (listNFT_cases rt cfg wallet nft price w)
    as (ok & w' & evs & Hrun & Hev & Hq & Hp & start & Hlog).
  exists ok, w', evs. repeat (split; [assumption|]).
  unfold attempts.
  destruct Hlog as [(_ & m & b & h & hd & r & -> & _)
                   |[(_ & e & m & _ & _ & ->)|(_ & e & r & m & _ & _ & ->)]];
    reflexivity.
Qed.

Lemma list_all_returns (rt : Runtime) (cfg : Config) (wallet : Wallet)
  (nfts : list Nft) (w : World) :
  exists w' evs,
    SellNfts.list_all rt cfg wallet nfts w = (Returned tt, w')
    /\ events w' = (events w ++ evs)%list
    /\ queried evs = []
    /\ pauses evs = repeat SellNfts.delay (List.length nfts)
    /\ attempts evs = List.length nfts.
Proof.
  revert w. induction nfts as [|nft rest IH]; intros w.
  - exists w, []. cbn. rewrite app_nil_r. repeat split.
  - destruct (listNFT_one_attempt rt cfg wallet nft (LISTING_PRICE_IN_ETH cfg) w)
      as (ok & w1 & evs1 & Hrun & Hev & Hq & Hp & Ha).
    cbn [SellNfts.list_all]. unfold bind at 1. rewrite Hrun.
    unfold bind at 1, sleep, emit.
    match goal with |- context [SellNfts.list_all rt cfg wallet rest ?w2] =>
      destruct (IH w2) as (w' & evs & Hrest & Hev' & Hq' & Hp' & Ha') end.
    exists w', (evs1 ++ [SetTimeout SellNfts.delay] ++ evs)%list.
    split; [exact Hrest|]. split.
    { rewrite Hev'. cbn [events]. rewrite Hev. now rewrite <- !app_assoc. }
    rewrite !attempts_app, Ha, Ha'.
    unfold queried, pauses in *. rewrite !collect_app, Hq, Hp, Hq', Hp'.
    repeat split.
Qed.

(** A key that ethers refuses is thrown out of the loop: getWallet is
    called before the try block. *)
Lemma process_wallet_bad_key (rt : Runtime) (cfg : Config) (i : nat) (w : World) (e : Error) :
  Wallet_new rt (nth_error (PRIVATE_KEYS cfg) i) = inl e ->
  exists w', SellNfts.process_wallet rt cfg i w = (Thrown e, w').
Proof.
  intros Hk. unfold SellNfts.process_wallet, getWallet. run_script.
  rewrite Hk. run_script. eexists. reflexivity.
Qed.

(** A failed query is reported and the turn ends normally. *)
Lemma process_wallet_query_failed (rt : Runtime) (cfg : Config) (i : nat) (w : World)
  (a : string) (e : Error) :
  Wallet_new rt (nth_error (PRIVATE_KEYS cfg) i) = inr a ->
  axios_get rt (events (asking rt cfg i w))
    (holdings_url (nth i (WALLETS cfg) EmptyString))
    [("X-API-KEY", OPENSEA_API_KEY cfg)] = inl e ->
  SellNfts.process_wallet rt cfg i w = (Returned tt, reported rt cfg i e (asking rt cfg i w)).
Proof.
  intros Hk Hq. unfold SellNfts.process_wallet, getWallet, SellNfts.process_holdings,
    SellNfts.fetch_failed.
  run_script. rewrite Hk. run_script.
  unfold asking in *. revert Hq. run_script. intros Hq. rewrite Hq. reflexivity.
Qed.

Lemma process_wallet_returns (rt : Runtime) (cfg : Config) (i : nat) (w : World)
  (a : string) :
  Wallet_new rt (nth_error (PRIVATE_KEYS cfg) i) = inr a ->
  exists w' evs,
    SellNfts.process_wallet rt cfg i w = (Returned tt, w')
    /\ events w' = (events w ++ evs)%list
    /\ queried evs = [holdings_url (nth i (WALLETS cfg) EmptyString)].
Proof.
  intros Hk. unfold SellNfts.process_wallet, getWallet, SellNfts.process_holdings,
    SellNfts.fetch_failed.
  run_script. rewrite Hk. run_script.
  match goal with
  | |- context [axios_get rt ?h ?u ?hd] => destruct (axios_get rt h u hd) as [e|nfts]
  end.
  - run_script. eexists _, _. split; [reflexivity|].
    split; [cbn [events]; extension|]. reflexivity.
  - run_script.
    destruct (List.length (filter (is_target cfg) nfts) =? 0)%nat.
    + run_script. eexists _, _. split; [reflexivity|].
      split; [cbn [events]; extension|]. reflexivity.
    + run_script.
      match goal with
      | |- context [SellNfts.list_all rt cfg ?wl ?ts ?w2] =>
          destruct (list_all_returns rt cfg wl ts w2) as (w' & evs & Hrun & Hev & Hq & _ & _)
      end.
      rewrite Hrun. eexists _, _. split; [reflexivity|].
      split; [rewrite Hev; cbn [events]; apply extended_more; extension|].
      unfold queried in *. rewrite collect_app, Hq. reflexivity.
Qed.

Lemma wallets_from_returns (rt : Runtime) (cfg : Config) (n i : nat) (w : World) :
  (forall j, (i <= j < i + n)%nat ->
             exists a, Wallet_new rt (nth_error (PRIVATE_KEYS cfg) j) = inr a) ->
  exists w' evs,
    SellNfts.wallets_from rt cfg n i w = (Returned tt, w')
    /\ events w' = (events w ++ evs)%list
    /\ queried evs
       = map (fun j => holdings_url (nth j (WALLETS cfg) EmptyString)) (seq i n).
Proof.
  revert i w. induction n as [|n IH]; intros i w Hkeys.
  - exists w, []. cbn. rewrite app_nil_r. repeat split.
  - destruct (Hkeys i ltac:(lia)) as (a & Ha).
    destruct (process_wallet_returns rt cfg i w a Ha) as (w1 & evs1 & Hrun & Hev & Hq).
    cbn [SellNfts.wallets_from]. unfold bind. rewrite Hrun.
    destruct (IH (i + 1)%nat w1) as (w' & evs & Hrest & Hev' & Hq').
    { intros j Hj. apply Hkeys. lia. }
    exists w', (evs1 ++ evs)%list. split; [exact Hrest|].
    split; [rewrite Hev', Hev; now rewrite app_assoc|].
    unfold queried in *. rewrite collect_app, Hq, Hq'. cbn [seq map].
    now rewrite Nat.add_1_r.
Qed.

Lemma map_nth_seq {A} (l : list A) (d : A) :
  map (fun j => nth j l d) (seq 0 (List.length l)) = l.
Proof.
  induction l as [|a l IH]; [reflexivity|].
  cbn [List.length seq map nth]. f_equal.
  rewrite <- seq_shift, map_map. exact IH.
Qed.

Lemma main_returns (rt : Runtime) (cfg : Config) :
  List.length (WALLETS cfg) = List.length (PRIVATE_KEYS cfg) ->
  (forall key, In key (PRIVATE_KEYS cfg) -> exists a, Wallet_new rt (Some key) = inr a) ->
  exists w,
    SellNfts.main rt cfg initial = (Returned tt, w)
    /\ queried (events w) = map holdings_url (WALLETS cfg).
Proof.
  intros Hlen Hkeys. unfold SellNfts.main. run_script.
  match goal with
  | |- context [SellNfts.wallets_from rt cfg ?n 0 ?w0] =>
      destruct (wallets_from_returns rt cfg n 0 w0) as (w1 & evs & Hrun & Hev & Hq)
  end.
  { intros j Hj. destruct (nth_error (PRIVATE_KEYS cfg) j) as [key|] eqn:Hn.
    - apply Hkeys. eapply nth_error_In; eassumption.
    - apply nth_error_None in Hn. lia. }
  rewrite Hrun. eexists. split; [reflexivity|].
  cbn [events]. rewrite Hev. cbn [events].
  unfold queried in *. rewrite !collect_app, Hq. cbn [collect app].
  rewrite app_nil_r.
  rewrite <- (map_map (fun j => nth j (WALLETS cfg) EmptyString) holdings_url).
  rewrite map_nth_seq. cbn. now rewrite !app_nil_r.
Qed.

(** ** Failures stay local *)

Lemma exit_status (rt : Runtime) (env : ProcessEnv) :
  (fst (SellNfts.program rt env) = 0 \/ fst (SellNfts.program rt env) = 1)
  /\ (fst (SellNfts.program rt env) = 1
      <-> (forall cfg, startup env <> Started cfg) \/ fatal rt env).
Proof.
  unfold SellNfts.program, run, fatal.
  destruct (startup env) as [v|d|cfg] eqn:Hs; cbn [fst].
  - split; [now right|]. split; [|reflexivity]. intros _. left. intros c. discriminate.
  - split; [now right|]. split; [|reflexivity]. intros _. left. intros c. discriminate.
  - destruct (SellNfts.main rt cfg initial) as [[[]|e] w] eqn:Hm; cbn [fst].
    + split; [now left|]. split; [discriminate|].
      intros [H|(c & e & w' & [= <-] & Hm')]; [now elim (H cfg)|].
      rewrite Hm in Hm'. discriminate.
    + split; [now right|]. split; [|reflexivity]. intros _. right.
      exists cfg, e, w. now split.
Qed.

(** C2: with a configuration that passed validation and keys that all
    derive a wallet, the run ends with status 0 and has queried every
    wallet, whatever was answered; a failed holdings query is logged and
    the loop goes on with the next wallet, no listing being posted for that
    one; listNFT returns whatever fails in it and the loop goes on with the
    next token after the pause, so that every token of the list is attempted
    once; and the status of any run is 0 or 1, 1 exactly when validation
    fails or main throws. *)
Theorem failures_stay_local (rt : Runtime) (env : ProcessEnv) (cfg : Config) :
  startup env = Started cfg ->
  (forall key, In key (PRIVATE_KEYS cfg) -> exists a, Wallet_new rt (Some key) = inr a) ->
  (exists w,
      SellNfts.program rt env = (0, w)
      /\ queried (events w) = map holdings_url (WALLETS cfg))
  /\ (forall i w e remaining,
        (i < List.length (WALLETS cfg))%nat ->
        axios_get rt (events (asking rt cfg i w))
          (holdings_url (nth i (WALLETS cfg) EmptyString))
          [("X-API-KEY", OPENSEA_API_KEY cfg)] = inl e ->
        SellNfts.process_wallet rt cfg i w
          = (Returned tt, reported rt cfg i e (asking rt cfg i w))
        /\ posted (events (reported rt cfg i e (asking rt cfg i w))) = posted (events w)
        /\ SellNfts.wallets_from rt cfg (S remaining) i w
           = SellNfts.wallets_from rt cfg remaining (i + 1)
               (reported rt cfg i e (asking rt cfg i w)))
  /\ (forall wallet nft rest w,
        exists ok w1,
          SellNfts.listNFT rt cfg wallet nft (LISTING_PRICE_IN_ETH cfg) w = (Returned ok, w1)
          /\ SellNfts.list_all rt cfg wallet (nft :: rest) w
             = SellNfts.list_all rt cfg wallet rest (snd (sleep SellNfts.delay w1)))
  /\ (forall wallet nfts w,
        exists w' evs,
          SellNfts.list_all rt cfg wallet nfts w = (Returned tt, w')
          /\ events w' = (events w ++ evs)%list
          /\ attempts evs = List.length nfts)
  /\ (forall env',
        (fst (SellNfts.program rt env') = 0 \/ fst (SellNfts.program rt env') = 1)
        /\ (fst (SellNfts.program rt env') = 1
            <-> (forall cfg', startup env' <> Started cfg') \/ fatal rt env')).
Proof.
  intros Hs Hkeys.
  destruct (startup_started env cfg Hs) as (ws & ks & _ & _ & _ & _ & _ & Hlen & _).
  split; [|split; [|split; [|split]]].
  - destruct (main_returns rt cfg Hlen Hkeys) as (w & Hm & Hq).
    exists w. split; [|exact Hq].
    unfold SellNfts.program, run. now rewrite Hs, Hm.
  - intros i w e remaining Hi Hq.
    assert (Hk : exists a, Wallet_new rt (nth_error (PRIVATE_KEYS cfg) i) = inr a).
    { destruct (nth_error (PRIVATE_KEYS cfg) i) as [key|] eqn:Hn.
      - apply Hkeys. eapply nth_error_In; eassumption.
      - apply nth_error_None in Hn. lia. }
    destruct Hk as (a & Hk).
    pose proof (process_wallet_query_failed rt cfg i w a e Hk Hq) as Hrun.
    split; [exact Hrun|]. split.
    + unfold reported, asking. run_script. unfold posted.
      rewrite !collect_app. cbn [collect]. now rewrite !app_nil_r.
    + cbn [SellNfts.wallets_from]. unfold bind at 1. now rewrite Hrun.
  - intros wallet nft rest w.
    destruct (listNFT_cases rt cfg wallet nft (LISTING_PRICE_IN_ETH cfg) w)
      as (ok & w1 & evs & Hrun & _).
    exists ok, w1. split; [exact Hrun|].
    cbn [SellNfts.list_all]. unfold bind at 1. rewrite Hrun.
    unfold bind at 1. unfold sleep, emit. reflexivity.
  - intros wallet nfts w.
    destruct (list_all_returns rt cfg wallet nfts w) as (w' & evs & Hrun & Hev & _ & _ & Ha).
    now exists w', evs.
  - intros env'. apply exit_status.
Qed.

Lemma failures_stay_local_witness :
  startup (env_with "30" "0xw1" "k1") = Started (cfg_with "30")
  /\ exists w,
      SellNfts.program rejecting (env_with "30" "0xw1" "k1") = (0, w)
      /\ queried (events w) = map holdings_url (WALLETS (cfg_with "30")).
Proof.
  split; [reflexivity|].
  refine (proj1 (failures_stay_local rejecting (env_with "30" "0xw1" "k1") (cfg_with "30")
                   eq_refl _)).
  intros key _. eexists. reflexivity.
Defined.

(** ** Properties written after a spread *)

Lemma lookup_set_prop_same (k : string) (v : value) (props : list (string * value)) :
  lookup k (set_prop k v props) = Some v.
Proof.
  induction props as [|[k' v'] r IH]; simpl.
  - now rewrite String.eqb_refl.
  - destruct (String.eqb k k') eqn:E; simpl; rewrite ?E, ?String.eqb_refl; auto.
Qed.

Lemma lookup_set_prop_other (k k' : string) (v : value) (props : list (string * value)) :
  String.eqb k k' = false ->
  lookup k (set_prop k' v props) = lookup k props.
Proof.
  intros Hk. induction props as [|[k2 v2] r IH]; simpl.
  - now rewrite Hk.
  - destruct (String.eqb k' k2) eqn:E; simpl.
    + apply String.eqb_eq in E. subst k2. now rewrite Hk.
    + now rewrite IH.
Qed.

(** ** Validation *)

(** What the validation gets right: a scalar that is not set, or lists of
    different lengths, end the process with status 1 and one line on the
    error stream, before any request. *)
Lemma validation_halts (rt : Runtime) (env : ProcessEnv) (wallets keys : string) :
  env_WALLETS env = Some wallets -> env_PRIVATE_KEYS env = Some keys ->
  (scalars_set env = false ->
   SellNfts.program rt env
   = (1, {| events := [ConsoleError missing_diagnostic]; draws := 0 |}))
  /\ (scalars_set env = true ->
      List.length (parse_lines wallets) <> List.length (parse_lines keys) ->
      SellNfts.program rt env
      = (1, {| events := [ConsoleError
                            (mismatch_diagnostic (List.length (parse_lines wallets))
                               (List.length (parse_lines keys)))];
               draws := 0 |}))
  /\ (scalars_set env = true ->
      List.length (parse_lines wallets) = List.length (parse_lines keys) ->
      exists cfg, startup env = Started cfg).
Proof.
  intros Hw Hk. unfold SellNfts.program, run.
  rewrite (startup_cases env wallets keys Hw Hk).
  split; [|split].
  - intros ->. reflexivity.
  - intros -> Hne. cbn [negb].
    destruct (Nat.eqb_spec (List.length (parse_lines wallets))
                (List.length (parse_lines keys))); [contradiction|reflexivity].
  - intros -> ->. rewrite Nat.eqb_refl. cbn [negb]. eexists. reflexivity.
Qed.

(** A wallet or key variable that is not set at all ends the process on
    the TypeError of [undefined.split], before the validation is reached:
    Node reports the uncaught exception. *)
Lemma unset_list_crashes (rt : Runtime) (env : ProcessEnv) :
  env_WALLETS env = None \/ env_PRIVATE_KEYS env = None ->
  SellNfts.program rt env
  = (1, {| events := [Uncaught SellNfts.script TypeError_split]; draws := 0 |}).
Proof.
  unfold SellNfts.program, run, startup.
  intros [H|H]; rewrite H; [reflexivity|].
  destruct (env_WALLETS env); reflexivity.
Qed.

(** C3 at its failing input: with the five scalars set and both lists
    empty (what an unset secret gives), validation passes with no wallet
    and no key, and the run ends with status 0 after four lines, no
    diagnostic and no request. *)
Theorem empty_lists_pass_validation (rt : Runtime) :
  (not_set (env_WALLETS (env_with "30" EmptyString EmptyString)) = true
   /\ not_set (env_PRIVATE_KEYS (env_with "30" EmptyString EmptyString)) = true)
  /\ (exists cfg,
        startup (env_with "30" EmptyString EmptyString) = Started cfg
        /\ WALLETS cfg = [] /\ PRIVATE_KEYS cfg = [])
  /\ fst (SellNfts.program rt (env_with "30" EmptyString EmptyString)) = 0
  /\ file_log (events (snd (SellNfts.program rt (env_with "30" EmptyString EmptyString))))
     = ["--- Starting NFT listing process for 0 wallets. ---"; endMessage]
  /\ queried (events (snd (SellNfts.program rt (env_with "30" EmptyString EmptyString)))) = []
  /\ posted (events (snd (SellNfts.program rt (env_with "30" EmptyString EmptyString)))) = [].
Proof.
  split; [split; reflexivity|].
  split; [eexists; split; [reflexivity|split; reflexivity]|].
  repeat split.
Qed.

(** ** The end-to-end scenarios of the spec *)

(** A: one wallet that holds nothing of the target contract: the run says
    so, posts nothing and ends with status 0. *)
Example scenario_no_matching_token :
  SellNfts.program
    (answering (fun _ _ => inr [{| contract := "0x1234"; identifier := "8"; name := None |}])
       (fun _ => inr {| status := 200; data := VNull |}))
    (env_with "30" "0xw1" "k1")
  = (0,
     {| events :=
          [ConsoleLog "--- Starting NFT listing process for 1 wallets. ---";
           FileAppend 1700000000123 "--- Starting NFT listing process for 1 wallets. ---";
           ConsoleLog (walletHeader (cfg_with "30") 0 "0xw1");
           FileAppend 1700000000123 (walletHeader (cfg_with "30") 0 "0xw1");
           JsonRpcProvider "https://mainnet.base.org";
           HttpGet "https://api.opensea.io/v2/chain/base/account/0xw1/nfts"
             [("X-API-KEY", "api-key")];
           ConsoleLog "No NFTs from the target contract found in this wallet.";
           FileAppend 1700000000123 "No NFTs from the target contract found.";
           ConsoleLog endMessage;
           FileAppend 1700000000123 endMessage];
        draws := 0 |}).
Proof. vm_compute. reflexivity. Qed.

(** B: one wallet, two matching tokens, the first request accepted and the
    second answered with status 500: one [SUCCESS] entry, then the [FAILED]
    entries of the second token, two pauses, status 0. *)
Example scenario_second_listing_fails :
  let run :=
    SellNfts.program
      (answering
         (fun _ _ => inr [{| contract := "0xabcd"; identifier := "1"; name := Some "One" |};
                          {| contract := "0xABCD"; identifier := "2"; name := None |}])
         (fun history =>
            if (List.length (posted history) <=? 1)%nat
            then inr {| status := 200; data := VNull |}
            else inl rejection))
      (env_with "30" "0xw1" "k1") in
  fst run = 0
  /\ List.length (posted (events (snd run))) = 2%nat
  /\ pauses (events (snd run)) = [2000; 2000]
  /\ filter (fun m => prefix "[" m) (file_log (events (snd run)))
     = ["[START] Attempting to list One (Token ID: 1) from wallet 0xaddress-of-k1 for 0.001 ETH";
        "[SUCCESS] SUCCESS: NFT " ++ dquote ++ "One" ++ dquote
        ++ " listed! Link: https://opensea.io/assets/base/0xabcd/1";
        "[START] Attempting to list NFT (Token ID: 2) from wallet 0xaddress-of-k1 for 0.001 ETH";
        "[FAILED] FAILED: Error listing NFT NFT (ID: 2). Reason: Internal Server Error";
        "[FAILED] Error Details: {...}"].
Proof. vm_compute. repeat split. Qed.

(** C: the holdings query of the first of two wallets fails: the failure is
    logged, nothing is posted for it, and the second wallet is queried and
    listed. *)
Example scenario_query_fails :
  let run :=
    SellNfts.program
      (answering
         (fun _ url =>
            if String.eqb url (holdings_url "0xw1")
            then inl (plain_error "Network Error")
            else inr held)
         (fun _ => inr {| status := 200; data := VNull |}))
      (env_with "30" ("0xw1" ++ nl ++ "0xw2") ("k1" ++ nl ++ "k2")) in
  fst run = 0
  /\ queried (events (snd run)) = [holdings_url "0xw1"; holdings_url "0xw2"]
  /\ In "Failed to fetch NFTs from wallet 0xw1. Reason: Network Error"
        (file_log (events (snd run)))
  /\ map (get "offerer") (map (get "parameters") (posted (events (snd run))))
     = [VStr "0xaddress-of-k2"].
Proof. vm_compute. repeat split. auto 10. Qed.

(** * Further properties *)

(** ** What a run of part_000 keeps *)

Lemma StronglySorted_lt_app (xs ys : list nat) :
  StronglySorted lt xs -> StronglySorted lt ys ->
  (forall x y, In x xs -> In y ys -> (x < y)%nat) ->
  StronglySorted lt (xs ++ ys).
Proof.
  intros Hx Hy H. induction Hx as [|a xs Hx IH Ha]; [exact Hy|].
  cbn [app]. constructor.
  - apply IH. intros x y Hin. apply H. now right.
  - apply Forall_app. split; [exact Ha|].
    apply Forall_forall. intros y Hin. apply H; [now left | exact Hin].
Qed.

Lemma posted_app (xs ys : list Event) : posted (xs ++ ys) = (posted xs ++ posted ys)%list.
Proof. apply collect_app. Qed.

Lemma pauses_app (xs ys : list Event) : pauses (xs ++ ys) = (pauses xs ++ pauses ys)%list.
Proof. apply collect_app. Qed.

Lemma queried_app (xs ys : list Event) : queried (xs ++ ys) = (queried xs ++ queried ys)%list.
Proof. apply collect_app. Qed.

Lemma file_log_app (xs ys : list Event) :
  file_log (xs ++ ys) = (file_log xs ++ file_log ys)%list.
Proof. apply collect_app. Qed.

Lemma Ran_app (rt : Runtime) (cfg : Config) (src : Wallet -> Nft -> Prop)
  (w w1 w2 : World) (e1 e2 : list Event) :
  Ran rt cfg src w w1 e1 -> Ran rt cfg src w1 w2 e2 ->
  Ran rt cfg src w w2 (e1 ++ e2).
Proof.
  intros (Hev1 & Hw1 & Hd1 & Hp1 & Hl1 & Hn1 & ks1 & Hs1 & Hr1 & Hf1)
         (Hev2 & Hw2 & Hd2 & Hp2 & Hl2 & Hn2 & ks2 & Hs2 & Hr2 & Hf2).
  unfold Ran. rewrite attempts_app, posted_app, pauses_app, length_app, repeat_app.
  split; [rewrite Hev2, Hev1; now rewrite app_assoc|].
  split; [apply Forall_app; now split|].
  split; [lia|]. split; [now rewrite Hp1, Hp2|]. split; [lia|].
  split; [intros Hn; now rewrite Hn1, Hn2|].
  exists (ks1 ++ ks2)%list. split; [|split].
  - apply StronglySorted_lt_app; try assumption.
    intros x y Hx Hy. rewrite Forall_forall in Hr1, Hr2.
    specialize (Hr1 x Hx). specialize (Hr2 y Hy). lia.
  - apply Forall_app. split; eapply Forall_impl; try eassumption; cbn; intros; lia.
  - now apply Forall2_app.
Qed.

Lemma quiet_facts (evs : list Event) :
  forallb quiet evs = true ->
  posted evs = [] /\ pauses evs = [] /\ attempts evs = 0%nat.
Proof.
  induction evs as [|e evs IH]; [repeat split|].
  cbn [forallb]. intros H. apply andb_true_iff in H as [He Hes].
  destruct (IH Hes) as (Hp & Hs & Ha).
  unfold posted, pauses, attempts, file_log in *.
  destruct e; try discriminate He; cbn [collect]; try (repeat split; assumption).
  cbn [quiet] in He. apply negb_true_iff in He.
  cbn [filter]. rewrite He. repeat split; assumption.
Qed.

Lemma Ran_quiet (rt : Runtime) (cfg : Config) (src : Wallet -> Nft -> Prop)
  (w w' : World) (evs : list Event) :
  events w' = (events w ++ evs)%list -> draws w' = draws w ->
  forallb quiet evs = true -> Forall (well_addressed cfg) evs ->
  Ran rt cfg src w w' evs.
Proof.
  intros Hev Hd Hq Hw. destruct (quiet_facts evs Hq) as (Hp & Hs & Ha).
  unfold Ran. rewrite Hp, Hs, Ha, Hd.
  split; [exact Hev|]. split; [exact Hw|]. split; [lia|]. split; [reflexivity|]. split; [cbn; lia|].
  split; [reflexivity|]. exists []. repeat constructor.
Qed.

Lemma Ran_source (rt : Runtime) (cfg : Config) (src src' : Wallet -> Nft -> Prop)
  (w w' : World) (evs : list Event) :
  (forall wallet nft, src wallet nft -> src' wallet nft) ->
  Ran rt cfg src w w' evs -> Ran rt cfg src' w w' evs.
Proof.
  intros H (Hev & Hw & Hd & Hp & Hl & Hn & ks & Hs & Hr & Hf).
  unfold Ran. repeat (split; [assumption|]).
  exists ks. split; [assumption|]. split; [assumption|].
  eapply Forall2_impl; [|exact Hf]. cbn.
  intros k body (wl & n & Hsrc & Hl'). exists wl, n. split; [now apply H | exact Hl'].
Qed.

Ltac addressed :=
  repeat first [apply Forall_nil | apply Forall_cons | apply Forall_app; split];
  cbn [well_addressed]; try exact I; try (split; [eexists; reflexivity | reflexivity]);
  try (split; reflexivity).

(** One call of listNFT, in full: one attempt, no query and no pause; at
    most one request, sent only when the price converted and the order was
    signed, and then the request of this token, this wallet and the next
    draw. *)
Lemma listNFT_detail (rt : Runtime) (cfg : Config) (wallet : Wallet) (nft : Nft)
  (price : string) (w : World) :
  exists ok w' evs,
    SellNfts.listNFT rt cfg wallet nft price w = (Returned ok, w')
    /\ events w' = (events w ++ evs)%list
    /\ Forall (well_addressed cfg) evs
    /\ queried evs = [] /\ pauses evs = [] /\ attempts evs = 1%nat
    /\ (draws w <= draws w' <= S (draws w))%nat
    /\ (parseEther price = None -> posted evs = [] /\ ok = false /\ draws w' = draws w)
    /\ (posted evs = []
        \/ exists body,
            posted evs = [body] /\ draws w' = S (draws w)
            /\ listed rt cfg wallet nft price (draws w) body).
Proof.
  unfold SellNfts.listNFT, SellNfts.listNFT_catch, SellNfts.build_order.
  run_script.
  destruct (parseEther price) as [wei|] eqn:Hp.
  - run_script.
    match goal with
    | |- context [signTypedData rt ?k ?d ?t ?o] =>
        destruct (signTypedData rt k d t o) as [e|sig] eqn:Hs
    end.
    + run_script. destruct (response e) as [r|]; run_script; trace_found;
        (split; [addressed|]);
        (repeat split; try discriminate; try (cbn [draws]; lia)); now left.
    + run_script.
      match goal with
      | |- context [axios_post rt ?h ?u ?b ?hd] =>
          destruct (axios_post rt h u b hd) as [e|resp]
      end.
      * run_script. destruct (response e) as [r|]; run_script; trace_found;
          (split; [addressed|]);
          (repeat split; try discriminate; try (cbn [draws]; lia));
          right; eexists; (split; [reflexivity|]); (split; [reflexivity|]);
          eexists _, _, _; (split; [exact Hp|]); (split; [exact Hs | reflexivity]).
      * run_script. trace_found. split; [addressed|].
        repeat split; try discriminate; try (cbn [draws]; lia).
        right. eexists. split; [reflexivity|]. split; [reflexivity|].
        eexists _, _, _. split; [exact Hp|]. split; [exact Hs | reflexivity].
  - run_script.
    destruct (response (parseEther_error rt price)) as [r|]; run_script; trace_found;
      (split; [addressed|]);
      (repeat split; try (cbn [draws]; lia)); now left.
Qed.

Lemma list_all_ran (rt : Runtime) (cfg : Config) (wallet : Wallet)
  (nfts : list Nft) (w : World) :
  exists w' evs,
    SellNfts.list_all rt cfg wallet nfts w = (Returned tt, w')
    /\ Ran rt cfg (fun wl n => wl = wallet /\ In n nfts) w w' evs
    /\ queried evs = []
    /\ attempts evs = List.length nfts.
Proof.
  revert w. induction nfts as [|nft rest IH]; intros w.
  - exists w, []. split; [reflexivity|]. split; [|split; reflexivity].
    apply Ran_quiet; [now rewrite app_nil_r | reflexivity | reflexivity | constructor].
  - destruct (listNFT_detail rt cfg wallet nft (LISTING_PRICE_IN_ETH cfg) w)
      as (ok & w1 & evs1 & Hrun & Hev & Hwa & Hq & Hp & Ha & Hd & Hnone & Hpost).
    cbn [SellNfts.list_all]. unfold bind at 1. rewrite Hrun.
    unfold bind at 1, sleep, emit.
    match goal with |- context [SellNfts.list_all rt cfg wallet rest ?w2] =>
      destruct (IH w2) as (w' & evs & Hrest & HR & Hq' & Ha'); set (wp := w2) in * end.
    exists w', ((evs1 ++ [SetTimeout SellNfts.delay]) ++ evs)%list.
    split; [exact Hrest|]. split; [|split].
    + apply (Ran_app rt cfg _ w wp w').
      * unfold Ran. subst wp. cbn [events draws].
        rewrite attempts_app, posted_app, pauses_app, Hp, Ha, length_app.
        split; [now rewrite Hev, app_assoc|].
        split; [apply Forall_app; split; [exact Hwa | repeat constructor]|].
        split; [lia|]. split; [reflexivity|].
        destruct Hpost as [Hpo|(body & Hpo & Hdr & Hl)]; rewrite Hpo.
        -- split; [cbn; lia|]. split; [reflexivity|]. exists []. repeat constructor.
        -- split; [cbn; lia|].
           split; [intros Hn; destruct (Hnone Hn) as (E & _); rewrite Hpo in E;
                   discriminate E|].
           exists [draws w]. split; [repeat constructor|].
           split; [repeat constructor; lia|].
           constructor; [|constructor].
           exists wallet, nft. split; [split; [reflexivity | now left] | exact Hl].
      * eapply Ran_source; [|exact HR]. cbn. intros wl n [-> Hin]. split; [reflexivity | now right].
    + rewrite !queried_app, Hq, Hq'. reflexivity.
    + rewrite !attempts_app, Ha, Ha'. reflexivity.
Qed.

Lemma process_wallet_ran (rt : Runtime) (cfg : Config) (i : nat) (w : World) (a : string) :
  Wallet_new rt (nth_error (PRIVATE_KEYS cfg) i) = inr a ->
  exists w' evs,
    SellNfts.process_wallet rt cfg i w = (Returned tt, w')
    /\ Ran rt cfg
         (fun wl n =>
            wl = {| address := a; privateKey := or_empty (nth_error (PRIVATE_KEYS cfg) i) |}
            /\ is_target cfg n = true /\ held_somewhere rt n)
         w w' evs
    /\ queried evs = [holdings_url (nth i (WALLETS cfg) EmptyString)].
Proof.
  intros Hk. unfold SellNfts.process_wallet, getWallet, SellNfts.process_holdings,
    SellNfts.fetch_failed.
  run_script. rewrite Hk. run_script.
  match goal with
  | |- context [axios_get rt ?h ?u ?hd] =>
      destruct (axios_get rt h u hd) as [e|nfts] eqn:Hget
  end.
  - run_script. eexists _, _. split; [reflexivity|].
    split; [apply Ran_quiet; [cbn [events]; extension | reflexivity | reflexivity | addressed]
           | reflexivity].
  - run_script.
    destruct (List.length (filter (is_target cfg) nfts) =? 0)%nat.
    + run_script. eexists _, _. split; [reflexivity|].
      split; [apply Ran_quiet; [cbn [events]; extension | reflexivity | reflexivity | addressed]
             | reflexivity].
    + run_script.
      match goal with
      | |- context [SellNfts.list_all rt cfg ?wl ?ts ?w2] =>
          destruct (list_all_ran rt cfg wl ts w2) as (w' & evs & Hrun & HR & Hq & _);
          set (wp := w2) in *
      end.
      rewrite Hrun. eexists w', _. split; [reflexivity|]. split.
      * apply (Ran_app rt cfg _ w wp w').
        -- apply Ran_quiet; [subst wp; cbn [events]; extension | reflexivity | reflexivity | addressed].
        -- eapply Ran_source; [|exact HR]. cbn. intros wl n [-> Hin].
           apply filter_In in Hin as [Hin Ht].
           split; [reflexivity|]. split; [exact Ht|].
           eexists _, _, _, nfts. split; [exact Hget | exact Hin].
      * rewrite queried_app, Hq. reflexivity.
Qed.

Lemma wallets_from_ran (rt : Runtime) (cfg : Config) (n i : nat) (w : World) :
  (forall j, (i <= j < i + n)%nat ->
             exists a, Wallet_new rt (nth_error (PRIVATE_KEYS cfg) j) = inr a) ->
  exists w' evs,
    SellNfts.wallets_from rt cfg n i w = (Returned tt, w')
    /\ Ran rt cfg
         (fun wl nft =>
            exists j a,
              (i <= j < i + n)%nat
              /\ Wallet_new rt (nth_error (PRIVATE_KEYS cfg) j) = inr a
              /\ wl = {| address := a;
                         privateKey := or_empty (nth_error (PRIVATE_KEYS cfg) j) |}
              /\ is_target cfg nft = true /\ held_somewhere rt nft)
         w w' evs.
Proof.
  revert i w. induction n as [|n IH]; intros i w Hkeys.
  - exists w, []. split; [reflexivity|].
    apply Ran_quiet; [now rewrite app_nil_r | reflexivity | reflexivity | constructor].
  - destruct (Hkeys i ltac:(lia)) as (a & Ha).
    destruct (process_wallet_ran rt cfg i w a Ha) as (w1 & evs1 & Hrun & HR & _).
    cbn [SellNfts.wallets_from]. unfold bind. rewrite Hrun.
    destruct (IH (i + 1)%nat w1) as (w' & evs & Hrest & HR').
    { intros j Hj. apply Hkeys. lia. }
    exists w', (evs1 ++ evs)%list. split; [exact Hrest|].
    apply (Ran_app rt cfg _ w w1 w').
    + eapply Ran_source; [|exact HR]. cbn. intros wl nft (-> & Ht & Hh).
      exists i, a. split; [lia|]. repeat split; assumption.
    + eapply Ran_source; [|exact HR']. cbn.
      intros wl nft (j & b & Hj & Hb & Hw & Ht & Hh).
      exists j, b. split; [lia|]. repeat split; assumption.
Qed.

Lemma main_ran (rt : Runtime) (cfg : Config) :
  List.length (WALLETS cfg) = List.length (PRIVATE_KEYS cfg) ->
  (forall key, In key (PRIVATE_KEYS cfg) -> exists a, Wallet_new rt (Some key) = inr a) ->
  exists w,
    SellNfts.main rt cfg initial = (Returned tt, w)
    /\ Ran rt cfg
         (fun wl nft =>
            exists j key a,
              nth_error (PRIVATE_KEYS cfg) j = Some key
              /\ Wallet_new rt (Some key) = inr a
              /\ wl = {| address := a; privateKey := key |}
              /\ is_target cfg nft = true /\ held_somewhere rt nft)
         initial w (events w).
Proof.
  intros Hlen Hkeys. unfold SellNfts.main. run_script.
  match goal with
  | |- context [SellNfts.wallets_from rt cfg ?n 0 ?w0] =>
      destruct (wallets_from_ran rt cfg n 0 w0) as (w1 & evs & Hrun & HR);
      [|set (wp := w0) in *]
  end.
  { intros j Hj. destruct (nth_error (PRIVATE_KEYS cfg) j) as [key|] eqn:Hn.
    - apply Hkeys. eapply nth_error_In; eassumption.
    - apply nth_error_None in Hn. lia. }
  rewrite Hrun. eexists. split; [reflexivity|].
  match goal with
  | |- Ran _ _ ?s _ ?wf _ => set (wend := wf); set (src := s)
  end.
  assert (H0 : Ran rt cfg src initial wp (events wp)).
  { apply Ran_quiet; try reflexivity. subst wp. cbn [events]. addressed. }
  assert (H1 : Ran rt cfg src wp w1 evs).
  { eapply Ran_source; [|exact HR]. subst src. cbn.
    intros wl nft (j & a & Hj & Ha & -> & Ht & Hh).
    destruct (nth_error (PRIVATE_KEYS cfg) j) as [key|] eqn:Hn.
    - exists j, key, a. repeat split; assumption.
    - apply nth_error_None in Hn. lia. }
  assert (H2 : exists evs2, Ran rt cfg src w1 wend evs2).
  { eexists. apply Ran_quiet; [subst wend; cbn [events]; extension | reflexivity | reflexivity | addressed]. }
  destruct H2 as (evs2 & H2).
  pose proof (Ran_app _ _ _ _ _ _ _ _ (Ran_app _ _ _ _ _ _ _ _ H0 H1) H2) as H.
  assert (E : events wend = ((events wp ++ evs) ++ evs2)%list) by apply H.
  rewrite E. exact H.
Qed.

Lemma Forall2_right {A B} (R : A -> B -> Prop) (xs : list A) (ys : list B) (y : B) :
  Forall2 R xs ys -> In y ys -> exists x, In x xs /\ R x y.
Proof.
  induction 1 as [|x y' xs ys HR _ IH]; [intros []|].
  intros [->|Hin].
  - exists x. split; [now left | exact HR].
  - destruct (IH Hin) as (x' & Hx & HR'). exists x'. split; [now right | exact HR'].
Qed.

Lemma run_completes (rt : Runtime) (env : ProcessEnv) (cfg : Config) :
  startup env = Started cfg ->
  (forall key, In key (PRIVATE_KEYS cfg) -> exists a, Wallet_new rt (Some key) = inr a) ->
  exists w,
    SellNfts.program rt env = (0, w)
    /\ Ran rt cfg
         (fun wl nft =>
            exists j key a,
              nth_error (PRIVATE_KEYS cfg) j = Some key
              /\ Wallet_new rt (Some key) = inr a
              /\ wl = {| address := a; privateKey := key |}
              /\ is_target cfg nft = true /\ held_somewhere rt nft)
         initial w (events w).
Proof.
  intros Hs Hkeys.
  destruct (startup_started env cfg Hs) as (ws & ks & _ & _ & _ & _ & _ & Hlen & _).
  destruct (main_ran rt cfg Hlen Hkeys) as (w & Hm & HR).
  exists w. split; [|exact HR].
  unfold SellNfts.program, run. now rewrite Hs, Hm.
Qed.

(** The fields of the request of a listing. *)
Lemma listed_fields (rt : Runtime) (cfg : Config) (wallet : Wallet) (nft : Nft)
  (price : string) (k : nat) (body : value) :
  listed rt cfg wallet nft price k body ->
  get "offerer" (get "parameters" body) = VStr (address wallet)
  /\ get "token" (item "offer" (get "parameters" body)) = VStr (contract nft)
  /\ get "identifierOrCriteria" (item "offer" (get "parameters" body))
     = VStr (identifier nft)
  /\ get "recipient" (item "consideration" (get "parameters" body))
     = VStr (address wallet)
  /\ get "salt" (get "parameters" body) = salt_of_draw rt k.
Proof.
  intros (wei & now & sig & _ & _ & ->). repeat split.
Qed.

(** ** Whole runs of part_000 *)

(** X1: in a run with a validated configuration and keys that all derive a
    wallet, every request sent to the listing endpoint offers a token that
    an answer of the holdings endpoint contained and whose contract is the
    target up to case, under that token's contract and identifier, and its
    offerer and the recipient of its price are the address derived from one
    of the configured keys (not the address the wallet list names). *)
Theorem only_target_tokens_are_listed (rt : Runtime) (env : ProcessEnv) (cfg : Config) :
  startup env = Started cfg ->
  (forall key, In key (PRIVATE_KEYS cfg) -> exists a, Wallet_new rt (Some key) = inr a) ->
  exists w,
    SellNfts.program rt env = (0, w)
    /\ forall body,
        In body (posted (events w)) ->
        exists key a nft,
          In key (PRIVATE_KEYS cfg) /\ Wallet_new rt (Some key) = inr a
          /\ held_somewhere rt nft
          /\ equal_up_to_case (contract nft) (TARGET_CONTRACT_ADDRESS cfg) = true
          /\ get "offerer" (get "parameters" body) = VStr a
          /\ get "token" (item "offer" (get "parameters" body)) = VStr (contract nft)
          /\ get "identifierOrCriteria" (item "offer" (get "parameters" body))
             = VStr (identifier nft)
          /\ get "recipient" (item "consideration" (get "parameters" body)) = VStr a.
Proof.
  intros Hs Hkeys.
  destruct (run_completes rt env cfg Hs Hkeys)
    as (w & Hrun & _ & _ & _ & _ & _ & _ & ks & _ & _ & Hf).
  exists w. split; [exact Hrun|]. intros body Hin.
  destruct (Forall2_right _ _ _ _ Hf Hin)
    as (k & _ & wl & nft & (j & key & a & Hj & Ha & -> & Ht & Hh) & Hl).
  destruct (listed_fields _ _ _ _ _ _ _ Hl) as (F1 & F2 & F3 & F4 & _).
  exists key, a, nft. split; [eapply nth_error_In; exact Hj|].
  split; [exact Ha|]. split; [exact Hh|].
  split; [unfold is_target in Ht; now rewrite toLowerCase_equal_up_to_case in Ht|].
  repeat split; assumption.
Qed.

Lemma only_target_tokens_are_listed_witness :
  startup (env_with "30" "0xw1" "k1") = Started (cfg_with "30")
  /\ exists w,
      SellNfts.program accepting (env_with "30" "0xw1" "k1") = (0, w)
      /\ forall body,
          In body (posted (events w)) ->
          exists key a nft,
            In key (PRIVATE_KEYS (cfg_with "30"))
            /\ Wallet_new accepting (Some key) = inr a
            /\ held_somewhere accepting nft
            /\ equal_up_to_case (contract nft)
                 (TARGET_CONTRACT_ADDRESS (cfg_with "30")) = true
            /\ get "offerer" (get "parameters" body) = VStr a
            /\ get "token" (item "offer" (get "parameters" body)) = VStr (contract nft)
            /\ get "identifierOrCriteria" (item "offer" (get "parameters" body))
               = VStr (identifier nft)
            /\ get "recipient" (item "consideration" (get "parameters" body)) = VStr a.
Proof.
  split; [reflexivity|].
  refine (only_target_tokens_are_listed accepting (env_with "30" "0xw1" "k1")
            (cfg_with "30") eq_refl _).
  intros key _. eexists. reflexivity.
Defined.

(** X2: a run that completes has paused 2000 ms once for every listing
    attempt, failed or not, and has sent at most one request per attempt. *)
Theorem one_pause_per_attempt (rt : Runtime) (env : ProcessEnv)
  (cfg : Config) :
  startup env = Started cfg ->
  (forall key, In key (PRIVATE_KEYS cfg) -> exists a, Wallet_new rt (Some key) = inr a) ->
  exists w,
    SellNfts.program rt env = (0, w)
    /\ pauses (events w) = repeat 2000 (attempts (events w))
    /\ (List.length (posted (events w)) <= attempts (events w))%nat.
Proof.
  intros Hs Hkeys.
  destruct (run_completes rt env cfg Hs Hkeys) as (w & Hrun & _ & _ & _ & Hp & Hl & _).
  exists w. repeat split; assumption.
Qed.

Lemma one_pause_per_attempt_witness :
  startup (env_with "30" "0xw1" "k1") = Started (cfg_with "30")
  /\ exists w,
      SellNfts.program rejecting (env_with "30" "0xw1" "k1") = (0, w)
      /\ pauses (events w) = repeat 2000 (attempts (events w))
      /\ (List.length (posted (events w)) <= attempts (events w))%nat.
Proof.
  split; [reflexivity|].
  refine (one_pause_per_attempt rejecting (env_with "30" "0xw1" "k1")
            (cfg_with "30") eq_refl _).
  intros key _. eexists. reflexivity.
Defined.

(** X3: when the configured price is one the conversion rejects, the run
    still queries every wallet and ends with status 0, and no request is
    sent to the listing endpoint. *)
Theorem rejected_price_posts_nothing (rt : Runtime) (env : ProcessEnv) (cfg : Config) :
  startup env = Started cfg ->
  (forall key, In key (PRIVATE_KEYS cfg) -> exists a, Wallet_new rt (Some key) = inr a) ->
  parseEther (LISTING_PRICE_IN_ETH cfg) = None ->
  exists w,
    SellNfts.program rt env = (0, w)
    /\ posted (events w) = []
    /\ queried (events w) = map holdings_url (WALLETS cfg).
Proof.
  intros Hs Hkeys Hp.
  destruct (run_completes rt env cfg Hs Hkeys) as (w & Hrun & _ & _ & _ & _ & _ & Hn & _).
  exists w. split; [exact Hrun|]. split; [now apply Hn|].
  destruct (startup_started env cfg Hs) as (ws & ks & _ & _ & _ & _ & _ & Hlen & _).
  destruct (main_returns rt cfg Hlen Hkeys) as (w2 & Hm & Hq).
  unfold SellNfts.program, run in Hrun. rewrite Hs, Hm in Hrun.
  injection Hrun as <-. exact Hq.
Qed.

Lemma rejected_price_posts_nothing_witness :
  exists cfg,
    startup (with_price (env_with "30" "0xw1" "k1") "0,001") = Started cfg
    /\ parseEther (LISTING_PRICE_IN_ETH cfg) = None
    /\ exists w,
        SellNfts.program accepting (with_price (env_with "30" "0xw1" "k1") "0,001") = (0, w)
        /\ posted (events w) = []
        /\ queried (events w) = map holdings_url (WALLETS cfg).
Proof.
  eexists. split; [reflexivity|]. split; [reflexivity|].
  refine (rejected_price_posts_nothing accepting
            (with_price (env_with "30" "0xw1" "k1") "0,001") _ eq_refl _ eq_refl).
  intros key _. eexists. reflexivity.
Defined.

(** X4: the salts of the orders a run sends come from draws of the random
    source in strictly increasing order: no draw is used for two orders. *)
Theorem salts_come_from_successive_draws (rt : Runtime) (env : ProcessEnv)
  (cfg : Config) :
  startup env = Started cfg ->
  (forall key, In key (PRIVATE_KEYS cfg) -> exists a, Wallet_new rt (Some key) = inr a) ->
  exists w ks,
    SellNfts.program rt env = (0, w)
    /\ StronglySorted lt ks
    /\ Forall (fun k => (k < draws w)%nat) ks
    /\ map (fun body => get "salt" (get "parameters" body)) (posted (events w))
       = map (salt_of_draw rt) ks.
Proof.
  intros Hs Hkeys.
  destruct (run_completes rt env cfg Hs Hkeys)
    as (w & Hrun & _ & _ & _ & _ & _ & _ & ks & Hsort & Hr & Hf).
  exists w, ks. split; [exact Hrun|]. split; [exact Hsort|]. split.
  - eapply Forall_impl; [|exact Hr]. cbn. intros; lia.
  - clear Hsort Hr. induction Hf as [|k body ks bodies (wl & nft & _ & Hl) _ IH];
      [reflexivity|].
    cbn [map]. rewrite IH. f_equal.
    now destruct (listed_fields _ _ _ _ _ _ _ Hl) as (_ & _ & _ & _ & ->).
Qed.

Lemma salts_come_from_successive_draws_witness :
  startup (env_with "30" "0xw1" "k1") = Started (cfg_with "30")
  /\ exists w ks,
      SellNfts.program accepting (env_with "30" "0xw1" "k1") = (0, w)
      /\ StronglySorted lt ks
      /\ Forall (fun k => (k < draws w)%nat) ks
      /\ map (fun body => get "salt" (get "parameters" body)) (posted (events w))
         = map (salt_of_draw accepting) ks.
Proof.
  split; [reflexivity|].
  refine (salts_come_from_successive_draws accepting (env_with "30" "0xw1" "k1")
            (cfg_with "30") eq_refl _).
  intros key _. eexists. reflexivity.
Defined.



(** ** What listNFT posts *)

(** X6: listNFT sends at most one request, and only after the price
    converted and the order was signed; the [parameters] of the body are the
    fields of the signed order, unchanged, with the signature added, and
    [protocol_address] is the verifying contract of the signing domain. *)
Theorem listNFT_posts_what_it_signed (rt : Runtime) (cfg : Config) (wallet : Wallet)
  (nft : Nft) (price : string) (w : World) :
  exists ok w' evs,
    SellNfts.listNFT rt cfg wallet nft price w = (Returned ok, w')
    /\ events w' = (events w ++ evs)%list
    /\ (List.length (posted evs) <= 1)%nat
    /\ forall body,
        In body (posted evs) ->
        exists wei order signature,
          parseEther price = Some wei
          /\ signTypedData rt (privateKey wallet) SellNfts.domain SellNfts.types order
             = inr signature
          /\ get "signature" (get "parameters" body) = VStr signature
          /\ (forall k, k <> "signature" ->
                        get k (get "parameters" body) = get k order)
          /\ get "protocol_address" body = get "verifyingContract" SellNfts.domain.
Proof.
  destruct (listNFT_detail rt cfg wallet nft price w)
    as (ok & w' & evs & Hrun & Hev & _ & _ & _ & _ & _ & _ & Hpost).
  exists ok, w', evs. split; [exact Hrun|]. split; [exact Hev|].
  destruct Hpost as [->|(body & -> & _ & wei & now & sig & Hp & Hs & ->)].
  - split; [cbn; lia|]. intros body [].
  - split; [cbn; lia|]. intros b [<-|[]].
    eexists wei, _, sig. split; [exact Hp|]. split; [exact Hs|].
    split; [reflexivity|]. split; [|reflexivity].
    intros k Hk. unfold SellNfts.payload. cbn [get lookup String.eqb Ascii.eqb Bool.eqb].
    cbn [spread SellNfts.orderComponents].
    rewrite lookup_set_prop_other; [reflexivity|].
    now apply String.eqb_neq.
Qed.

(** ** main.js *)

Lemma RanJs_app (rt : Runtime) (cfg : Config) (w w1 w2 : World) (e1 e2 : list Event) :
  RanJs rt cfg w w1 e1 -> RanJs rt cfg w1 w2 e2 -> RanJs rt cfg w w2 (e1 ++ e2).
Proof.
  intros (Hev1 & Hw1 & Hd1 & Hp1 & Hl1 & Hf1) (Hev2 & Hw2 & Hd2 & Hp2 & Hl2 & Hf2).
  unfold RanJs. rewrite attempts_app, posted_app, pauses_app, length_app, repeat_app.
  split; [rewrite Hev2, Hev1; now rewrite app_assoc|].
  split; [apply Forall_app; now split|]. split; [congruence|].
  split; [now rewrite Hp1, Hp2|]. split; [lia|]. apply Forall_app. now split.
Qed.

Lemma RanJs_quiet (rt : Runtime) (cfg : Config) (w w' : World) (evs : list Event) :
  events w' = (events w ++ evs)%list -> draws w' = draws w ->
  forallb quiet evs = true -> Forall (well_addressed cfg) evs ->
  RanJs rt cfg w w' evs.
Proof.
  intros Hev Hd Hq Hw. destruct (quiet_facts evs Hq) as (Hp & Hs & Ha).
  unfold RanJs. rewrite Hp, Hs, Ha.
  split; [exact Hev|]. split; [exact Hw|]. split; [exact Hd|].
  split; [reflexivity|]. split; [cbn; lia | constructor].
Qed.

(** One call of main.js's listNFT, in full. *)
Lemma MainJs_listNFT_detail (rt : Runtime) (cfg : Config) (wallet : Wallet) (nft : Nft)
  (price : string) (w : World) :
  exists ok w' evs,
    MainJs.listNFT rt cfg wallet nft price w = (Returned ok, w')
    /\ events w' = (events w ++ evs)%list
    /\ Forall (well_addressed cfg) evs
    /\ queried evs = [] /\ pauses evs = [] /\ attempts evs = 1%nat
    /\ draws w' = draws w
    /\ exists start,
        match signTypedData rt (privateKey wallet) MainJs.domain MainJs.types
                MainJs.orderComponents with
        | inl e =>
            ok = false /\ posted evs = []
            /\ file_log evs = ("[START] " ++ start) :: js_failed rt nft e
        | inr signature =>
            posted evs = [VObj [("signature", VStr signature);
                                ("protocol_address", VStr SEAPORT_CONTRACT_ADDRESS)]]
            /\ ((ok = true
                 /\ exists m history url body headers r,
                     axios_post rt history url body headers = inr r
                     /\ file_log evs = ["[START] " ++ start; "[SUCCESS] " ++ m])
                \/ (ok = false
                    /\ exists e history url body headers,
                        axios_post rt history url body headers = inl e
                        /\ file_log evs = ("[START] " ++ start) :: js_failed rt nft e))
        end.
Proof.
  unfold MainJs.listNFT, MainJs.listNFT_catch. run_script.
  destruct (signTypedData rt (privateKey wallet) MainJs.domain MainJs.types
              MainJs.orderComponents) as [e|sig] eqn:Hs.
  - run_script. unfold js_failed.
    destruct (response e) as [r|]; run_script; trace_found;
      (split; [addressed|]); repeat split; eexists; repeat split.
  - run_script.
    match goal with
    | |- context [axios_post rt ?h ?u ?b ?hd] =>
        destruct (axios_post rt h u b hd) as [e|resp] eqn:Hx
    end.
    + run_script. unfold js_failed.
      destruct (response e) as [r|] eqn:Hr; run_script; trace_found;
        (split; [addressed|]); repeat split; eexists; (split; [reflexivity|]);
        right; (split; [reflexivity|]); eexists e, _, _, _, _;
        (split; [exact Hx|]); rewrite ?Hr; reflexivity.
    + run_script. trace_found. split; [addressed|]. repeat split.
      eexists. split; [reflexivity|]. left. split; [reflexivity|].
      eexists _, _, _, _, _, _. split; [exact Hx | reflexivity].
Qed.

Lemma MainJs_list_all_ran (rt : Runtime) (cfg : Config) (wallet : Wallet)
  (nfts : list Nft) (w : World) :
  exists w' evs,
    MainJs.list_all rt cfg wallet nfts w = (Returned tt, w')
    /\ RanJs rt cfg w w' evs
    /\ queried evs = []
    /\ attempts evs = List.length nfts.
Proof.
  revert w. induction nfts as [|nft rest IH]; intros w.
  - exists w, []. split; [reflexivity|]. split; [|split; reflexivity].
    apply RanJs_quiet; [now rewrite app_nil_r | reflexivity | reflexivity | constructor].
  - destruct (MainJs_listNFT_detail rt cfg wallet nft (LISTING_PRICE_IN_ETH cfg) w)
      as (ok & w1 & evs1 & Hrun & Hev & Hwa & Hq & Hp & Ha & Hd & start & Hcase).
    cbn [MainJs.list_all]. unfold bind at 1. rewrite Hrun.
    unfold bind at 1, sleep, emit.
    match goal with |- context [MainJs.list_all rt cfg wallet rest ?w2] =>
      destruct (IH w2) as (w' & evs & Hrest & HR & Hq' & Ha'); set (wp := w2) in * end.
    exists w', ((evs1 ++ [SetTimeout MainJs.delay]) ++ evs)%list.
    split; [exact Hrest|]. split; [|split].
    + apply (RanJs_app rt cfg w wp w'); [|exact HR].
      unfold RanJs. subst wp. cbn [events draws].
      rewrite attempts_app, posted_app, pauses_app, Hp, Ha, length_app.
      split; [now rewrite Hev, app_assoc|].
      split; [apply Forall_app; split; [exact Hwa | repeat constructor]|].
      split; [exact Hd|]. split; [reflexivity|].
      destruct (signTypedData rt (privateKey wallet) MainJs.domain MainJs.types
                  MainJs.orderComponents) as [e|sig].
      * destruct Hcase as (_ & -> & _). split; [cbn; lia | constructor].
      * destruct Hcase as (-> & _). split; [cbn; lia|].
        repeat constructor. now exists sig.
    + rewrite !queried_app, Hq, Hq'. reflexivity.
    + rewrite !attempts_app, Ha, Ha'. reflexivity.
Qed.

Lemma MainJs_process_wallet_ran (rt : Runtime) (cfg : Config) (i : nat) (w : World)
  (a : string) :
  Wallet_new rt (nth_error (PRIVATE_KEYS cfg) i) = inr a ->
  exists w' evs,
    MainJs.process_wallet rt cfg i w = (Returned tt, w')
    /\ RanJs rt cfg w w' evs
    /\ queried evs = [holdings_url (nth i (WALLETS cfg) EmptyString)].
Proof.
  intros Hk. unfold MainJs.process_wallet, getWallet, MainJs.process_holdings,
    MainJs.fetch_failed.
  run_script. rewrite Hk. run_script.
  match goal with
  | |- context [axios_get rt ?h ?u ?hd] =>
      destruct (axios_get rt h u hd) as [e|nfts] eqn:Hget
  end.
  - run_script. eexists _, _. split; [reflexivity|].
    split; [apply RanJs_quiet; [cbn [events]; extension | reflexivity | reflexivity | addressed]
           | reflexivity].
  - run_script.
    destruct (List.length (filter (is_target cfg) nfts) =? 0)%nat.
    + run_script. eexists _, _. split; [reflexivity|].
      split; [apply RanJs_quiet; [cbn [events]; extension | reflexivity | reflexivity | addressed]
             | reflexivity].
    + run_script.
      match goal with
      | |- context [MainJs.list_all rt cfg ?wl ?ts ?w2] =>
          destruct (MainJs_list_all_ran rt cfg wl ts w2) as (w' & evs & Hrun & HR & Hq & _);
          set (wp := w2) in *
      end.
      rewrite Hrun. eexists w', _. split; [reflexivity|]. split.
      * apply (RanJs_app rt cfg w wp w'); [|exact HR].
        apply RanJs_quiet; [subst wp; cbn [events]; extension | reflexivity | reflexivity
                           | addressed].
      * rewrite queried_app, Hq. reflexivity.
Qed.

Lemma MainJs_wallets_from_ran (rt : Runtime) (cfg : Config) (n i : nat) (w : World) :
  (forall j, (i <= j < i + n)%nat ->
             exists a, Wallet_new rt (nth_error (PRIVATE_KEYS cfg) j) = inr a) ->
  exists w' evs,
    MainJs.wallets_from rt cfg n i w = (Returned tt, w')
    /\ RanJs rt cfg w w' evs
    /\ queried evs
       = map (fun j => holdings_url (nth j (WALLETS cfg) EmptyString)) (seq i n).
Proof.
  revert i w. induction n as [|n IH]; intros i w Hkeys.
  - exists w, []. split; [reflexivity|]. split; [|reflexivity].
    apply RanJs_quiet; [now rewrite app_nil_r | reflexivity | reflexivity | constructor].
  - destruct (Hkeys i ltac:(lia)) as (a & Ha).
    destruct (MainJs_process_wallet_ran rt cfg i w a Ha) as (w1 & evs1 & Hrun & HR & Hq).
    cbn [MainJs.wallets_from]. unfold bind. rewrite Hrun.
    destruct (IH (i + 1)%nat w1) as (w' & evs & Hrest & HR' & Hq').
    { intros j Hj. apply Hkeys. lia. }
    exists w', (evs1 ++ evs)%list. split; [exact Hrest|].
    split; [now apply (RanJs_app rt cfg w w1 w')|].
    rewrite queried_app, Hq, Hq'. cbn [seq map]. now rewrite Nat.add_1_r.
Qed.

Lemma MainJs_main_ran (rt : Runtime) (cfg : Config) :
  List.length (WALLETS cfg) = List.length (PRIVATE_KEYS cfg) ->
  (forall key, In key (PRIVATE_KEYS cfg) -> exists a, Wallet_new rt (Some key) = inr a) ->
  exists w,
    MainJs.main rt cfg initial = (Returned tt, w)
    /\ RanJs rt cfg initial w (events w)
    /\ queried (events w) = map holdings_url (WALLETS cfg).
Proof.
  intros Hlen Hkeys. unfold MainJs.main. run_script.
  match goal with
  | |- context [MainJs.wallets_from rt cfg ?n 0 ?w0] =>
      destruct (MainJs_wallets_from_ran rt cfg n 0 w0) as (w1 & evs & Hrun & HR & Hq);
      [|set (wp := w0) in *]
  end.
  { intros j Hj. destruct (nth_error (PRIVATE_KEYS cfg) j) as [key|] eqn:Hn.
    - apply Hkeys. eapply nth_error_In; eassumption.
    - apply nth_error_None in Hn. lia. }
  rewrite Hrun. eexists. split; [reflexivity|].
  match goal with
  | |- RanJs _ _ _ ?wf _ /\ _ => set (wend := wf)
  end.
  assert (H0 : RanJs rt cfg initial wp (events wp)).
  { apply RanJs_quiet; try reflexivity. subst wp. cbn [events]. addressed. }
  assert (H2 : exists evs2, RanJs rt cfg w1 wend evs2 /\ queried evs2 = []).
  { eexists. split; [apply RanJs_quiet;
                     [subst wend; cbn [events]; extension | reflexivity | reflexivity
                     | addressed]
                    | reflexivity]. }
  destruct H2 as (evs2 & H2 & Hq2).
  pose proof (RanJs_app _ _ _ _ _ _ _ (RanJs_app _ _ _ _ _ _ _ H0 HR) H2) as H.
  assert (E : events wend = ((events wp ++ evs) ++ evs2)%list) by apply H.
  rewrite E. split; [exact H|].
  rewrite !queried_app, Hq, Hq2. subst wp. cbn [events queried collect app].
  rewrite app_nil_r.
  rewrite <- (map_map (fun j => nth j (WALLETS cfg) EmptyString) holdings_url).
  now rewrite map_nth_seq.
Qed.

(** ** The two scripts *)

(** The body part_000 posts for a listing holds the signature under
    [parameters] and not beside it. *)
Lemma listed_shape (rt : Runtime) (cfg : Config) (wallet : Wallet) (nft : Nft)
  (price : string) (k : nat) (body : value) :
  listed rt cfg wallet nft price k body ->
  exists signature,
    get "signature" (get "parameters" body) = VStr signature
    /\ get "signature" body = VUndefined
    /\ get "protocol_address" body = VStr SEAPORT_CONTRACT_ADDRESS.
Proof.
  intros (wei & now & sig & _ & _ & ->). exists sig. repeat split.
Qed.

Lemma repeat_differ (n m : nat) :
  repeat SellNfts.delay n = repeat MainJs.delay m -> n = 0%nat /\ m = 0%nat.
Proof.
  destruct n as [|n], m as [|m]; cbn [repeat]; intros H;
    [now split | discriminate H | discriminate H | discriminate H].
Qed.

(** C8 (as amended): the two scripts are not equivalent.  On a validated
    configuration whose keys all derive a wallet, both end with status 0
    and have queried the same wallets in the same order; but part_000
    pauses 2000 ms after each listing attempt and main.js 1000 ms, so that
    their pauses agree only when neither attempts a listing; and they do
    not build the body of a request alike: part_000 nests the signature,
    with the order, under [parameters], main.js writes it at the top of
    the body, which has no [parameters], so that no body the one posts is
    a body the other posts.  Both bodies carry the Seaport address as
    [protocol_address]. *)
Theorem scripts_differ_in_body_and_pause (rt : Runtime) (env : ProcessEnv)
  (cfg : Config) :
  startup env = Started cfg ->
  (forall key, In key (PRIVATE_KEYS cfg) -> exists a, Wallet_new rt (Some key) = inr a) ->
  exists w w',
    SellNfts.program rt env = (0, w)
    /\ MainJs.program rt env = (0, w')
    /\ queried (events w) = queried (events w')
    /\ pauses (events w) = repeat 2000 (attempts (events w))
    /\ pauses (events w') = repeat 1000 (attempts (events w'))
    /\ (pauses (events w) = pauses (events w') ->
        attempts (events w) = 0%nat /\ attempts (events w') = 0%nat)
    /\ (forall body,
          In body (posted (events w)) ->
          exists signature,
            get "signature" (get "parameters" body) = VStr signature
            /\ get "signature" body = VUndefined
            /\ get "protocol_address" body = VStr SEAPORT_CONTRACT_ADDRESS)
    /\ (forall body,
          In body (posted (events w')) ->
          exists signature,
            get "signature" body = VStr signature
            /\ get "parameters" body = VUndefined
            /\ get "protocol_address" body = VStr SEAPORT_CONTRACT_ADDRESS)
    /\ (forall body body',
          In body (posted (events w)) -> In body' (posted (events w')) ->
          body <> body').
Proof.
  intros Hs Hkeys.
  destruct (run_completes rt env cfg Hs Hkeys)
    as (w & Hrun & _ & _ & _ & Hp & _ & _ & ks & _ & _ & Hf).
  destruct (startup_started env cfg Hs) as (ws & ks' & _ & _ & _ & _ & _ & Hlen & _).
  destruct (MainJs_main_ran rt cfg Hlen Hkeys)
    as (w' & Hm' & (_ & _ & _ & Hp' & _ & Hflat) & Hq').
  destruct (main_returns rt cfg Hlen Hkeys) as (w2 & Hm2 & Hq2).
  assert (E : w2 = w).
  { unfold SellNfts.program, run in Hrun. rewrite Hs, Hm2 in Hrun. now injection Hrun. }
  subst w2.
  assert (Hnested : forall body,
             In body (posted (events w)) ->
             exists signature,
               get "signature" (get "parameters" body) = VStr signature
               /\ get "signature" body = VUndefined
               /\ get "protocol_address" body = VStr SEAPORT_CONTRACT_ADDRESS).
  { intros body Hin.
    destruct (Forall2_right _ _ _ _ Hf Hin) as (k & _ & wl & nft & _ & Hl).
    exact (listed_shape _ _ _ _ _ _ _ Hl). }
  assert (Hflat' : forall body,
             In body (posted (events w')) ->
             exists signature,
               get "signature" body = VStr signature
               /\ get "parameters" body = VUndefined
               /\ get "protocol_address" body = VStr SEAPORT_CONTRACT_ADDRESS).
  { intros body Hin. rewrite Forall_forall in Hflat.
    destruct (Hflat body Hin) as (sig & ->). exists sig. repeat split. }
  exists w, w'. split; [exact Hrun|].
  split; [unfold MainJs.program, run; now rewrite Hs, Hm'|].
  split; [congruence|]. split; [exact Hp|]. split; [exact Hp'|].
  split; [intros H; rewrite Hp, Hp' in H; exact (repeat_differ _ _ H)|].
  split; [exact Hnested|]. split; [exact Hflat'|].
  intros body body' Hin Hin' <-.
  destruct (Hnested body Hin) as (sig & _ & Hnone & _).
  destruct (Hflat' body Hin') as (sig' & Hsome & _).
  rewrite Hnone in Hsome. discriminate Hsome.
Qed.

Lemma scripts_differ_in_body_and_pause_witness :
  startup (env_with "30" "0xw1" "k1") = Started (cfg_with "30")
  /\ exists w w',
      SellNfts.program unsigned (env_with "30" "0xw1" "k1") = (0, w)
      /\ MainJs.program unsigned (env_with "30" "0xw1" "k1") = (0, w')
      /\ queried (events w) = queried (events w')
      /\ pauses (events w) = repeat 2000 (attempts (events w))
      /\ pauses (events w') = repeat 1000 (attempts (events w'))
      /\ (pauses (events w) = pauses (events w') ->
          attempts (events w) = 0%nat /\ attempts (events w') = 0%nat).
Proof.
  split; [reflexivity|].
  destruct (scripts_differ_in_body_and_pause unsigned (env_with "30" "0xw1" "k1")
              (cfg_with "30") eq_refl)
    as (w & w' & H1 & H2 & H3 & H4 & H5 & H6 & _).
  - intros key _. eexists. reflexivity.
  - exists w, w'. repeat (split; [assumption|]). exact H6.
Defined.

(** C8 as stated fails: on one configuration, with one wallet that holds
    one token of the target contract and a signer that refuses the order
    of either script, both scripts make one attempt and post nothing, and
    part_000 pauses 2000 ms after it where main.js pauses 1000 ms. *)
Lemma scripts_are_not_equivalent :
  fst (SellNfts.program unsigned (env_with "30" "0xw1" "k1")) = 0
  /\ fst (MainJs.program unsigned (env_with "30" "0xw1" "k1")) = 0
  /\ attempts (events (snd (SellNfts.program unsigned (env_with "30" "0xw1" "k1")))) = 1%nat
  /\ attempts (events (snd (MainJs.program unsigned (env_with "30" "0xw1" "k1")))) = 1%nat
  /\ posted (events (snd (SellNfts.program unsigned (env_with "30" "0xw1" "k1")))) = []
  /\ posted (events (snd (MainJs.program unsigned (env_with "30" "0xw1" "k1")))) = []
  /\ pauses (events (snd (SellNfts.program unsigned (env_with "30" "0xw1" "k1")))) = [2000]
  /\ pauses (events (snd (MainJs.program unsigned (env_with "30" "0xw1" "k1")))) = [1000].
Proof. repeat split; vm_compute; reflexivity. Qed.

(** X14: main.js's listNFT always returns and draws no random bytes.  When
    the signature fails it sends nothing; otherwise it sends exactly one
    body, made of the signature and the Seaport address only, since the
    order components of this file are empty.  It returns true after an
    accepted request and false after a refused one, and its entries after a
    failure give the error's own message, then the response data when the
    error has a response. *)
Theorem mainjs_listNFT_sends_no_order (rt : Runtime) (cfg : Config) (wallet : Wallet)
  (nft : Nft) (price : string) (w : World) :
  exists ok w' evs,
    MainJs.listNFT rt cfg wallet nft price w = (Returned ok, w')
    /\ events w' = (events w ++ evs)%list
    /\ draws w' = draws w
    /\ exists start,
        match signTypedData rt (privateKey wallet) MainJs.domain MainJs.types
                MainJs.orderComponents with
        | inl e =>
            ok = false /\ posted evs = []
            /\ file_log evs = ("[START] " ++ start) :: js_failed rt nft e
        | inr signature =>
            posted evs = [VObj [("signature", VStr signature);
                                ("protocol_address", VStr SEAPORT_CONTRACT_ADDRESS)]]
            /\ ((ok = true
                 /\ exists m history url body headers r,
                     axios_post rt history url body headers = inr r
                     /\ file_log evs = ["[START] " ++ start; "[SUCCESS] " ++ m])
                \/ (ok = false
                    /\ exists e history url body headers,
                        axios_post rt history url body headers = inl e
                        /\ file_log evs = ("[START] " ++ start) :: js_failed rt nft e))
        end.
Proof.
  destruct (MainJs_listNFT_detail rt cfg wallet nft price w)
    as (ok & w' & evs & Hrun & Hev & _ & _ & _ & _ & Hd & Hcase).
  exists ok, w', evs. auto.
Qed.

(** X15: with a validated configuration and keys that all derive a wallet,
    main.js ends with status 0 after querying the same wallets in the same
    order as part_000; it pauses 1000 ms once per attempt, and every body
    it posts is a signature and the Seaport address only. *)
Theorem mainjs_run_completes (rt : Runtime) (env : ProcessEnv) (cfg : Config) :
  startup env = Started cfg ->
  (forall key, In key (PRIVATE_KEYS cfg) -> exists a, Wallet_new rt (Some key) = inr a) ->
  exists w,
    MainJs.program rt env = (0, w)
    /\ queried (events w) = map holdings_url (WALLETS cfg)
    /\ queried (events w) = queried (events (snd (SellNfts.program rt env)))
    /\ pauses (events w) = repeat 1000 (attempts (events w))
    /\ (List.length (posted (events w)) <= attempts (events w))%nat
    /\ Forall flat_body (posted (events w))
    /\ Forall (well_addressed cfg) (events w)
    /\ draws w = 0%nat.
Proof.
  intros Hs Hkeys.
  destruct (startup_started env cfg Hs) as (ws & ks & _ & _ & _ & _ & _ & Hlen & _).
  destruct (MainJs_main_ran rt cfg Hlen Hkeys) as (w & Hm & (_ & Hw & Hd & Hp & Hl & Hf) & Hq).
  destruct (main_returns rt cfg Hlen Hkeys) as (w2 & Hm2 & Hq2).
  exists w. split; [unfold MainJs.program, run; now rewrite Hs, Hm|].
  split; [exact Hq|].
  split; [unfold SellNfts.program, run; rewrite Hs, Hm2; cbn [snd]; congruence|].
  repeat split; assumption.
Qed.

Lemma mainjs_run_completes_witness :
  startup (env_with "30" "0xw1" "k1") = Started (cfg_with "30")
  /\ exists w,
      MainJs.program accepting (env_with "30" "0xw1" "k1") = (0, w)
      /\ queried (events w) = map holdings_url (WALLETS (cfg_with "30"))
      /\ queried (events w)
         = queried (events (snd (SellNfts.program accepting (env_with "30" "0xw1" "k1"))))
      /\ pauses (events w) = repeat 1000 (attempts (events w))
      /\ (List.length (posted (events w)) <= attempts (events w))%nat
      /\ Forall flat_body (posted (events w))
      /\ Forall (well_addressed (cfg_with "30")) (events w)
      /\ draws w = 0%nat.
Proof.
  split; [reflexivity|].
  refine (mainjs_run_completes accepting (env_with "30" "0xw1" "k1") (cfg_with "30")
            eq_refl _).
  intros key _. eexists. reflexivity.
Defined.

(** ** A key that ethers refuses *)

Lemma process_wallet_bad_key_detail (rt : Runtime) (cfg : Config) (i : nat) (w : World)
  (e : Error) :
  Wallet_new rt (nth_error (PRIVATE_KEYS cfg) i) = inl e ->
  exists w' evs,
    SellNfts.process_wallet rt cfg i w = (Thrown e, w')
    /\ events w' = (events w ++ evs)%list
    /\ queried evs = [] /\ posted evs = []
    /\ file_log evs = [walletHeader cfg i (nth i (WALLETS cfg) EmptyString)].
Proof.
  intros Hk. unfold SellNfts.process_wallet, getWallet. run_script.
  rewrite Hk. run_script. eexists _, _. split; [reflexivity|].
  split; [cbn [events]; extension|]. repeat split.
Qed.

Lemma wallets_from_throws (rt : Runtime) (cfg : Config) (j : nat) (e : Error)
  (n i : nat) (w : World) :
  (i <= j < i + n)%nat ->
  (forall k, (i <= k < j)%nat ->
             exists a, Wallet_new rt (nth_error (PRIVATE_KEYS cfg) k) = inr a) ->
  Wallet_new rt (nth_error (PRIVATE_KEYS cfg) j) = inl e ->
  exists w' evs,
    SellNfts.wallets_from rt cfg n i w = (Thrown e, w')
    /\ events w' = (events w ++ evs)%list
    /\ queried evs
       = map (fun k => holdings_url (nth k (WALLETS cfg) EmptyString)) (seq i (j - i)).
Proof.
  revert i w. induction n as [|n IH]; intros i w Hj Hgood Hbad; [lia|].
  cbn [SellNfts.wallets_from]. unfold bind.
  destruct (Nat.eq_dec i j) as [->|Hne].
  - destruct (process_wallet_bad_key_detail rt cfg j w e Hbad)
      as (w' & evs & Hrun & Hev & Hq & _).
    rewrite Hrun. exists w', evs. split; [reflexivity|]. split; [exact Hev|].
    now rewrite Nat.sub_diag.
  - destruct (Hgood i ltac:(lia)) as (a & Ha).
    destruct (process_wallet_returns rt cfg i w a Ha) as (w1 & evs1 & Hrun & Hev & Hq).
    rewrite Hrun.
    destruct (IH (i + 1)%nat w1) as (w' & evs & Hrest & Hev' & Hq');
      [lia | intros k Hk; apply Hgood; lia | exact Hbad |].
    exists w', (evs1 ++ evs)%list. split; [exact Hrest|].
    split; [rewrite Hev', Hev; now rewrite app_assoc|].
    rewrite queried_app, Hq, Hq'.
    replace (j - i)%nat with (S (j - (i + 1))) by lia.
    cbn [seq map]. now rewrite Nat.add_1_r.
Qed.

Lemma map_nth_seq_firstn {A} (l : list A) (d : A) (j : nat) :
  (j <= List.length l)%nat ->
  map (fun k => nth k l d) (seq 0 j) = firstn j l.
Proof.
  revert j. induction l as [|a l IH]; intros [|j] Hj; try reflexivity.
  - cbn in Hj. lia.
  - cbn [seq map nth firstn]. f_equal.
    rewrite <- seq_shift, map_map. apply IH. cbn in Hj. lia.
Qed.

(** X8: the first key that ethers refuses ends the run: the wallets before
    it have been queried, its own and the later ones never are, the last
    log entry is the FATAL ERROR line with the error's message, and the
    status is 1. *)
Theorem bad_key_is_fatal (rt : Runtime) (env : ProcessEnv) (cfg : Config)
  (j : nat) (e : Error) :
  startup env = Started cfg ->
  (j < List.length (WALLETS cfg))%nat ->
  (forall k, (k < j)%nat ->
             exists a, Wallet_new rt (nth_error (PRIVATE_KEYS cfg) k) = inr a) ->
  Wallet_new rt (nth_error (PRIVATE_KEYS cfg) j) = inl e ->
  exists w,
    SellNfts.program rt env = (1, w)
    /\ queried (events w) = map holdings_url (firstn j (WALLETS cfg))
    /\ last (file_log (events w)) EmptyString = "FATAL ERROR: " ++ message e.
Proof.
  intros Hs Hj Hgood Hbad.
  unfold SellNfts.program, run. rewrite Hs. unfold SellNfts.main. run_script.
  match goal with
  | |- context [SellNfts.wallets_from rt cfg ?n 0 ?w0] =>
      destruct (wallets_from_throws rt cfg j e n 0 w0) as (w1 & evs & Hrun & Hev & Hq);
      [lia | intros k Hk; apply Hgood; lia | exact Hbad | set (wp := w0) in *]
  end.
  rewrite Hrun. cbn [snd events]. eexists. split; [reflexivity|].
  cbn [events]. rewrite Hev. subst wp. cbn [events].
  split.
  - rewrite !queried_app, Hq. cbn [queried collect app]. rewrite app_nil_r, Nat.sub_0_r.
    rewrite <- (map_map (fun k => nth k (WALLETS cfg) EmptyString) holdings_url).
    rewrite map_nth_seq_firstn by lia.
    unfold queried. cbn [initial events collect app]. now rewrite !app_nil_r.
  - rewrite !file_log_app. cbn [file_log collect]. apply last_last.
Qed.

Lemma bad_key_is_fatal_witness :
  exists cfg,
    startup (env_with "30" ("0xw1" ++ nl ++ "0xw2" ++ nl ++ "0xw3")
               ("k1" ++ nl ++ "bad" ++ nl ++ "k3")) = Started cfg
    /\ Wallet_new (refusing "bad") (nth_error (PRIVATE_KEYS cfg) 1)
       = inl (plain_error "invalid private key")
    /\ exists w,
        SellNfts.program (refusing "bad")
          (env_with "30" ("0xw1" ++ nl ++ "0xw2" ++ nl ++ "0xw3")
             ("k1" ++ nl ++ "bad" ++ nl ++ "k3")) = (1, w)
        /\ queried (events w) = map holdings_url (firstn 1 (WALLETS cfg))
        /\ last (file_log (events w)) EmptyString
           = "FATAL ERROR: " ++ message (plain_error "invalid private key").
Proof.
  eexists. split; [reflexivity|]. split; [reflexivity|].
  refine (bad_key_is_fatal (refusing "bad")
            (env_with "30" ("0xw1" ++ nl ++ "0xw2" ++ nl ++ "0xw3")
               ("k1" ++ nl ++ "bad" ++ nl ++ "k3"))
            _ 1 (plain_error "invalid private key") eq_refl _ _ eq_refl).
  - vm_compute. lia.
  - intros [|k] Hk; [eexists; reflexivity | lia].
Defined.

(** ** Startup *)

(** X11: when startup fails, either script ends with status 1 after one
    report on the error stream and nothing else: no entry in the log, no
    provider, no request.  When a validation halts it, the report is the
    line of that validation, the same for both scripts; with both lists set
    and a scalar missing it is the missing-variables line, also when the
    lengths differ.  When a list variable is not set, the report is Node's,
    of the uncaught TypeError of line 26 or 27, and names the script. *)
Theorem failed_startup_does_nothing (rt : Runtime) (env : ProcessEnv) :
  (forall cfg, startup env <> Started cfg) ->
  exists report : string -> Event,
    SellNfts.program rt env
    = (1, {| events := [report SellNfts.script]; draws := 0 |})
    /\ MainJs.program rt env
       = (1, {| events := [report MainJs.script]; draws := 0 |})
    /\ (forall d, startup env = Halted d -> report = fun _ => ConsoleError d)
    /\ (env_WALLETS env <> None -> env_PRIVATE_KEYS env <> None ->
        scalars_set env = false ->
        report = fun _ => ConsoleError missing_diagnostic)
    /\ (env_WALLETS env = None \/ env_PRIVATE_KEYS env = None ->
        report = fun script => Uncaught script TypeError_split).
Proof.
  intros Hs. unfold SellNfts.program, MainJs.program, run.
  destruct (startup env) as [v|d|cfg] eqn:E.
  - exists (fun script => Uncaught script TypeError_split).
    split; [reflexivity|]. split; [reflexivity|].
    split; [discriminate|]. split; [|reflexivity].
    intros Hw Hk _. unfold startup in E.
    destruct (env_WALLETS env); [|contradiction].
    destruct (env_PRIVATE_KEYS env); [|contradiction].
    destruct (_ || _); [discriminate|]. destruct (negb _); discriminate.
  - exists (fun _ => ConsoleError d). split; [reflexivity|]. split; [reflexivity|].
    split; [now intros d' [= <-]|]. split.
    + intros Hw Hk Hset.
      destruct (env_WALLETS env) as [ws|] eqn:Ew; [|contradiction].
      destruct (env_PRIVATE_KEYS env) as [ks|] eqn:Ek; [|contradiction].
      rewrite (startup_cases env ws ks Ew Ek), Hset in E. cbn [negb] in E.
      now injection E as <-.
    + unfold startup in E. intros [H|H]; rewrite H in E; [discriminate|].
      destruct (env_WALLETS env); discriminate.
  - now elim (Hs cfg).
Qed.

Lemma failed_startup_does_nothing_witness :
  startup (env_with EmptyString "0xw1" ("k1" ++ nl ++ "k2")) = Halted missing_diagnostic
  /\ SellNfts.program accepting (env_with EmptyString "0xw1" ("k1" ++ nl ++ "k2"))
     = (1, {| events := [ConsoleError missing_diagnostic]; draws := 0 |})
  /\ MainJs.program accepting (env_with EmptyString "0xw1" ("k1" ++ nl ++ "k2"))
     = (1, {| events := [ConsoleError missing_diagnostic]; draws := 0 |}).
Proof.
  split; [reflexivity|].
  destruct (failed_startup_does_nothing accepting
              (env_with EmptyString "0xw1" ("k1" ++ nl ++ "k2")))
    as (report & H1 & H2 & Hd & _).
  - intros cfg H. discriminate H.
  - rewrite (Hd missing_diagnostic eq_refl) in H1, H2. split; assumption.
Defined.

(** A run with WALLETS not set: the report is Node's and names the file of
    the script that ran. *)
Example unset_wallets_are_reported_by_node :
  SellNfts.program accepting
    {| env_OPENSEA_API_KEY := Some "api-key";
       env_RPC_URL := Some "https://mainnet.base.org";
       env_TARGET_CONTRACT_ADDRESS := Some "0xABCD";
       env_LISTING_PRICE_IN_ETH := Some "0.001";
       env_LISTING_DURATION_MINUTES := Some "30";
       env_WALLETS := None;
       env_PRIVATE_KEYS := Some "k1" |}
  = (1, {| events := [Uncaught "src/unnamed/part_000" TypeError_split]; draws := 0 |}).
Proof. reflexivity. Qed.

(** ** The frame of the log *)

Lemma wallets_from_extends (rt : Runtime) (cfg : Config) (n i : nat) (w : World) :
  exists evs, events (snd (SellNfts.wallets_from rt cfg n i w)) = (events w ++ evs)%list.
Proof.
  revert i w. induction n as [|n IH]; intros i w.
  - exists []. cbn. now rewrite app_nil_r.
  - cbn [SellNfts.wallets_from]. unfold bind.
    destruct (Wallet_new rt (nth_error (PRIVATE_KEYS cfg) i)) as [e|a] eqn:Hk.
    + destruct (process_wallet_bad_key_detail rt cfg i w e Hk) as (w' & evs & Hrun & Hev & _).
      rewrite Hrun. now exists evs.
    + destruct (process_wallet_returns rt cfg i w a Hk) as (w1 & evs1 & Hrun & Hev & _).
      rewrite Hrun. destruct (IH (i + 1)%nat w1) as (evs & Hev').
      exists (evs1 ++ evs)%list. rewrite Hev', Hev. now rewrite app_assoc.
Qed.

(** X9: whenever validation passed, the log of the run starts with the
    start message and ends with the end message when main returns, and with
    the FATAL ERROR line when it throws; the status is 0 exactly when main
    returns. *)
Theorem log_is_framed (rt : Runtime) (env : ProcessEnv) (cfg : Config) :
  startup env = Started cfg ->
  exists middle,
    file_log (events (snd (SellNfts.program rt env)))
    = (startMessage cfg :: middle
       ++ [match fst (SellNfts.main rt cfg initial) with
           | Returned _ => endMessage
           | Thrown e => ("FATAL ERROR: " ++ message e)%string
           end])%list
    /\ (fst (SellNfts.program rt env) = 0
        <-> exists u, fst (SellNfts.main rt cfg initial) = Returned u).
Proof.
  intros Hs. unfold SellNfts.program, run. rewrite Hs.
  unfold SellNfts.main. run_script.
  match goal with
  | |- context [SellNfts.wallets_from rt cfg ?n 0 ?w0] =>
      destruct (wallets_from_extends rt cfg n 0 w0) as (evs & Hev);
      destruct (SellNfts.wallets_from rt cfg n 0 w0) as [[[]|e] w1]
  end; cbn [fst snd events] in *; rewrite Hev; cbn [events].
  - exists (file_log evs). split.
    + rewrite !file_log_app. unfold file_log at 1. cbn [initial events collect app].
      rewrite !app_nil_r. now rewrite <- app_assoc.
    + split; [eexists; reflexivity | reflexivity].
  - exists (file_log evs). split.
    + rewrite !file_log_app. unfold file_log at 1. cbn [initial events collect app].
      rewrite !app_nil_r. now rewrite <- app_assoc.
    + split; [discriminate | intros (u & Hu); discriminate Hu].
Qed.

Lemma log_is_framed_witness :
  startup (env_with "30" "0xw1" "k1") = Started (cfg_with "30")
  /\ exists middle,
      file_log (events (snd (SellNfts.program rejecting (env_with "30" "0xw1" "k1"))))
      = (startMessage (cfg_with "30") :: middle
         ++ [match fst (SellNfts.main rejecting (cfg_with "30") initial) with
             | Returned _ => endMessage
             | Thrown e => ("FATAL ERROR: " ++ message e)%string
             end])%list
      /\ (fst (SellNfts.program rejecting (env_with "30" "0xw1" "k1")) = 0
          <-> exists u, fst (SellNfts.main rejecting (cfg_with "30") initial) = Returned u).
Proof.
  split; [reflexivity|].
  exact (log_is_framed rejecting (env_with "30" "0xw1" "k1") (cfg_with "30") eq_refl).
Defined.

(** ** A wallet with nothing to list *)

(** X10: a wallet whose holdings contain no token of the target contract
    (or nothing at all) gets the two "No NFTs" lines and nothing else: no
    listing attempt, no request to the listing endpoint, no pause. *)
Theorem nothing_to_list (rt : Runtime) (cfg : Config) (i : nat) (w : World)
  (a : string) (nfts : list Nft) :
  Wallet_new rt (nth_error (PRIVATE_KEYS cfg) i) = inr a ->
  axios_get rt (events (asking rt cfg i w))
    (holdings_url (nth i (WALLETS cfg) EmptyString))
    [("X-API-KEY", OPENSEA_API_KEY cfg)] = inr nfts ->
  filter (is_target cfg) nfts = [] ->
  exists w',
    SellNfts.process_wallet rt cfg i w = (Returned tt, w')
    /\ w' = snd ((console_log "No NFTs from the target contract found in this wallet." ;;
                 logToFile rt "No NFTs from the target contract found.")%js
                  (asking rt cfg i w))
    /\ posted (events w') = posted (events w)
    /\ pauses (events w') = pauses (events w)
    /\ attempts (events w') = attempts (events w).
Proof.
  intros Hk Hget Hnone. unfold SellNfts.process_wallet, getWallet, SellNfts.process_holdings.
  run_script. rewrite Hk. run_script.
  unfold asking in *. revert Hget. run_script. intros Hget. rewrite Hget, Hnone.
  run_script. eexists. split; [reflexivity|]. split; [reflexivity|].
  cbn [events]. rewrite !posted_app, !pauses_app, !attempts_app.
  cbn. rewrite !app_nil_r, !Nat.add_0_r. repeat split.
Qed.

Lemma nothing_to_list_witness :
  filter (is_target (cfg_with "30"))
    [{| contract := "0x1234"; identifier := "8"; name := None |}] = []
  /\ exists w',
      SellNfts.process_wallet
        (answering (fun _ _ => inr [{| contract := "0x1234"; identifier := "8"; name := None |}])
           (fun _ => inl rejection))
        (cfg_with "30") 0 initial = (Returned tt, w')
      /\ posted (events w') = posted (events initial)
      /\ pauses (events w') = pauses (events initial)
      /\ attempts (events w') = attempts (events initial).
Proof.
  split; [reflexivity|].
  destruct (nothing_to_list
              (answering (fun _ _ => inr [{| contract := "0x1234"; identifier := "8";
                                             name := None |}])
                 (fun _ => inl rejection))
              (cfg_with "30") 0 initial "0xaddress-of-k1"
              [{| contract := "0x1234"; identifier := "8"; name := None |}]
              eq_refl eq_refl eq_refl) as (w' & Hrun & _ & H).
  exists w'. split; [exact Hrun | exact H].
Defined.

(** ** The order and its schema *)

(** X7: every order listNFT builds has exactly the fields its typed-data
    schema declares for OrderComponents, in the declared order, and so have
    its offer item and its consideration item for OfferItem and
    ConsiderationItem. *)
Theorem order_matches_its_schema (wallet : Wallet) (nft : Nft) (wei : Z)
  (now dur : number) (salt : list Byte.byte) :
  field_names (SellNfts.orderComponents wallet nft wei now dur salt)
  = declared "OrderComponents"
  /\ field_names (item "offer" (SellNfts.orderComponents wallet nft wei now dur salt))
     = declared "OfferItem"
  /\ field_names (item "consideration"
                    (SellNfts.orderComponents wallet nft wei now dur salt))
     = declared "ConsiderationItem"
  /\ field_names SellNfts.types
     = [VStr "OrderComponents"; VStr "OfferItem"; VStr "ConsiderationItem"].
Proof. repeat split. Qed.

(** ** Line endings *)

Lemma trimEnd_space_end (q : string) (c : ascii) :
  is_space c = true -> trimEnd (q ++ String c EmptyString) = trimEnd q.
Proof.
  intros Hc. induction q as [|a q IH]; simpl; [now rewrite Hc|]. now rewrite IH.
Qed.

Lemma trim_space_end (p : string) (c : ascii) :
  is_space c = true -> trim (p ++ String c EmptyString) = trim p.
Proof.
  intros Hc. unfold trim. induction p as [|a p IH]; simpl; [now rewrite Hc|].
  destruct (is_space a); [exact IH|].
  apply (trimEnd_space_end (String a p) c Hc).
Qed.

Lemma split_crlf (s : string) :
  Forall2 (fun p p' => p' = p \/ p' = p ++ String CR EmptyString)
    (split LF s) (split LF (crlf s)).
Proof.
  induction s as [|c r IH]; [repeat constructor|].
  cbn [crlf split]. destruct (Ascii.eqb c LF) eqn:E.
  - cbn [split]. change (Ascii.eqb CR LF) with false. cbn iota.
    change (Ascii.eqb LF LF) with true. cbn iota.
    constructor; [now right | exact IH].
  - cbn [split]. rewrite E.
    inversion IH as [|p p' ps ps' Hp Hps E1 E2]; [repeat constructor|].
    constructor; [|exact Hps]. destruct Hp as [->| ->]; [now left | now right].
Qed.

(** X12: the wallet and key lists are read the same from a text with CRLF
    line endings as from the text with LF line endings. *)
Theorem carriage_returns_are_dropped (s : string) :
  parse_lines (crlf s) = parse_lines s.
Proof.
  unfold parse_lines. f_equal.
  induction (split_crlf s) as [|p p' ps ps' Hp _ IH]; [reflexivity|].
  cbn [map]. rewrite IH. f_equal.
  destruct Hp as [->| ->]; [reflexivity|].
  now apply trim_space_end.
Qed.

(** ** The duration *)

Lemma digit_of_decimal (c : ascii) :
  digit_of 10 c = if is_digit c then Some (code c - 48) else None.
Proof.
  assert (H : forall a _b : ascii,
             match digit_of 10 a with
             | Some d => is_digit a && (d =? code a - 48)
             | None => negb (is_digit a)
             end = true).
  { apply every_pair_spec. vm_compute. reflexivity. }
  specialize (H c c). destruct (digit_of 10 c) as [d|].
  - apply andb_true_iff in H as [-> Hd]. apply Z.eqb_eq in Hd. now subst d.
  - apply negb_true_iff in H. now rewrite H.
Qed.

Lemma digits_prefix_digits (a : Z) (ds tail : string) :
  all_chars is_digit ds = true ->
  digits_prefix 10 (Some a) (ds ++ tail) = digits_prefix 10 (Some (digits_value a ds)) tail.
Proof.
  revert a. induction ds as [|c ds IH]; intros a Hd; [reflexivity|].
  cbn [all_chars] in Hd. apply andb_true_iff in Hd as [Hc Hd].
  cbn [append digits_prefix digits_value]. rewrite digit_of_decimal, Hc.
  now apply IH.
Qed.

Lemma digit_is_no_space (c : ascii) : is_digit c = true -> is_space c = false.
Proof.
  unfold is_digit, is_space. intros H. apply andb_true_iff in H as [H1 H2].
  apply Z.leb_le in H1, H2.
  repeat (apply orb_false_iff; split); try (apply andb_false_iff; right);
    try apply Z.leb_gt; try apply Z.eqb_neq; lia.
Qed.

Lemma strip_sign_digit (c : ascii) (r : string) :
  is_digit c = true -> strip_sign (String c r) = (1, String c r).
Proof.
  destruct c as [[] [] [] [] [] [] [] []]; try discriminate; reflexivity.
Qed.

Lemma strip_hex_other (c1 c2 : ascii) (r : string) :
  Ascii.eqb c2 "x" = false -> Ascii.eqb c2 "X" = false ->
  strip_hex (String c1 (String c2 r)) = (10, String c1 (String c2 r)).
Proof.
  destruct c1 as [[] [] [] [] [] [] [] []]; try reflexivity.
  destruct c2 as [[] [] [] [] [] [] [] []]; try reflexivity; discriminate.
Qed.

Lemma strip_hex_one (c : ascii) :
  strip_hex (String c EmptyString) = (10, String c EmptyString).
Proof. destruct c as [[] [] [] [] [] [] [] []]; reflexivity. Qed.

Lemma digit_is_no_x (c : ascii) :
  is_digit c = true -> Ascii.eqb c "x" = false /\ Ascii.eqb c "X" = false.
Proof.
  intros H. split.
  - destruct (Ascii.eqb_spec c "x"); [subst c; discriminate H | reflexivity].
  - destruct (Ascii.eqb_spec c "X"); [subst c; discriminate H | reflexivity].
Qed.

(** parseInt on digits followed by nothing, or by a character that is no
    digit and no x. *)
Lemma parseInt_digits (ds tail : string) :
  nonempty ds = true -> all_chars is_digit ds = true ->
  match tail with
  | EmptyString => True
  | String c _ => is_digit c = false /\ Ascii.eqb c "x" = false /\ Ascii.eqb c "X" = false
  end ->
  parseInt (ds ++ tail) = to_number (digits_value 0 ds).
Proof.
  intros Hne Hd Ht. destruct ds as [|c ds]; [discriminate Hne|].
  cbn [all_chars] in Hd. apply andb_true_iff in Hd as [Hc Hd].
  unfold parseInt. cbn [append trimStart]. rewrite (digit_is_no_space c Hc).
  rewrite (strip_sign_digit c _ Hc).
  assert (Hx : strip_hex (String c (ds ++ tail)) = (10, String c (ds ++ tail))).
  { destruct ds as [|c2 ds].
    - cbn [append]. destruct tail as [|t tail]; [apply strip_hex_one|].
      destruct Ht as (_ & H1 & H2). now apply strip_hex_other.
    - cbn [all_chars] in Hd. apply andb_true_iff in Hd as [Hc2 _].
      destruct (digit_is_no_x c2 Hc2). now apply strip_hex_other. }
  rewrite Hx. cbn [digits_prefix]. rewrite digit_of_decimal, Hc.
  rewrite (digits_prefix_digits _ ds tail Hd).
  assert (Hstop : digits_prefix 10 (Some (digits_value (code c - 48) ds)) tail
                  = Some (digits_value (code c - 48) ds)).
  { destruct tail as [|t tail]; [reflexivity|]. destruct Ht as (Ht & _).
    cbn [digits_prefix]. now rewrite digit_of_decimal, Ht. }
  rewrite Hstop. cbn [digits_value]. f_equal.
  replace (0 * 10 + (code c - 48)) with (code c - 48) by lia.
  destruct (digits_value (code c - 48) ds); reflexivity.
Qed.

(** X13: a duration written as digits followed by anything that starts
    with a character other than a digit and x (a fraction, a unit) is read
    as the digits alone: listNFT behaves the same with "30.5" as with
    "30". *)
Theorem duration_suffix_is_ignored (ds : string) (c : ascii) (rest : string) :
  nonempty ds = true -> all_chars is_digit ds = true ->
  is_digit c = false -> c <> "x"%char -> c <> "X"%char ->
  parseInt (ds ++ String c rest) = parseInt ds
  /\ parseInt ds = to_number (digits_value 0 ds)
  /\ forall rt cfg wallet nft price w,
      SellNfts.listNFT rt (with_minutes cfg (ds ++ String c rest)) wallet nft price w
      = SellNfts.listNFT rt (with_minutes cfg ds) wallet nft price w.
Proof.
  intros Hne Hd Hc Hx HX.
  assert (E1 : parseInt (ds ++ String c rest) = to_number (digits_value 0 ds)).
  { apply parseInt_digits; try assumption. split; [exact Hc|].
    split; apply Ascii.eqb_neq; assumption. }
  assert (E2 : parseInt ds = to_number (digits_value 0 ds)).
  { rewrite <- (append_nil_r_local ds) at 1. now apply parseInt_digits. }
  split; [congruence|]. split; [exact E2|].
  intros rt cfg wallet nft price w.
  unfold SellNfts.listNFT, SellNfts.build_order, SellNfts.post_headers.
  cbn [with_minutes LISTING_DURATION_MINUTES OPENSEA_API_KEY].
  now rewrite E1, E2.
Qed.

Lemma duration_suffix_is_ignored_witness :
  parseInt "30.5" = Num 30
  /\ parseInt ("30" ++ String "." "5") = parseInt "30"
  /\ parseInt "30" = to_number (digits_value 0 "30")
  /\ forall rt cfg wallet nft price w,
      SellNfts.listNFT rt (with_minutes cfg ("30" ++ String "." "5")) wallet nft price w
      = SellNfts.listNFT rt (with_minutes cfg "30") wallet nft price w.
Proof.
  split; [reflexivity|].
  refine (duration_suffix_is_ignored "30" "." "5" eq_refl eq_refl eq_refl _ _);
    discriminate.
Defined.

(** ** The reason of a failure *)

(** X16: when listNFT fails, the log entry after [START] names the token
    and gives the reason of the error met: the message of the API's response
    when it carries a non-empty one, the error's own message when there is
    no response or the response has no message. *)
Theorem failed_listing_names_its_reason (rt : Runtime) (cfg : Config) (wallet : Wallet)
  (nft : Nft) (price : string) (w : World) :
  (exists ok w' evs,
      SellNfts.listNFT rt cfg wallet nft price w = (Returned ok, w')
      /\ events w' = (events w ++ evs)%list
      /\ (ok = true
          \/ exists e,
              raised rt wallet price e
              /\ nth 1 (file_log evs) EmptyString
                 = "[FAILED] FAILED: Error listing NFT " ++ SellNfts.display_name nft
                   ++ " (ID: " ++ identifier nft ++ "). Reason: " ++ SellNfts.reason rt e))
  /\ (forall e,
        (response e = None -> SellNfts.reason rt e = message e)
        /\ (forall r s,
              response e = Some r -> get "message" (data r) = VStr s ->
              nonempty s = true -> SellNfts.reason rt e = s)
        /\ (forall r,
              response e = Some r -> truthy (get "message" (data r)) = false ->
              SellNfts.reason rt e = message e)).
Proof.
  split.
  - unfold SellNfts.listNFT, SellNfts.listNFT_catch, SellNfts.build_order.
    run_script.
    destruct (parseEther price) as [wei|] eqn:Hp.
    + run_script.
      match goal with
      | |- context [signTypedData rt ?k ?d ?t ?o] =>
          destruct (signTypedData rt k d t o) as [e|sig] eqn:Hs
      end.
      * run_script. destruct (response e) as [r|]; run_script; trace_found;
          right; exists e; (split; [right; left; eexists; exact Hs | reflexivity]).
      * run_script.
        match goal with
        | |- context [axios_post rt ?h ?u ?b ?hd] =>
            destruct (axios_post rt h u b hd) as [e|resp] eqn:Hx
        end.
        -- run_script. destruct (response e) as [r|]; run_script; trace_found;
             right; exists e;
             (split; [right; right; do 4 eexists; exact Hx | reflexivity]).
        -- run_script. trace_found. now left.
    + run_script.
      destruct (response (parseEther_error rt price)) as [r|]; run_script; trace_found;
        right; exists (parseEther_error rt price);
        (split; [left; now split | reflexivity]).
  - intros e. unfold SellNfts.reason. split; [|split].
    + intros ->. reflexivity.
    + intros r s -> -> Hs. cbn [truthy interpolate]. now rewrite Hs.
    + intros r -> ->. reflexivity.
Qed.
